(** * Weather station: the fetch, normalize, validate and cache pipeline

  A shallow embedding of [weather_station/data_manager.py],
  [weather_station/live_data_manager.py], [weather_station/config.py] and
  the [/api/data/weather] route of [weather_station/index.py], with the
  properties of the pipeline proved over it. *)

From Stdlib Require Import String Ascii List ZArith QArith Qround Qabs Bool Lia
  Permutation.
Import ListNotations.
Close Scope Q_scope.
Local Open Scope string_scope.
Local Open Scope list_scope.

Set Implicit Arguments.

(** ** Python values and the operations the code performs on them *)

Module Py.

(** The floats that are not finite.  They are no JSON proper, but
    [json.load] and [response.json()] read [Infinity], [-Infinity], [NaN]
    and a number too large for a float such as [1e999] as one of them, and
    [json.dump] writes them back. *)
Inductive nonfinite : Type :=
| PosInfinity
| NegInfinity
| NaN.

(** What [json.load] and [response.json()] return.  Finite numbers are
    exact rationals: the code never computes with a sample, it only tests
    it against [None]. *)
#[warnings="-register-all"]
Inductive json : Type :=
| JNull
| JBool (b : bool)
| JNum (q : Q)
| JNonFinite (f : nonfinite)
| JStr (s : string)
| JList (l : list json)
| JDict (d : list (string * json)).

(** The exception classes that occur. *)
Inductive exn : Type :=
| TypeError
| KeyError
| AttributeError
| ValueError
| IndexError
| OSError
| JSONDecodeError
| ZeroDivisionError
| Timeout
| ConnectionError
| HTTPError (status : Z).

Inductive result (A : Type) : Type :=
| Ok (a : A)
| Raise (e : exn).
Arguments Ok {A} a.
Arguments Raise {A} e.

Definition bind {A B} (c : result A) (k : A -> result B) : result B :=
  match c with
  | Ok a => k a
  | Raise e => Raise e
  end.

(** [try: c  except Exception as e: h e] *)
Definition try_except {A} (c : result A) (h : exn -> A) : A :=
  match c with
  | Ok a => a
  | Raise e => h e
  end.

(** A [dict] keeps its keys in insertion order. *)
Definition dict (V : Type) : Type := list (string * V).

Section Dict.
Variable V : Type.

Fixpoint dict_get (d : dict V) (k : string) : option V :=
  match d with
  | [] => None
  | (k', v) :: r => if String.eqb k' k then Some v else dict_get r k
  end.

(** [k in d] *)
Definition dict_mem (d : dict V) (k : string) : bool :=
  match dict_get d k with
  | Some _ => true
  | None => false
  end.

(** [d[k] = v]: an existing key keeps its position, a new key goes last. *)
Fixpoint dict_set (d : dict V) (k : string) (v : V) : dict V :=
  match d with
  | [] => [(k, v)]
  | (k', v') :: r =>
      if String.eqb k' k then (k', v) :: r else (k', v') :: dict_set r k v
  end.

Definition keys (d : dict V) : list string := map fst d.

(** [d1 == d2] for dicts with the same value type: same keys, same value
    at each key, whatever the order. *)
Definition dict_equal (d1 d2 : dict V) : Prop :=
  forall k, dict_get d1 k = dict_get d2 k.
End Dict.

(** [bool(j)] *)
Definition py_truthy (j : json) : bool :=
  match j with
  | JNull => false
  | JBool b => b
  | JNum q => negb (Qeq_bool q (0 # 1))
  | JNonFinite _ => true
  | JStr s => negb (String.eqb s "")
  | JList l => match l with [] => false | _ => true end
  | JDict d => match d with [] => false | _ => true end
  end.

Definition is_str (k : string) (j : json) : bool :=
  match j with
  | JStr s => String.eqb s k
  | _ => false
  end.

Definition is_substring (k s : string) : bool :=
  match String.index 0 k s with
  | Some _ => true
  | None => false
  end.

(** [k in j] for a string [k]. *)
Definition py_in (k : string) (j : json) : result bool :=
  match j with
  | JDict d => Ok (dict_mem d k)
  | JList l => Ok (existsb (is_str k) l)
  | JStr s => Ok (is_substring k s)
  | _ => Raise TypeError
  end.

(** [j[k]] for a string [k]. *)
Definition py_getitem (j : json) (k : string) : result json :=
  match j with
  | JDict d =>
      match dict_get d k with
      | Some v => Ok v
      | None => Raise KeyError
      end
  | _ => Raise TypeError
  end.

(** [j[k] = v] for a string [k]; the result is the object after the
    assignment. *)
Definition py_setitem (j : json) (k : string) (v : json) : result json :=
  match j with
  | JDict d => Ok (JDict (dict_set d k v))
  | _ => Raise TypeError
  end.

(** [j.items()] *)
Definition py_items (j : json) : result (dict json) :=
  match j with
  | JDict d => Ok d
  | _ => Raise AttributeError
  end.

(** [len(j)] *)
Definition py_len (j : json) : result nat :=
  match j with
  | JDict d => Ok (List.length d)
  | JList l => Ok (List.length l)
  | JStr s => Ok (String.length s)
  | _ => Raise TypeError
  end.

(** [a, b = j] *)
Definition py_unpack2 (j : json) : result (json * json) :=
  match j with
  | JList [a; b] => Ok (a, b)
  | JList _ => Raise ValueError
  | JDict [(a, _); (b, _)] => Ok (JStr a, JStr b)
  | JDict _ => Raise ValueError
  | JStr (String a (String b EmptyString)) =>
      Ok (JStr (String a EmptyString), JStr (String b EmptyString))
  | JStr _ => Raise ValueError
  | _ => Raise TypeError
  end.

(** [j.get(k, default)] on a dict. *)
Definition py_get (j : json) (k : string) (default : json) : result json :=
  match j with
  | JDict d =>
      match dict_get d k with
      | Some v => Ok v
      | None => Ok default
      end
  | _ => Raise AttributeError
  end.

(** [l[i]] for a list and an integer, negative indices counting from the
    end. *)
Definition py_list_index (l : list json) (i : Z) : result json :=
  let n := Z.of_nat (List.length l) in
  let i := if (i <? 0)%Z then (i + n)%Z else i in
  if (i <? 0)%Z || (n <=? i)%Z then Raise IndexError
  else
    match nth_error l (Z.to_nat i) with
    | Some v => Ok v
    | None => Raise IndexError
    end.

(** [dict(pairs)] *)
Definition dict_of_items {V} (pairs : list (string * V)) : dict V :=
  fold_left (fun d kv => dict_set d (fst kv) (snd kv)) pairs [].

(** [isinstance(j, list)] *)
Definition is_list (j : json) : bool :=
  match j with
  | JList _ => true
  | _ => false
  end.

(** [j is not None] *)
Definition is_not_none (j : json) : bool :=
  match j with
  | JNull => false
  | _ => true
  end.

(** Whether [json.dumps(j, allow_nan=False)] goes through: it raises
    [ValueError] at a float that is not finite. *)
Fixpoint renderable (j : json) : bool :=
  match j with
  | JNonFinite _ => false
  | JList l => forallb renderable l
  | JDict d => forallb (fun kv => renderable (snd kv)) d
  | _ => true
  end.

(** The rendering of the content of a [JSONResponse], which its
    constructor performs with [allow_nan=False]. *)
Definition render (j : json) : result unit :=
  if renderable j then Ok tt else Raise ValueError.

End Py.
Import Py.

Notation "x <- c ;; k" := (Py.bind c (fun x => k))
(at level 61, c at next level, right associativity).

(** [a > b] and [a >= b] on exact rationals. *)
Definition Qgt_bool (a b : Q) : bool := negb (Qle_bool a b).
Definition Qge_bool (a b : Q) : bool := Qle_bool b a.

(** ** Python floats

    A [float] is an IEEE 754 binary64 number.  A finite one is given by the
    rational it denotes; [time.time()] and [st_mtime] are such numbers.  An
    operation gives the exact result rounded to the nearest binary64 number,
    the one with the even significand when two are equally near. *)

Module Float.

Inductive float : Type :=
| Finite (q : Q)
| Infinity (negative : bool).

(** [2 ** e] *)
Definition pow2 (e : Z) : Q :=
  if (0 <=? e)%Z then inject_Z (2 ^ e) else 1 # Z.to_pos (2 ^ (- e)).

(** The integer nearest to [q], the even one of the two when [q] is halfway
    between them. *)
Definition round_half_even (q : Q) : Z :=
  let f := Qfloor q in
  match Qcompare (Qminus q (inject_Z f)) (1 # 2) with
  | Lt => f
  | Gt => (f + 1)%Z
  | Eq => if Z.even f then f else (f + 1)%Z
  end.

(** The [k] with [2 ** k <= a < 2 ** (k + 1)], for [a > 0]. *)
Definition floor_log2 (a : Q) : Z :=
  if Qle_bool 1 a then Z.log2 (Qfloor a)
  else (- Z.log2_up (Qceiling (Qinv a)))%Z.

(** The exponent of the unit in the last place around [a > 0]: a
    significand has 53 bits, and the least exponent is -1074. *)
Definition exponent (a : Q) : Z := Z.max (floor_log2 a - 52) (-1074).

(** The multiple of the unit in the last place nearest to [a > 0]. *)
Definition nearest (a : Q) : Q :=
  let e := exponent a in
  Qmult (inject_Z (round_half_even (Qdiv a (pow2 e)))) (pow2 e).

(** The binary64 number nearest to [x]; what rounds to [2 ** 1024] or
    beyond is an infinity. *)
Definition round (x : Q) : float :=
  let a := Qabs x in
  let negative := negb (Qle_bool 0 x) in
  if Qeq_bool a 0 then Finite 0
  else
    let r := nearest a in
    if Qle_bool (pow2 1024) r then Infinity negative
    else Finite (if negative then Qopp r else r).

(** [a - b] for two finite floats. *)
Definition sub (a b : Q) : float := round (Qred (Qminus a b)).

(** [f >= i] for an [int] [i]: Python compares the two exact values. *)
Definition ge_int (f : float) (i : Z) : bool :=
  match f with
  | Finite q => Qle_bool (inject_Z i) q
  | Infinity negative => negb negative
  end.

End Float.

(** ** config.py *)

Module Config.

(** The environment variables the modelled code depends on; the integer ones
    are given as [int(...)] parsed them. *)
Record environ : Type := {
  env_OPEN_METEO_API_URL : option string;
  env_LIVE_DATA_ENABLED : option string;
  env_DATA_UPDATE_INTERVAL : option Z;
  env_PAST_DAYS : option Z
}.

Definition getenv {A} (v : option A) (default : A) : A :=
  match v with
  | Some x => x
  | None => default
  end.

Definition lower_ascii (c : ascii) : ascii :=
  let n := nat_of_ascii c in
  if (65 <=? n)%nat && (n <=? 90)%nat then ascii_of_nat (n + 32) else c.

(** [s.lower()] on ASCII text. *)
Fixpoint lower (s : string) : string :=
  match s with
  | EmptyString => EmptyString
  | String c r => String (lower_ascii c) (lower r)
  end.

Record WeatherStationConfig : Type := {
  OPEN_METEO_BASE_URL : string;
  LIVE_DATA_ENABLED : bool;
  DATA_UPDATE_INTERVAL : Z;
  PAST_DAYS : Z
}.

(** [WeatherStationConfig.__init__], the fields used by the pipeline. *)
Definition init (env : environ) : WeatherStationConfig :=
  {| OPEN_METEO_BASE_URL :=
       getenv (env_OPEN_METEO_API_URL env) "http://localhost:8080";
     LIVE_DATA_ENABLED :=
       String.eqb (lower (getenv (env_LIVE_DATA_ENABLED env) "true")) "true";
     DATA_UPDATE_INTERVAL := getenv (env_DATA_UPDATE_INTERVAL env) 604800%Z;
     PAST_DAYS := getenv (env_PAST_DAYS env) 16%Z |}.

Definition effective_open_meteo_url (c : WeatherStationConfig) : string :=
  OPEN_METEO_BASE_URL c.

Definition empty_environ : environ :=
  {| env_OPEN_METEO_API_URL := None;
     env_LIVE_DATA_ENABLED := None;
     env_DATA_UPDATE_INTERVAL := None;
     env_PAST_DAYS := None |}.

End Config.
Import Config.

(** ** The world outside the process, and the state of the process *)

Record request : Type := {
  url : string;
  params : dict json;
  timeout : Q
}.

(** A response of the backend: its status and what [response.json()]
    gives. *)
Record response : Type := {
  status_code : Z;
  json_body : result json
}.

(** What can go wrong when [_perform_update] writes the snapshot file:
    creating the directory or opening the file fails (the old file is left
    as it was), or [json.dump] fails after [open(..., 'w')] has truncated
    the file. *)
Inductive write_fault : Type :=
| NoFault
| MkdirFails
| OpenFails
| DumpFails.

(** The collaborators of the pipeline, over a state [W] of everything
    outside the process: the backend, the clock, the catalog file and the
    medium the snapshot file is written to.  Times are seconds as exact
    rationals.  [stat_fault] is the error, other than the ones that say
    there is no such file, that the [os.stat] calls of the staleness check
    meet on the path of the snapshot file, if any: a directory of the path
    that may not be searched, an input/output error. *)
Class Outside (W : Type) : Type := {
  requests_get : request -> W -> result response * W;
  time_sleep : Q -> W -> W;
  time_time : W -> Q;
  datetime_now_isoformat : W -> string;
  locations_file : W -> result json;
  output_write : W -> write_fault;
  stat_fault : W -> option exn
}.

(** The snapshot file [output_data.json]: its modification time and its
    content as [json.load] reads it ([None] when it is not valid JSON).
    Serialising with [json.dump] and parsing back is taken to give the same
    value. *)
Record file : Type := {
  st_mtime : Q;
  content : option json
}.

(** The log lines that carry what the return values do not: the cause of a
    failed fetch and the tallies of a batch.  The other log lines of the
    code are left out. *)
Inductive log_record : Type :=
| WarnTimeout (city : string)
| WarnConnectionError (city : string)
| WarnFailedToFetchLive (city : string) (e : exn)
| InfoDataFetchCompleted (completed failed : nat)
| InfoBatchFetchCompleted (cities errors : nat).

Record state (W : Type) : Type := {
  ext : W;
  output_file : option file;
  log : list log_record;
  _locations_cache : option json;
  _locations_cache_time : Q
}.

Section StateOps.
Context {W : Type}.

Definition with_ext (s : state W) (w : W) : state W :=
  {| ext := w; output_file := output_file s; log := log s;
     _locations_cache := _locations_cache s;
     _locations_cache_time := _locations_cache_time s |}.

Definition with_output_file (s : state W) (f : option file) : state W :=
  {| ext := ext s; output_file := f; log := log s;
     _locations_cache := _locations_cache s;
     _locations_cache_time := _locations_cache_time s |}.

Definition logger (s : state W) (r : log_record) : state W :=
  {| ext := ext s; output_file := output_file s; log := log s ++ [r];
     _locations_cache := _locations_cache s;
     _locations_cache_time := _locations_cache_time s |}.

Definition with_locations_cache (s : state W) (c : option json) : state W :=
  {| ext := ext s; output_file := output_file s; log := log s;
     _locations_cache := c;
     _locations_cache_time := _locations_cache_time s |}.

Definition with_locations_cache_time (s : state W) (t : Q) : state W :=
  {| ext := ext s; output_file := output_file s; log := log s;
     _locations_cache := _locations_cache s;
     _locations_cache_time := t |}.

(** A fresh process: [__init__] of both managers. *)
Definition initial_state (w : W) (f : option file) : state W :=
  {| ext := w; output_file := f; log := [];
     _locations_cache := None; _locations_cache_time := 0 # 1 |}.
End StateOps.

(** ** The Field Normalizer

    [WeatherDataManager._normalize_field_names] (data_manager.py) and
    [LiveWeatherDataManager._normalize_field_names] (live_data_manager.py)
    have the same text; one definition stands for both. *)

Module FieldNormalizer.

Definition field_mappings : dict (list string) :=
  [ ("temperature_2m",
      ["temperature_2m_ecmwf_ifs025"; "temperature_2m_ncep_gfs025";
       "temperature_2m_meteofrance_arpege_world025"]);
    ("relative_humidity_2m",
      ["relative_humidity_2m_ecmwf_ifs025"; "relative_humidity_2m_ncep_gfs025";
       "relative_humidity_2m_meteofrance_arpege_world025"]);
    ("pressure_msl",
      ["pressure_msl_ecmwf_ifs025"; "pressure_msl_ncep_gfs025";
       "pressure_msl_meteofrance_arpege_world025"]);
    ("wind_speed_10m",
      ["wind_speed_10m_ecmwf_ifs025"; "wind_speed_10m_ncep_gfs025";
       "wind_speed_10m_meteofrance_arpege_world025"]);
    ("wind_direction_10m",
      ["wind_direction_10m_ecmwf_ifs025"; "wind_direction_10m_ncep_gfs025";
       "wind_direction_10m_meteofrance_arpege_world025"]);
    ("precipitation",
      ["precipitation_ecmwf_ifs025"; "precipitation_ncep_gfs025";
       "precipitation_meteofrance_arpege_world025"]);
    ("dew_point_2m",
      ["dew_point_2m_ecmwf_ifs025"; "dew_point_2m_ncep_gfs025";
       "dew_point_2m_meteofrance_arpege_world025"]);
    ("apparent_temperature",
      ["apparent_temperature_ecmwf_ifs025"; "apparent_temperature_ncep_gfs025";
       "apparent_temperature_meteofrance_arpege_world025"]) ].

(** The inner [for model_specific_name in model_specific_names] with its
    [break]. *)
Fixpoint first_model_loop (hourly : json) (generic_name : string)
    (model_specific_names : list string) (normalized_hourly : dict json)
  : result (dict json) :=
  match model_specific_names with
  | [] => Ok normalized_hourly
  | model_specific_name :: rest =>
      present <- py_in model_specific_name hourly ;;
      if present then
        v <- py_getitem hourly model_specific_name ;;
        Ok (dict_set normalized_hourly generic_name v)
      else first_model_loop hourly generic_name rest normalized_hourly
  end.

(** [for generic_name, model_specific_names in field_mappings.items()] *)
Fixpoint mappings_loop (hourly : json) (mappings : dict (list string))
    (normalized_hourly : dict json) : result (dict json) :=
  match mappings with
  | [] => Ok normalized_hourly
  | (generic_name, model_specific_names) :: rest =>
      normalized_hourly <-
        first_model_loop hourly generic_name model_specific_names
          normalized_hourly ;;
      mappings_loop hourly rest normalized_hourly
  end.

(** [any(field_name in models for models in field_mappings.values())] *)
Definition is_model_specific (field_name : string) : bool :=
  existsb (fun models => existsb (String.eqb field_name) models)
    (map snd field_mappings).

(** [for field_name, field_data in hourly.items()]: the fields that do not
    need normalization. *)
Fixpoint copy_loop (items : dict json) (normalized_hourly : dict json)
  : dict json :=
  match items with
  | [] => normalized_hourly
  | (field_name, field_data) :: rest =>
      if negb (dict_mem normalized_hourly field_name)
         && negb (is_model_specific field_name)
      then copy_loop rest (dict_set normalized_hourly field_name field_data)
      else copy_loop rest normalized_hourly
  end.

Definition _normalize_field_names (data : json) : result json :=
  if negb (py_truthy data) then Ok data
  else
    has_hourly <- py_in "hourly" data ;;
    if negb has_hourly then Ok data
    else
      hourly <- py_getitem data "hourly" ;;
      let normalized_hourly : dict json := [] in
      has_time <- py_in "time" hourly ;;
      normalized_hourly <-
        (if has_time then
           t <- py_getitem hourly "time" ;;
           Ok (dict_set normalized_hourly "time" t)
         else Ok normalized_hourly) ;;
      normalized_hourly <- mappings_loop hourly field_mappings normalized_hourly ;;
      items <- py_items hourly ;;
      let normalized_hourly := copy_loop items normalized_hourly in
      py_setitem data "hourly" (JDict normalized_hourly).

End FieldNormalizer.

(** The twenty hourly parameters both fetch clients ask for. *)
Definition weather_params : list string :=
  [ "temperature_2m"; "relative_humidity_2m"; "dew_point_2m";
    "apparent_temperature"; "precipitation_probability"; "precipitation";
    "rain"; "showers"; "snowfall"; "snow_depth"; "pressure_msl";
    "surface_pressure"; "cloud_cover"; "visibility"; "uv_index";
    "wind_speed_10m"; "wind_direction_10m"; "wind_gusts_10m";
    "soil_temperature_0cm"; "soil_moisture_0_to_1cm" ].

Definition models_param : string :=
  "ecmwf_ifs025,ncep_gfs025,meteofrance_arpege_world025".

(** [response.raise_for_status()] *)
Definition raise_for_status (r : response) : result unit :=
  if (400 <=? status_code r)%Z && (status_code r <? 600)%Z
  then Raise (HTTPError (status_code r))
  else Ok tt.

(** ** data_manager.py *)

Module WeatherDataManager.

Section Methods.
Context {W : Type} {O : Outside W}.
Variable config : WeatherStationConfig.

(** [output_file.exists()]: [os.stat] on the path; the errors that say
    there is no such file give [False], any other [OSError] is raised
    again. *)
Definition path_exists (s : state W) : result bool :=
  match stat_fault (ext s) with
  | Some e => Raise e
  | None => Ok (match output_file s with Some _ => true | None => false end)
  end.

(** [output_file.stat()] *)
Definition path_stat (s : state W) : result file :=
  match stat_fault (ext s) with
  | Some e => Raise e
  | None =>
      match output_file s with
      | Some f => Ok f
      | None => Raise OSError
      end
  end.

(** [should_update_data]: the age is a difference of two floats, compared
    with the [int] of the configuration; every exception gives [True]. *)
Definition should_update_data (s : state W) : bool :=
  try_except
    (file_exists <- path_exists s ;;
     if negb file_exists then Ok true
     else
       st <- path_stat s ;;
       let file_mtime := st_mtime st in
       let current_time := time_time (ext s) in
       let file_age_seconds := Float.sub current_time file_mtime in
       let needs_update :=
         Float.ge_int file_age_seconds (DATA_UPDATE_INTERVAL config) in
       Ok needs_update)
    (fun _ => true).

(** [load_weather_data]: the file is read again at every call; the log line
    with [len(data)] is inside the [try]. *)
Definition load_weather_data (s : state W) : option json :=
  match output_file s with
  | None => None
  | Some f =>
      try_except
        (data <- match content f with
                 | Some j => Ok j
                 | None => Raise JSONDecodeError
                 end ;;
         _ <- py_len data ;;
         Ok (Some data))
        (fun _ => None)
  end.

(** [_load_locations] *)
Definition _load_locations (s : state W) : json :=
  try_except
    (locations <- locations_file (ext s) ;;
     _ <- py_len locations ;;
     Ok locations)
    (fun _ => JDict []).

(** [_has_valid_weather_data].  [len(values) * 0.25] is exact in binary
    floating point and Python compares an [int] with a [float] exactly, so
    the test is the one on rationals. *)
Definition non_null_count (values : list json) : nat :=
  List.length (filter is_not_none values).

Definition enough_non_null (values : list json) : bool :=
  Qgt_bool (inject_Z (Z.of_nat (non_null_count values)))
           (Qmult (inject_Z (Z.of_nat (List.length values))) (25 # 100)).

Definition key_params : list string :=
  ["temperature_2m"; "pressure_msl"; "relative_humidity_2m"; "wind_speed_10m"].

Fixpoint key_params_loop (hourly : json) (ps : list string) : result bool :=
  match ps with
  | [] => Ok false
  | param :: rest =>
      present <- py_in param hourly ;;
      if present then
        values <- py_getitem hourly param ;;
        match values with
        | JList values =>
            if enough_non_null values then Ok true
            else key_params_loop hourly rest
        | _ => key_params_loop hourly rest
        end
      else key_params_loop hourly rest
  end.

Definition _has_valid_weather_data (data : json) : result bool :=
  if negb (py_truthy data) then Ok false
  else
    has_hourly <- py_in "hourly" data ;;
    if negb has_hourly then Ok false
    else
      hourly <- py_getitem data "hourly" ;;
      key_params_loop hourly key_params.

Definition _normalize_field_names : json -> result json :=
  FieldNormalizer._normalize_field_names.

(** The request [_fetch_live_weather_data] builds. *)
Definition build_request (latitude longitude : json) : request :=
  let params : dict json :=
    [ ("latitude", latitude);
      ("longitude", longitude);
      ("hourly", JStr (String.concat "," weather_params));
      ("past_days", JNum (inject_Z (PAST_DAYS config)));
      ("forecast_days", JNum (7 # 1));
      ("timezone", JStr "auto") ] in
  let params :=
    if is_substring "localhost" (effective_open_meteo_url config)
    then dict_set params "models" (JStr models_param)
    else params in
  {| url := effective_open_meteo_url config ++ "/v1/forecast";
     params := params;
     timeout := 10 # 1 |}.

(** The block "Clean null values from the data". *)
Definition clean_values (values : list json) : list json :=
  map (fun value => match value with JNull => JNull | _ => value end) values.

Fixpoint clean_loop (items : dict json) (cleaned_hourly : dict json)
  : dict json :=
  match items with
  | [] => cleaned_hourly
  | (param, values) :: rest =>
      clean_loop rest
        (dict_set cleaned_hourly param
           match values with
           | JList l => JList (clean_values l)
           | _ => values
           end)
  end.

Definition clean_nulls (data : json) : result json :=
  has_hourly <- py_in "hourly" data ;;
  if has_hourly then
    hourly <- py_getitem data "hourly" ;;
    items <- py_items hourly ;;
    py_setitem data "hourly" (JDict (clean_loop items []))
  else Ok data.

(** What follows [requests.get] inside the [try]. *)
Definition process_response (city : string) (coordinates latitude longitude : json)
    (r : result response) : result json :=
  response <- r ;;
  _ <- raise_for_status response ;;
  data <- json_body response ;;
  data <- _normalize_field_names data ;;
  data <- clean_nulls data ;;
  data <- py_setitem data "city" (JStr city) ;;
  data <- py_setitem data "coordinates" coordinates ;;
  data <- py_setitem data "latitude" latitude ;;
  data <- py_setitem data "longitude" longitude ;;
  Ok data.

(** [_fetch_live_weather_data]: one [except Exception] for every cause. *)
Definition _fetch_live_weather_data (city : string) (coordinates : json)
    (s : state W) : option json * state W :=
  match py_unpack2 coordinates with
  | Raise e => (None, logger s (WarnFailedToFetchLive city e))
  | Ok (latitude, longitude) =>
      let '(r, w) := requests_get (build_request latitude longitude) (ext s) in
      let s := with_ext s w in
      match process_response city coordinates latitude longitude r with
      | Ok data => (Some data, s)
      | Raise e => (None, logger s (WarnFailedToFetchLive city e))
      end
  end.

(** The local variables of [_fetch_data_with_rate_limiting]. *)
Record tally : Type := {
  live_data : dict json;
  completed : nat;
  failed : nat
}.

(** [data and self._has_valid_weather_data(data)] *)
Definition accepted (data : option json) : result bool :=
  match data with
  | None => Ok false
  | Some d => if py_truthy d then _has_valid_weather_data d else Ok false
  end.

(** One turn of the [for] loop: the body of the [try] and its [except]. *)
Definition visit (city : string) (coordinates : json) (t : tally)
    (s : state W) : tally * state W :=
  let s :=
    if (0 <? completed t)%nat
    then with_ext s (time_sleep (11 # 10) (ext s))
    else s in
  let '(data, s) := _fetch_live_weather_data city coordinates s in
  match accepted data, data with
  | Ok true, Some d =>
      ({| live_data := dict_set (live_data t) city d;
          completed := S (completed t);
          failed := failed t |}, s)
  | Ok _, _ =>
      ({| live_data := live_data t;
          completed := completed t;
          failed := S (failed t) |}, s)
  | Raise _, _ =>
      ({| live_data := live_data t;
          completed := completed t;
          failed := S (failed t) |}, s)
  end.

Fixpoint fetch_loop (items : dict json) (t : tally) (s : state W)
  : tally * state W :=
  match items with
  | [] => (t, s)
  | (city, coordinates) :: rest =>
      let '(t, s) := visit city coordinates t s in
      fetch_loop rest t s
  end.

(** [_fetch_data_with_rate_limiting].  [len(locations)] and
    [locations.items()] raise on a value that has none, and the success
    rate divides by the number of locations. *)
Definition _fetch_data_with_rate_limiting (locations : json) (s : state W)
  : result (dict json) * state W :=
  match py_len locations with
  | Raise e => (Raise e, s)
  | Ok total_locations =>
      match py_items locations with
      | Raise e => (Raise e, s)
      | Ok items =>
          let '(t, s) :=
            fetch_loop items
              {| live_data := []; completed := 0; failed := 0 |} s in
          if (total_locations =? 0)%nat then (Raise ZeroDivisionError, s)
          else
            (Ok (live_data t),
             logger s (InfoDataFetchCompleted (completed t) (failed t)))
      end
  end.

(** The write of the snapshot file in [_perform_update]: [mkdir], [open],
    [json.dump].  The [stat] in the log line that follows a successful write
    succeeds, as the file was just written. *)
Definition write_output (fresh_data : dict json) (s : state W)
  : result unit * state W :=
  match output_write (ext s) with
  | MkdirFails => (Raise OSError, s)
  | OpenFails => (Raise OSError, s)
  | DumpFails =>
      (Raise OSError,
       with_output_file s
         (Some {| st_mtime := time_time (ext s); content := None |}))
  | NoFault =>
      (Ok tt,
       with_output_file s
         (Some {| st_mtime := time_time (ext s);
                  content := Some (JDict fresh_data) |}))
  end.

(** [_perform_update] *)
Definition _perform_update (s : state W) : bool * state W :=
  let locations := _load_locations s in
  if negb (py_truthy locations) then (false, s)
  else
    match py_len locations with
    | Raise _ => (false, s)
    | Ok _ =>
        let '(fresh_data, s) := _fetch_data_with_rate_limiting locations s in
        match fresh_data with
        | Raise _ => (false, s)
        | Ok fresh_data =>
            match fresh_data with
            | [] => (false, s)
            | _ :: _ =>
                let '(w, s) := write_output fresh_data s in
                match w with
                | Ok _ => (true, s)
                | Raise _ => (false, s)
                end
            end
        end
    end.

Definition force_update (s : state W) : bool * state W :=
  _perform_update s.

End Methods.
End WeatherDataManager.

(** ** live_data_manager.py *)

Module LiveWeatherDataManager.

Section Methods.
Context {W : Type} {O : Outside W}.
Variable config : WeatherStationConfig.

(** [load_locations]: the catalog, cached for five minutes. *)
Definition load_locations (s : state W) : json * state W :=
  let current_time := time_time (ext s) in
  let expired :=
    match _locations_cache s with
    | None => true
    | Some _ =>
        Qgt_bool (Qminus current_time (_locations_cache_time s)) (300 # 1)
    end in
  let s :=
    if expired then
      match locations_file (ext s) with
      | Raise _ => with_locations_cache s (Some (JDict []))
      | Ok loaded =>
          let s := with_locations_cache s (Some loaded) in
          let s := with_locations_cache_time s current_time in
          match py_len loaded with
          | Ok _ => s
          | Raise _ => with_locations_cache s (Some (JDict []))
          end
      end
    else s in
  match _locations_cache s with
  | Some c => if py_truthy c then (c, s) else (JDict [], s)
  | None => (JDict [], s)
  end.

Definition _normalize_field_names : json -> result json :=
  FieldNormalizer._normalize_field_names.

Definition build_request (latitude longitude : json) : request :=
  {| url := effective_open_meteo_url config ++ "/v1/forecast";
     params :=
       [ ("latitude", latitude);
         ("longitude", longitude);
         ("hourly", JStr (String.concat "," weather_params));
         ("past_days", JNum (1 # 1));
         ("forecast_days", JNum (7 # 1));
         ("timezone", JStr "auto");
         ("models", JStr models_param) ];
     timeout := 5 # 1 |}.

(** What follows [requests.get] inside the [try]; [now] is what
    [datetime.now().isoformat()] gives when the metadata is attached. *)
Definition process_response (city : string) (coordinates latitude longitude : json)
    (now : string) (r : result response) : result json :=
  response <- r ;;
  _ <- raise_for_status response ;;
  data <- json_body response ;;
  data <- _normalize_field_names data ;;
  data <- py_setitem data "city" (JStr city) ;;
  data <- py_setitem data "coordinates" coordinates ;;
  data <- py_setitem data "latitude" latitude ;;
  data <- py_setitem data "longitude" longitude ;;
  data <- py_setitem data "fetch_time" (JStr now) ;;
  Ok data.

(** The three [except] clauses: each logs its own line and returns
    [None]. *)
Definition on_exception (city : string) (e : exn) (s : state W)
  : option json * state W :=
  match e with
  | Timeout => (None, logger s (WarnTimeout city))
  | ConnectionError => (None, logger s (WarnConnectionError city))
  | _ => (None, logger s (WarnFailedToFetchLive city e))
  end.

(** [_fetch_live_weather_data] *)
Definition _fetch_live_weather_data (city : string) (coordinates : json)
    (s : state W) : option json * state W :=
  match py_unpack2 coordinates with
  | Raise e => on_exception city e s
  | Ok (latitude, longitude) =>
      let '(r, w) := requests_get (build_request latitude longitude) (ext s) in
      let s := with_ext s w in
      match process_response city coordinates latitude longitude
              (datetime_now_isoformat w) r with
      | Ok data => (Some data, s)
      | Raise e => on_exception city e s
      end
  end.

(** The local variables of [_fetch_multiple_cities_data]. *)
Record batch : Type := {
  result_map : dict json;
  count : nat;
  errors : nat
}.

(** [if data:] *)
Definition truthy (data : option json) : bool :=
  match data with
  | Some d => py_truthy d
  | None => false
  end.

(** The [for] loop of [_fetch_multiple_cities_data], with its [break] at the
    limit.  The progress line divides by the elapsed time. *)
Fixpoint cities_loop (len_locations : nat) (limit : Z) (start_time : Q)
    (items : dict json) (b : batch) (s : state W) : result batch * state W :=
  match items with
  | [] => (Ok b, s)
  | (city, coordinates) :: rest =>
      if negb (limit =? 0)%Z && (limit <=? Z.of_nat (count b))%Z then (Ok b, s)
      else
        let '(data, s) := _fetch_live_weather_data city coordinates s in
        let b :=
          match data with
          | Some d =>
              if truthy data then
                {| result_map := dict_set (result_map b) city d;
                   count := S (count b);
                   errors := errors b |}
              else
                {| result_map := result_map b;
                   count := count b;
                   errors := S (errors b) |}
          | None =>
              {| result_map := result_map b;
                 count := count b;
                 errors := S (errors b) |}
          end in
        let s :=
          if (Z.of_nat (count b) <? Z.of_nat len_locations - 1)%Z
             && negb (count b mod 10 =? 9)%nat
          then with_ext s (time_sleep (1 # 1000) (ext s))
          else s in
        if (0 <? count b)%nat && (count b mod 10 =? 0)%nat then
          let elapsed := Qminus (time_time (ext s)) start_time in
          if Qeq_bool elapsed (0 # 1) then (Raise ZeroDivisionError, s)
          else cities_loop len_locations limit start_time rest b s
        else cities_loop len_locations limit start_time rest b s
  end.

(** [_fetch_multiple_cities_data] *)
Definition _fetch_multiple_cities_data (locations : json) (limit : Z)
    (s : state W) : result (dict json) * state W :=
  let start_time := time_time (ext s) in
  match py_len locations with
  | Raise e => (Raise e, s)
  | Ok len_locations =>
      match py_items locations with
      | Raise e => (Raise e, s)
      | Ok items =>
          let '(r, s) :=
            cities_loop len_locations limit start_time items
              {| result_map := []; count := 0; errors := 0 |} s in
          match r with
          | Raise e => (Raise e, s)
          | Ok b =>
              (Ok (result_map b),
               logger s
                 (InfoBatchFetchCompleted (List.length (result_map b))
                    (errors b)))
          end
      end
  end.

(** [get_weather_data(city)]; [city] is [None] when the argument is left
    out. *)
Definition get_weather_data (city : option string) (s : state W)
  : result (option json) * state W :=
  let '(locations, s) := load_locations s in
  if negb (py_truthy locations) then (Ok None, s)
  else
    let for_all_cities :=
      let '(r, s) := _fetch_multiple_cities_data locations 300%Z s in
      (d <- r ;; Ok (Some (JDict d)), s) in
    match city with
    | None => for_all_cities
    | Some c =>
        if String.eqb c "" then for_all_cities
        else
          match py_in c locations with
          | Raise e => (Raise e, s)
          | Ok false => (Ok None, s)
          | Ok true =>
              match py_getitem locations c with
              | Raise e => (Raise e, s)
              | Ok coordinates =>
                  let '(data, s) := _fetch_live_weather_data c coordinates s in
                  (Ok data, s)
              end
          end
    end.

Record current_conditions : Type := {
  cc_city : string;
  cc_coordinates : json;
  cc_timezone : json;
  cc_fetch_time : json;
  current : dict json
}.

Definition current_hour_index : Z := (-1)%Z.

(** [for param, values in hourly.items()] of [get_current_conditions]. *)
Fixpoint current_loop (items : dict json) (current : dict json)
  : result (dict json) :=
  match items with
  | [] => Ok current
  | (param, values) :: rest =>
      match values with
      | JList l =>
          if (Z.abs current_hour_index <? Z.of_nat (List.length l))%Z then
            v <- py_list_index l current_hour_index ;;
            current_loop rest (dict_set current param v)
          else current_loop rest current
      | _ => current_loop rest current
      end
  end.

(** [get_current_conditions]; the call of [get_weather_data] and the first
    test are outside the [try]. *)
Definition get_current_conditions (city : string) (s : state W)
  : result (option current_conditions) * state W :=
  let '(r, s) := get_weather_data (Some city) s in
  match r with
  | Raise e => (Raise e, s)
  | Ok None => (Ok None, s)
  | Ok (Some data) =>
      if negb (py_truthy data) then (Ok None, s)
      else
        match py_in "hourly" data with
        | Raise e => (Raise e, s)
        | Ok false => (Ok None, s)
        | Ok true =>
            (Ok (try_except
                   (hourly <- py_getitem data "hourly" ;;
                    coordinates <- py_get data "coordinates" (JList []) ;;
                    timezone <- py_get data "timezone" (JStr "UTC") ;;
                    fetch_time <- py_get data "fetch_time" JNull ;;
                    items <- py_items hourly ;;
                    current <- current_loop items [] ;;
                    Ok (Some {| cc_city := city;
                                cc_coordinates := coordinates;
                                cc_timezone := timezone;
                                cc_fetch_time := fetch_time;
                                current := current |}))
                   (fun _ => None)), s)
        end
  end.

(** [get_api_status], the fields [accessible] and [status_code]. *)
Definition get_api_status (s : state W) : (bool * Z) * state W :=
  let probe :=
    {| url := effective_open_meteo_url config ++ "/v1/forecast";
       params :=
         [ ("latitude", JNum (407 # 10));
           ("longitude", JNum (-740 # 10));
           ("hourly",
             JStr "temperature_2m,relative_humidity_2m,pressure_msl,wind_speed_10m");
           ("forecast_days", JNum (1 # 1));
           ("models", JStr models_param) ];
       timeout := 10 # 1 |} in
  let '(r, w) := requests_get probe (ext s) in
  let s := with_ext s w in
  match r with
  | Ok response => (((status_code response =? 200)%Z, status_code response), s)
  | Raise _ => ((false, (-1)%Z), s)
  end.

End Methods.
End LiveWeatherDataManager.

(** ** index.py: the route [/api/data/weather] *)

Module Index.

(** The content of a [JSONResponse].  Of an error response the [error]
    field is kept; of a data response the fields computed from the data.
    The message, diagnostic and timing fields are left out. *)
Inductive body : Type :=
| ErrorContent (error : string)
| LiveContent (data : dict json) (locations : list string)
    (total_available requested fetched : nat)
| FileContent (data : dict json) (locations : list string) (total : nat).

Record JSONResponse : Type := {
  resp_content : body;
  resp_status : Z
}.

(** The [data] field of a response, when it has one. *)
Definition resp_data (r : JSONResponse) : option (dict json) :=
  match resp_content r with
  | ErrorContent _ => None
  | LiveContent data _ _ _ _ => Some data
  | FileContent data _ _ => Some data
  end.

Section Routes.
Context {W : Type} {O : Outside W}.
Variable config : WeatherStationConfig.

(** [WeatherDataManager.get_data_info], the fields [exists],
    [location_count] and [api_accessible]; it probes the backend. *)
Definition get_data_info (s : state W) : (bool * nat * bool) * state W :=
  let file_exists :=
    match output_file s with Some _ => true | None => false end in
  let location_count :=
    match output_file s with
    | Some f =>
        match content f with
        | Some data => try_except (py_len data) (fun _ => 0%nat)
        | None => 0%nat
        end
    | None => 0%nat
    end in
  let probe :=
    {| url := effective_open_meteo_url config
              ++ "/v1/forecast?latitude=0&longitude=0";
       params := [];
       timeout := 5 # 1 |} in
  let '(r, w) := requests_get probe (ext s) in
  let is_api_accessible :=
    match r with
    | Ok response => (status_code response =? 200)%Z
    | Raise _ => false
    end in
  ((file_exists, location_count, is_api_accessible), with_ext s w).

Definition internal_server_error : JSONResponse :=
  {| resp_content := ErrorContent "Internal server error"; resp_status := 500 |}.

(** [limit = max(1, min(limit, 300))] *)
Definition sanitize_limit (limit : Z) : Z := Z.max 1 (Z.min limit 300).

(** [dict(list(d.items())[:limit])] *)
Definition take (limit : Z) (items : dict json) : dict json :=
  dict_of_items (firstn (Z.to_nat limit) items).

(** The live branch of [get_weather_data], after the limit is sanitized. *)
Definition live_branch (limit : Z) (s : state W) : JSONResponse * state W :=
  let '(locations, s) := LiveWeatherDataManager.load_locations s in
  if negb (py_truthy locations) then
    ({| resp_content := ErrorContent "No locations available";
        resp_status := 404 |}, s)
  else
    match py_items locations with
    | Raise _ => (internal_server_error, s)
    | Ok items =>
        let limited_locations := take limit items in
        let '(r, s) :=
          LiveWeatherDataManager._fetch_multiple_cities_data config
            (JDict limited_locations) limit s in
        match r with
        | Raise _ => (internal_server_error, s)
        | Ok [] =>
            let '(_, s) := LiveWeatherDataManager.get_api_status config s in
            ({| resp_content := ErrorContent "Weather data not available";
                resp_status := 503 |}, s)
        | Ok data =>
            (try_except
               (_ <- render (JDict data) ;;
                Ok {| resp_content :=
                        LiveContent data (keys data) (List.length items)
                          (List.length limited_locations) (List.length data);
                      resp_status := 200 |})
               (fun _ => internal_server_error), s)
        end
    end.

(** The file branch of [get_weather_data]. *)
Definition file_branch (limit : Z) (s : state W) : JSONResponse * state W :=
  match WeatherDataManager.load_weather_data s with
  | None =>
      let '(_, s) := get_data_info s in
      ({| resp_content := ErrorContent "Weather data not available";
          resp_status := 404 |}, s)
  | Some data =>
      (try_except
         (n <- py_len data ;;
          data <- (if (limit <? Z.of_nat n)%Z then
                     items <- py_items data ;; Ok (take limit items)
                   else py_items data) ;;
          _ <- render (JDict data) ;;
          Ok {| resp_content :=
                  FileContent data (keys data) (List.length data);
                resp_status := 200 |})
         (fun _ => internal_server_error), s)
  end.

(** [get_weather_data(limit)] *)
Definition get_weather_data (limit : Z) (s : state W) : JSONResponse * state W :=
  let limit := sanitize_limit limit in
  if LIVE_DATA_ENABLED config then live_branch limit s
  else file_branch limit s.

End Routes.
End Index.

(** ** Notions the properties are stated with *)

(** The value of the first name of [names], in their order, that [h] has. *)
Fixpoint first_present (h : dict json) (names : list string) : option json :=
  match names with
  | [] => None
  | n :: rest =>
      match dict_get h n with
      | Some v => Some v
      | None => first_present h rest
      end
  end.

(** What the model-qualified fields of [h] bind the canonical field [k]
    to. *)
Definition canonical_binding (h : dict json) (k : string) : option json :=
  match dict_get FieldNormalizer.field_mappings k with
  | Some names => first_present h names
  | None => None
  end.

(** What a batch of the data manager finds location by location. *)
Section BatchNotions.
Context {W : Type} {O : Outside W}.
Variable config : WeatherStationConfig.

(** The accepted record of one location, if there is one, when [completed]
    locations were accepted before it, and the state after the attempt. *)
Definition outcome (completed : nat) (city : string) (coordinates : json)
    (s : state W) : option json * state W :=
  let s :=
    if (0 <? completed)%nat
    then with_ext s (time_sleep (11 # 10) (ext s))
    else s in
  let '(data, s) :=
    WeatherDataManager._fetch_live_weather_data config city coordinates s in
  match data, WeatherDataManager.accepted data with
  | Some d, Ok true => (Some d, s)
  | _, _ => (None, s)
  end.

(** The outcome of every location of a catalog, in its order. *)
Fixpoint outcomes (items : dict json) (completed : nat) (s : state W)
  : list (string * option json) :=
  match items with
  | [] => []
  | (city, coordinates) :: rest =>
      let '(o, s) := outcome completed city coordinates s in
      (city, o)
      :: outcomes rest
           match o with Some _ => S completed | None => completed end s
  end.

Definition accepted_records (tr : list (string * option json)) : dict json :=
  flat_map (fun co => match snd co with
                      | Some d => [(fst co, d)]
                      | None => []
                      end) tr.

Definition failures (tr : list (string * option json)) : nat :=
  List.length (filter (fun co => match snd co with
                                 | Some _ => false
                                 | None => true
                                 end) tr).

(** The local variables of the batch when its loop starts. *)
Definition empty_tally : WeatherDataManager.tally :=
  {| WeatherDataManager.live_data := [];
     WeatherDataManager.completed := 0;
     WeatherDataManager.failed := 0 |}.

End BatchNotions.


(** The latest sample of a series that has at least two. *)
Definition latest (values : json) : option json :=
  match values with
  | JList l => if (2 <=? List.length l)%nat then Some (List.last l JNull) else None
  | _ => None
  end.

(** ** Sample inputs *)

Definition sample_times : json :=
  JList [JStr "2024-01-01T00:00"; JStr "2024-01-01T01:00"].

(** An hourly series that uses canonical names only. *)
Definition sample_canonical_hourly : dict json :=
  [ ("time", sample_times);
    ("temperature_2m", JList [JNum (21 # 1); JNum (22 # 1)]);
    ("rain", JList [JNull; JNum (0 # 1)]) ].

(** An hourly series as the self-hosted backend answers, with
    model-qualified names. *)
Definition sample_model_hourly : dict json :=
  [ ("temperature_2m_ncep_gfs025", JList [JNum (19 # 1); JNum (20 # 1)]);
    ("time", sample_times);
    ("temperature_2m_meteofrance_arpege_world025", JList [JNull; JNull]);
    ("pressure_msl", JList [JNum (1013 # 1); JNull]);
    ("uv_index", JList [JNum (3 # 1); JNum (4 # 1)]) ].

(** The four key parameters of the Quality Validator. *)
Definition key_parameter (param : string) : Prop :=
  param = "temperature_2m" \/ param = "pressure_msl" \/
  param = "relative_humidity_2m" \/ param = "wind_speed_10m".

(** The number of samples of a series that are not null. *)
Fixpoint non_null_samples (values : list json) : nat :=
  match values with
  | [] => 0
  | JNull :: rest => non_null_samples rest
  | _ :: rest => S (non_null_samples rest)
  end.

(** The count of non-null samples strictly exceeds 0.25 times the length. *)
Definition exceeds_quarter (values : list json) : Prop :=
  (inject_Z (Z.of_nat (List.length values)) * (1 # 4)
   < inject_Z (Z.of_nat (WeatherDataManager.non_null_count values)))%Q.

(** Ten samples of which the first three are numbers. *)
Definition sample_thirty_percent : list json :=
  [JNum (5 # 1); JNum (6 # 1); JNum (7 # 1);
   JNull; JNull; JNull; JNull; JNull; JNull; JNull].

Definition sample_all_null : list json := repeat JNull 10.

Definition sample_sparse_hourly : dict json :=
  [ ("time", JList (repeat (JStr "t") 10));
    ("temperature_2m", JList sample_all_null);
    ("pressure_msl", JList sample_thirty_percent);
    ("relative_humidity_2m", JList sample_all_null);
    ("wind_speed_10m", JList sample_all_null) ].

Definition sample_sparse_record : dict json :=
  [ ("hourly", JDict sample_sparse_hourly); ("city", JStr "Paris") ].

(** A record whose four key parameters have null samples only. *)
Definition sample_null_hourly : dict json :=
  [ ("time", JList (repeat (JStr "t") 10));
    ("temperature_2m", JList sample_all_null);
    ("pressure_msl", JList sample_all_null);
    ("relative_humidity_2m", JList sample_all_null);
    ("wind_speed_10m", JList sample_all_null);
    ("rain", JList sample_thirty_percent) ].

Definition sample_null_record : dict json :=
  [ ("hourly", JDict sample_null_hourly); ("city", JStr "Paris") ].

(** A simulated outside world: a clock, the answers the backend gives to
    the coming requests in their order (a refused connection once they run
    out), the content of the catalog file, what the next write of the
    snapshot file meets and what [os.stat] on its path meets. *)
Record sim : Type := {
  clock : Q;
  backend : list (result response);
  catalog : result json;
  write_result : write_fault;
  stat_result : option exn
}.

Definition sim_requests_get (_ : request) (w : sim) : result response * sim :=
  match backend w with
  | [] => (Raise ConnectionError, w)
  | r :: rest =>
      (r, {| clock := clock w; backend := rest; catalog := catalog w;
             write_result := write_result w; stat_result := stat_result w |})
  end.

Definition sim_time_sleep (seconds : Q) (w : sim) : sim :=
  {| clock := Qred (Qplus (clock w) seconds); backend := backend w;
     catalog := catalog w; write_result := write_result w;
     stat_result := stat_result w |}.

#[export] Instance sim_outside : Outside sim := {
  requests_get := sim_requests_get;
  time_sleep := sim_time_sleep;
  time_time := clock;
  datetime_now_isoformat := fun _ => "2024-01-09T12:00:00";
  locations_file := catalog;
  output_write := write_result;
  stat_fault := stat_result
}.

Definition sample_config : WeatherStationConfig := Config.init empty_environ.

Definition seconds_per_day : Z := 86400.

(** Noon of the ninth day, in seconds. *)
Definition sample_now : Q := inject_Z 734400.

Definition sample_snapshot : json :=
  JDict [("Paris", JDict sample_sparse_record)].

Definition sample_world : sim :=
  {| clock := sample_now; backend := []; catalog := Raise OSError;
     write_result := NoFault; stat_result := None |}.

(** A process whose snapshot file was saved [age] seconds ago. *)
Definition sample_state_aged (age : Z) : state sim :=
  initial_state sample_world
    (Some {| st_mtime := inject_Z (734400 - age);
             content := Some sample_snapshot |}).

(** The snapshot file was saved one hour ago, and [os.stat] is refused on
    its path. *)
Definition sample_state_unreachable : state sim :=
  initial_state
    {| clock := sample_now; backend := []; catalog := Raise OSError;
       write_result := NoFault; stat_result := Some OSError |}
    (Some {| st_mtime := inject_Z (734400 - 3600);
             content := Some sample_snapshot |}).

(** An interval of 1699999900 seconds, and a snapshot file dated 100
    seconds and [2 ** -24] after the epoch, examined at 1700000000 seconds:
    all three are binary64 numbers. *)
Definition sample_config_long : WeatherStationConfig :=
  Config.init
    {| env_OPEN_METEO_API_URL := None;
       env_LIVE_DATA_ENABLED := None;
       env_DATA_UPDATE_INTERVAL := Some 1699999900%Z;
       env_PAST_DAYS := None |}.

Definition sample_state_rounding : state sim :=
  initial_state
    {| clock := inject_Z 1700000000; backend := []; catalog := Raise OSError;
       write_result := NoFault; stat_result := None |}
    (Some {| st_mtime := Qplus (inject_Z 100) (1 # 16777216);
             content := Some sample_snapshot |}).

Definition sample_paris : json := JList [JNum (4885 # 100); JNum (235 # 100)].
Definition sample_tokyo : json := JList [JNum (3568 # 100); JNum (13969 # 100)].
Definition sample_lima : json := JList [JNum (-1205 # 100); JNum (-7704 # 100)].

(** A catalog of three locations. *)
Definition sample_catalog : dict json :=
  [("Paris", sample_paris); ("Tokyo", sample_tokyo); ("Lima", sample_lima)].

(** An answer of the backend with usable data, and an answer with status
    500. *)
Definition sample_good_answer : result response :=
  Ok {| status_code := 200;
        json_body := Ok (JDict [ ("timezone", JStr "GMT");
                                 ("hourly", JDict sample_model_hourly) ]) |}.

Definition sample_server_error : result response :=
  Ok {| status_code := 500; json_body := Raise JSONDecodeError |}.

(** A fresh process with the three-location catalog and no snapshot file,
    facing a backend that gives [answers]. *)
Definition sample_state_answering (answers : list (result response))
  : state sim :=
  initial_state
    {| clock := sample_now; backend := answers;
       catalog := Ok (JDict sample_catalog); write_result := NoFault;
       stat_result := None |}
    None.

(** Paris and Lima answer with usable data; the request for Tokyo, the
    second location, is refused. *)
Definition sample_state_second_fails : state sim :=
  sample_state_answering
    [sample_good_answer; Raise ConnectionError; sample_good_answer].

(** Every request times out. *)
Definition sample_state_all_fail : state sim :=
  initial_state
    {| clock := sample_now;
       backend := [Raise Timeout; Raise Timeout; Raise Timeout];
       catalog := Ok (JDict sample_catalog); write_result := NoFault;
       stat_result := None |}
    (Some {| st_mtime := inject_Z 0; content := Some sample_snapshot |}).

(** The backend answers, but the snapshot file cannot be opened for
    writing; an older snapshot is on disk. *)
Definition sample_state_failing_write : state sim :=
  initial_state
    {| clock := sample_now;
       backend := [sample_good_answer; sample_good_answer; sample_good_answer];
       catalog := Ok (JDict sample_catalog); write_result := OpenFails;
       stat_result := None |}
    (Some {| st_mtime := inject_Z 0; content := Some sample_snapshot |}).

(** What the batch of [sample_state_second_fails] yields. *)
Definition sample_fresh : dict json :=
  match fst (WeatherDataManager._fetch_data_with_rate_limiting sample_config
               (WeatherDataManager._load_locations sample_state_second_fails)
               sample_state_second_fails) with
  | Ok d => d
  | Raise _ => []
  end.

(** A fresh process with live data on, the three-location catalog and a
    backend that answers every request of a batch. *)
Definition sample_state_live : state sim :=
  sample_state_answering
    [sample_good_answer; sample_good_answer; sample_good_answer].

(** A backend whose answer has a parameter with a single sample. *)
Definition sample_short_hourly : dict json :=
  [ ("time", sample_times);
    ("temperature_2m_ecmwf_ifs025", JList [JNum (19 # 1); JNum (20 # 1)]);
    ("uv_index", JList [JNum (3 # 1)]);
    ("interval", JNum (3600 # 1)) ].

Definition sample_state_short : state sim :=
  sample_state_answering
    [Ok {| status_code := 200;
           json_body := Ok (JDict [("hourly", JDict sample_short_hourly)]) |}].


(** ** config.py: the list settings and the validation *)

Module ConfigLists.

(** [c.isspace()] for a character below 256. *)
Definition is_space (c : ascii) : bool :=
  let n := nat_of_ascii c in
  ((9 <=? n)%nat && (n <=? 13)%nat)
  || ((28 <=? n)%nat && (n <=? 32)%nat)
  || (n =? 133)%nat || (n =? 160)%nat.

(** [s.lstrip()] *)
Fixpoint lstrip (s : string) : string :=
  match s with
  | EmptyString => EmptyString
  | String c r => if is_space c then lstrip r else s
  end.

(** [s.rstrip()] *)
Fixpoint rstrip (s : string) : string :=
  match s with
  | EmptyString => EmptyString
  | String c r =>
      match rstrip r with
      | EmptyString => if is_space c then EmptyString else String c EmptyString
      | r' => String c r'
      end
  end.

(** [s.strip()] *)
Definition strip (s : string) : string := rstrip (lstrip s).

(** [s.split(sep)] for a separator of one character. *)
Fixpoint split (sep : ascii) (s : string) : list string :=
  match s with
  | EmptyString => [EmptyString]
  | String c r =>
      if Ascii.eqb c sep then EmptyString :: split sep r
      else
        match split sep r with
        | [] => [String c EmptyString]
        | item :: items => String c item :: items
        end
  end.

(** [WeatherStationConfig._parse_list] *)
Definition _parse_list (value : string) : list string :=
  if String.eqb value "" || String.eqb value "*" then ["*"]
  else
    map strip
      (filter (fun item => negb (String.eqb (strip item) ""))
         (split "," value)).

End ConfigLists.

Module ConfigValidation.

(** The settings [validate] checks besides [PAST_DAYS]. *)
Record ServerSettings : Type := {
  PORT : Z;
  SELF_HOSTED_PORT : Z;
  MAX_RETRIES : Z;
  RETRY_DELAY : Z
}.

Record server_environ : Type := {
  env_WEATHER_STATION_PORT : option Z;
  env_SELF_HOSTED_PORT : option Z;
  env_MAX_RETRIES : option Z;
  env_RETRY_DELAY : option Z
}.

(** The part of [WeatherStationConfig.__init__] that reads them. *)
Definition init_server (env : server_environ) : ServerSettings :=
  {| PORT := getenv (env_WEATHER_STATION_PORT env) 8110%Z;
     SELF_HOSTED_PORT := getenv (env_SELF_HOSTED_PORT env) 8080%Z;
     MAX_RETRIES := getenv (env_MAX_RETRIES env) 3%Z;
     RETRY_DELAY := getenv (env_RETRY_DELAY env) 5%Z |}.

(** The lines [validate] collects in [errors]. *)
Inductive config_error : Type :=
| InvalidPort (port : Z)
| InvalidSelfHostedPort (port : Z)
| InvalidPastDays (days : Z)
| InvalidMaxRetries (retries : Z)
| InvalidRetryDelay (delay : Z)
| CannotCreateDirectories (e : exn).

(** [errors.append(x)] under a condition. *)
Definition append_if (cond : bool) (x : config_error)
    (errors : list config_error) : list config_error :=
  if cond then errors ++ [x] else errors.

(** [validate]: the answer and the errors it prints; [makedirs] is what
    creating the two directories gives. *)
Definition validate (c : WeatherStationConfig) (srv : ServerSettings)
    (makedirs : result unit) : bool * list config_error :=
  let errors : list config_error := [] in
  let errors :=
    append_if (negb ((1 <=? PORT srv)%Z && (PORT srv <=? 65535)%Z))
      (InvalidPort (PORT srv)) errors in
  let errors :=
    append_if (negb ((1 <=? SELF_HOSTED_PORT srv)%Z
                     && (SELF_HOSTED_PORT srv <=? 65535)%Z))
      (InvalidSelfHostedPort (SELF_HOSTED_PORT srv)) errors in
  let errors :=
    append_if ((PAST_DAYS c <? 1)%Z || (365 <? PAST_DAYS c)%Z)
      (InvalidPastDays (PAST_DAYS c)) errors in
  let errors :=
    append_if (MAX_RETRIES srv <? 0)%Z
      (InvalidMaxRetries (MAX_RETRIES srv)) errors in
  let errors :=
    append_if (RETRY_DELAY srv <? 0)%Z
      (InvalidRetryDelay (RETRY_DELAY srv)) errors in
  let errors :=
    match makedirs with
    | Ok _ => errors
    | Raise e => errors ++ [CannotCreateDirectories e]
    end in
  match errors with
  | [] => (true, [])
  | _ :: _ => (false, errors)
  end.

Definition empty_server_environ : server_environ :=
  {| env_WEATHER_STATION_PORT := None; env_SELF_HOSTED_PORT := None;
     env_MAX_RETRIES := None; env_RETRY_DELAY := None |}.

End ConfigValidation.

(** ** index.py: the other data routes *)

Module Routes.

(** [s[n:]] on a string. *)
Fixpoint drop (n : nat) (s : string) : string :=
  match n, s with
  | O, _ => s
  | S n, String _ r => drop n r
  | S _, EmptyString => EmptyString
  end.

(** [s.replace(old, new)] for a pattern [old] that is not empty: the
    occurrences are taken from the left and do not overlap. *)
Fixpoint replace_loop (fuel : nat) (old new s : string) : string :=
  match fuel with
  | O => s
  | S fuel =>
      match s with
      | EmptyString => EmptyString
      | String c r =>
          if String.prefix old s
          then new ++ replace_loop fuel old new (drop (String.length old) s)
          else String c (replace_loop fuel old new r)
      end
  end.

Definition py_replace (old new s : string) : string :=
  replace_loop (S (String.length s)) old new s.

(** [l[start:]] *)
Definition py_slice_from {A : Type} (l : list A) (start : Z) : list A :=
  let n := Z.of_nat (List.length l) in
  let i := if (start <? 0)%Z then Z.max 0 (start + n) else Z.min start n in
  skipn (Z.to_nat i) l.

(** The answer of [/api/data/force-update]: the fields [success] and
    [error] and the status. *)
Record update_response : Type := {
  upd_success : bool;
  upd_error : option string;
  upd_status : Z
}.

(** The answer of [/logs]: [HTTPException(404)] or the content. *)
Inductive logs_response (A : Type) : Type :=
| LogsNotFound
| LogsContent (logs : list A) (total : nat).
Arguments LogsNotFound {A}.
Arguments LogsContent {A} logs total.

(** [get_logs]; [debug] is [config.DEBUG] and [logs] is [self.logs]. *)
Definition get_logs {A : Type} (debug : bool) (logs : list A) (limit : Z)
  : logs_response A :=
  if negb debug then LogsNotFound
  else LogsContent (py_slice_from logs (- limit)) (List.length logs).

(** The content of the answers of the city and catalog routes. *)
Inductive city_content : Type :=
| CityError (error : string)
| CityWeather (city : string) (data : json)
| CityCurrent (city : string)
    (current_conditions : LiveWeatherDataManager.current_conditions)
| Locations (locations : list string) (coordinates : json) (total : nat).

Record city_response : Type := {
  city_body : city_content;
  city_status : Z
}.

Section Handlers.
Context {W : Type} {O : Outside W}.
Variable config : WeatherStationConfig.
(** [config.API_KEY] *)
Variable API_KEY : string.

(** The key a request presents: [headers] is [request.headers.get]. *)
Definition presented_key (headers : string -> option string) : string :=
  let bearer :=
    py_replace "Bearer " ""
      match headers "Authorization" with
      | Some a => a
      | None => ""
      end in
  match headers "X-API-Key" with
  | Some k => if negb (String.eqb k "") then k else bearer
  | None => bearer
  end.

(** [force_data_update] *)
Definition force_data_update (headers : string -> option string)
    (s : state W) : update_response * state W :=
  let api_key := presented_key headers in
  if String.eqb api_key "" || negb (String.eqb api_key API_KEY) then
    ({| upd_success := false; upd_error := Some "Unauthorized";
        upd_status := 401 |}, s)
  else
    let '(success, s) := WeatherDataManager.force_update config s in
    if success then
      ({| upd_success := true; upd_error := None; upd_status := 200 |}, s)
    else
      ({| upd_success := false; upd_error := None; upd_status := 500 |}, s).

Definition live_data_not_enabled : city_response :=
  {| city_body := CityError "Live data not enabled"; city_status := 503 |}.

Definition city_not_found : city_response :=
  {| city_body := CityError "City not found or data unavailable";
     city_status := 404 |}.

Definition city_internal_error : city_response :=
  {| city_body := CityError "Internal server error"; city_status := 500 |}.

(** The dict a record of current conditions stands for. *)
Definition current_conditions_dict
    (c : LiveWeatherDataManager.current_conditions) : json :=
  JDict [ ("city", JStr (LiveWeatherDataManager.cc_city c));
          ("coordinates", LiveWeatherDataManager.cc_coordinates c);
          ("timezone", LiveWeatherDataManager.cc_timezone c);
          ("fetch_time", LiveWeatherDataManager.cc_fetch_time c);
          ("current", JDict (LiveWeatherDataManager.current c)) ].

(** [get_live_city_weather] *)
Definition get_live_city_weather (city : string) (s : state W)
  : city_response * state W :=
  if negb (LIVE_DATA_ENABLED config) then (live_data_not_enabled, s)
  else
    let '(r, s) := LiveWeatherDataManager.get_weather_data config (Some city) s in
    match r with
    | Raise _ => (city_internal_error, s)
    | Ok None => (city_not_found, s)
    | Ok (Some data) =>
        (try_except
           (_ <- render data ;;
            Ok {| city_body := CityWeather city data; city_status := 200 |})
           (fun _ => city_internal_error), s)
    end.

(** [get_current_conditions], the route. *)
Definition get_current_conditions (city : string) (s : state W)
  : city_response * state W :=
  if negb (LIVE_DATA_ENABLED config) then (live_data_not_enabled, s)
  else
    let '(r, s) := LiveWeatherDataManager.get_current_conditions config city s in
    match r with
    | Raise _ => (city_internal_error, s)
    | Ok None => (city_not_found, s)
    | Ok (Some data) =>
        (try_except
           (_ <- render (current_conditions_dict data) ;;
            Ok {| city_body := CityCurrent city data; city_status := 200 |})
           (fun _ => city_internal_error), s)
    end.


End Handlers.
End Routes.

(** ** Notions of the further properties *)

(** The hourly series of the record [d], when it has one, is a mapping with
    distinct keys none of which is a model-qualified alias. *)
Definition canonical_series (d : dict json) : Prop :=
  forall hv,
    dict_get d "hourly" = Some hv ->
    exists h,
      hv = JDict h /\ NoDup (keys h) /\
      forall k, In k (keys h) -> FieldNormalizer.is_model_specific k = false.

(** ** Sample inputs of the further properties *)

(** Five minutes after [sample_now], with a catalog file that has become
    unreadable. *)
Definition sample_world_later : sim :=
  {| clock := inject_Z 734700; backend := []; catalog := Raise OSError;
     write_result := NoFault; stat_result := None |}.

(** The live manager after a first load of the catalog, five minutes
    later. *)
Definition sample_state_cached : state sim :=
  with_ext (snd (LiveWeatherDataManager.load_locations sample_state_live))
    sample_world_later.

(** The live manager after a load that failed, once the catalog file is
    readable again. *)
Definition sample_state_recovered : state sim :=
  with_ext
    (snd (LiveWeatherDataManager.load_locations (sample_state_aged 3600)))
    {| clock := sample_now; backend := [];
       catalog := Ok (JDict sample_catalog); write_result := NoFault;
       stat_result := None |}.







(** The headers of a request with an [Authorization] header only. *)
Definition sample_bearer_headers (name : string) : option string :=
  if String.eqb name "Authorization" then Some "Bearer s3cr3tKey" else None.

(** The headers of a request with a wrong [X-API-Key]. *)
Definition sample_wrong_headers (name : string) : option string :=
  if String.eqb name "X-API-Key" then Some "guess" else None.


(** * Properties *)

#[local] Arguments String.eqb : simpl never.
Unset Implicit Arguments.

(** ** Dictionaries *)

Section DictFacts.
Context {V : Type}.
Implicit Types (d : dict V) (k : string) (v : V).

Lemma dict_get_set d k v k' :
  dict_get (dict_set d k v) k' =
  if String.eqb k k' then Some v else dict_get d k'.
Proof.
  induction d as [|[k0 v0] r IH]; simpl.
  - reflexivity.
  - destruct (String.eqb k0 k) eqn:E0; simpl.
    + apply String.eqb_eq in E0; subst k0.
      destruct (String.eqb k k'); reflexivity.
    + destruct (String.eqb k0 k') eqn:E1.
      * apply String.eqb_eq in E1; subst k0.
        rewrite String.eqb_sym, E0. reflexivity.
      * exact IH.
Qed.

Lemma dict_get_set_same d k v : dict_get (dict_set d k v) k = Some v.
Proof. rewrite dict_get_set, String.eqb_refl. reflexivity. Qed.

Lemma dict_get_set_other d k v k' :
  k <> k' -> dict_get (dict_set d k v) k' = dict_get d k'.
Proof.
  intros H. rewrite dict_get_set.
  destruct (String.eqb k k') eqn:E; [apply String.eqb_eq in E; contradiction|].
  reflexivity.
Qed.

Lemma dict_get_None_keys d k : dict_get d k = None <-> ~ In k (keys d).
Proof.
  induction d as [|[k0 v0] r IH]; simpl.
  - tauto.
  - destruct (String.eqb k0 k) eqn:E.
    + apply String.eqb_eq in E. split; [discriminate|]. intros H. destruct H; auto.
    + apply String.eqb_neq in E. rewrite IH. tauto.
Qed.

Lemma dict_get_Some_In d k v : dict_get d k = Some v -> In (k, v) d.
Proof.
  induction d as [|[k0 v0] r IH]; simpl; [discriminate|].
  destruct (String.eqb k0 k) eqn:E.
  - apply String.eqb_eq in E. intros [= ->]. left. congruence.
  - auto.
Qed.

Lemma In_dict_get d k v :
  NoDup (keys d) -> In (k, v) d -> dict_get d k = Some v.
Proof.
  induction d as [|[k0 v0] r IH]; simpl; [tauto|].
  intros ND [H|H].
  - inversion H; subst. rewrite String.eqb_refl. reflexivity.
  - inversion ND as [|? ? Hn ND']; subst.
    destruct (String.eqb k0 k) eqn:E.
    + apply String.eqb_eq in E; subst k0. exfalso. apply Hn.
      change k with (fst (k, v)). apply in_map. exact H.
    + auto.
Qed.

Lemma dict_set_fresh d k v :
  dict_get d k = None -> dict_set d k v = d ++ [(k, v)].
Proof.
  induction d as [|[k0 v0] r IH]; simpl; [reflexivity|].
  destruct (String.eqb k0 k); [discriminate|].
  intros H. rewrite IH by exact H. reflexivity.
Qed.

Lemma dict_set_same_value d k v :
  dict_get d k = Some v -> dict_set d k v = d.
Proof.
  induction d as [|[k0 v0] r IH]; simpl; [discriminate|].
  destruct (String.eqb k0 k).
  - intros [= ->]. reflexivity.
  - intros H. rewrite IH by exact H. reflexivity.
Qed.

Lemma keys_dict_set d k v :
  keys (dict_set d k v) = if dict_mem d k then keys d else keys d ++ [k].
Proof.
  unfold dict_mem. induction d as [|[k0 v0] r IH]; simpl; [reflexivity|].
  destruct (String.eqb k0 k) eqn:E; simpl.
  - reflexivity.
  - rewrite IH. destruct (dict_get r k); reflexivity.
Qed.

Lemma NoDup_keys_dict_set d k v :
  NoDup (keys d) -> NoDup (keys (dict_set d k v)).
Proof.
  intros ND. rewrite keys_dict_set. unfold dict_mem.
  destruct (dict_get d k) eqn:E; [exact ND|].
  apply dict_get_None_keys in E.
  apply NoDup_app; [exact ND | constructor; [simpl; tauto | constructor] |].
  intros x Hx [<-|[]]. contradiction.
Qed.

Lemma length_dict_set_le d k v :
  (List.length (dict_set d k v) <= S (List.length d))%nat.
Proof.
  induction d as [|[k0 v0] r IH]; simpl; [lia|].
  destruct (String.eqb k0 k); simpl; lia.
Qed.

Lemma NoDup_keys_NoDup d : NoDup (keys d) -> NoDup d.
Proof.
  induction d as [|[k0 v0] r IH]; simpl; intros ND; [constructor|].
  inversion ND as [|? ? Hn ND']; subst. constructor; [|auto].
  intros H. apply Hn. change k0 with (fst (k0, v0)). apply in_map. exact H.
Qed.

(** Two dictionaries with the same value at every key hold the same items. *)
Lemma dict_equal_Permutation (d1 d2 : dict V) :
  NoDup (keys d1) -> NoDup (keys d2) -> dict_equal d1 d2 -> Permutation d1 d2.
Proof.
  intros N1 N2 E. apply NoDup_Permutation; auto using NoDup_keys_NoDup.
  intros [k v]. split; intros H.
  - apply dict_get_Some_In. rewrite <- E. apply In_dict_get; assumption.
  - apply dict_get_Some_In. rewrite E. apply In_dict_get; assumption.
Qed.

End DictFacts.

(** ** The Field Normalizer on an hourly series that is a mapping *)

Section NormalizerFacts.
Import FieldNormalizer.
Implicit Types (h nh : dict json) (k g : string).

Lemma first_present_Some h names v :
  first_present h names = Some v <->
  exists pre a post,
    names = pre ++ a :: post /\
    (forall b, In b pre -> dict_get h b = None) /\
    dict_get h a = Some v.
Proof.
  induction names as [|n rest IH]; simpl.
  - split; [discriminate|]. intros (pre & a & post & E & _). destruct pre; discriminate.
  - destruct (dict_get h n) eqn:En.
    + split.
      * intros [= ->]. exists [], n, rest. simpl. repeat split; [intros b []|exact En].
      * intros (pre & a & post & E & Hpre & Ha). destruct pre as [|b pre]; simpl in E.
        -- inversion E; subst. congruence.
        -- inversion E; subst. rewrite (Hpre b) in En by (left; reflexivity). discriminate.
    + rewrite IH. split.
      * intros (pre & a & post & E & Hpre & Ha). exists (n :: pre), a, post.
        subst rest. simpl. repeat split; auto. intros b [<-|Hb]; auto.
      * intros (pre & a & post & E & Hpre & Ha). destruct pre as [|b pre]; simpl in E.
        -- inversion E; subst. congruence.
        -- inversion E; subst. exists pre, a, post. repeat split; auto.
           intros c Hc. apply Hpre. right. exact Hc.
Qed.

Lemma first_present_None h names :
  first_present h names = None <-> forall a, In a names -> dict_get h a = None.
Proof.
  induction names as [|n rest IH]; simpl.
  - tauto.
  - destruct (dict_get h n) eqn:En.
    + split; [discriminate|]. intros H. rewrite (H n) in En by auto. discriminate.
    + rewrite IH. split; intros H a; [intros [<-|Ha]; auto | auto].
Qed.

Lemma first_model_loop_dict h g names nh :
  first_model_loop (JDict h) g names nh =
  Ok match first_present h names with
     | Some v => dict_set nh g v
     | None => nh
     end.
Proof.
  induction names as [|n rest IH]; simpl; [reflexivity|].
  unfold dict_mem. destruct (dict_get h n); simpl; [reflexivity|exact IH].
Qed.

Lemma mappings_loop_unbound h (ms : dict (list string)) nh :
  (forall g names, In (g, names) ms -> first_present h names = None) ->
  mappings_loop (JDict h) ms nh = Ok nh.
Proof.
  induction ms as [|[g names] rest IH]; intros H; simpl; [reflexivity|].
  rewrite first_model_loop_dict, (H g names) by (left; reflexivity). simpl.
  apply IH. intros g' names' Hin. apply (H g' names'). right. exact Hin.
Qed.

Lemma mappings_loop_dict h (ms : dict (list string)) :
  NoDup (keys ms) ->
  forall nh, exists nh',
    mappings_loop (JDict h) ms nh = Ok nh' /\
    (NoDup (keys nh) -> NoDup (keys nh')) /\
    (forall k,
      dict_get nh' k =
      match match dict_get ms k with
            | Some names => first_present h names
            | None => None
            end with
      | Some v => Some v
      | None => dict_get nh k
      end) /\
    ((forall g names, In (g, names) ms -> first_present h names = None) ->
     nh' = nh).
Proof.
  induction ms as [|[g names] rest IH]; intros ND nh.
  - exists nh. simpl. auto.
  - inversion ND as [|? ? Hg ND']; subst.
    cbn [mappings_loop]. rewrite first_model_loop_dict. cbn [bind].
    destruct (IH ND' match first_present h names with
                     | Some v => dict_set nh g v
                     | None => nh
                     end) as (nh' & E & N & L & U).
    exists nh'. split; [exact E|]. split; [|split].
    + intros Hnh. apply N. destruct (first_present h names); auto using NoDup_keys_dict_set.
    + intros k. rewrite L. cbn [dict_get]. destruct (String.eqb g k) eqn:Egk.
      * apply String.eqb_eq in Egk; subst k.
        apply dict_get_None_keys in Hg. rewrite Hg.
        destruct (first_present h names); [apply dict_get_set_same | reflexivity].
      * destruct (dict_get rest k) as [names'|].
        -- destruct (first_present h names'); [reflexivity|].
           destruct (first_present h names); [|reflexivity].
           rewrite dict_get_set, Egk; reflexivity.
        -- destruct (first_present h names); [|reflexivity].
           rewrite dict_get_set, Egk; reflexivity.
    + intros H. pose proof (H g names (or_introl eq_refl)) as Hgn.
      rewrite Hgn in E. pose proof (mappings_loop_unbound h rest nh) as Eu.
      rewrite Eu in E by (intros g' n' Hin; apply (H g' n'); right; exact Hin).
      congruence.
Qed.

Lemma copy_loop_get items : forall nh k,
  dict_get (copy_loop items nh) k =
  match dict_get nh k with
  | Some v => Some v
  | None => if is_model_specific k then None else dict_get items k
  end.
Proof.
  induction items as [|[f v] rest IH]; intros nh k; simpl.
  - destruct (dict_get nh k), (is_model_specific k); reflexivity.
  - unfold dict_mem.
    destruct (dict_get nh f) eqn:Ef; simpl.
    + rewrite IH. destruct (String.eqb f k) eqn:Efk; [|reflexivity].
      apply String.eqb_eq in Efk; subst k. rewrite Ef. reflexivity.
    + destruct (is_model_specific f) eqn:Em; simpl.
      * rewrite IH. destruct (String.eqb f k) eqn:Efk; [|reflexivity].
        apply String.eqb_eq in Efk; subst k. rewrite Ef, Em. reflexivity.
      * rewrite IH, dict_get_set. destruct (String.eqb f k) eqn:Efk; [|reflexivity].
        apply String.eqb_eq in Efk; subst k. rewrite Ef, Em. reflexivity.
Qed.

Lemma copy_loop_NoDup items : forall nh,
  NoDup (keys nh) -> NoDup (keys (copy_loop items nh)).
Proof.
  induction items as [|[f v] rest IH]; intros nh ND; simpl; [exact ND|].
  destruct (negb (dict_mem nh f) && negb (is_model_specific f));
    auto using NoDup_keys_dict_set.
Qed.

Lemma copy_loop_append items : forall nh,
  NoDup (keys items) ->
  (forall k, In k (keys items) ->
             is_model_specific k = false /\ dict_get nh k = None) ->
  copy_loop items nh = nh ++ items.
Proof.
  induction items as [|[f v] rest IH]; intros nh ND H; simpl.
  - symmetry. apply app_nil_r.
  - inversion ND as [|? ? Hf ND']; subst.
    destruct (H f) as [Hm Hn]; [left; reflexivity|].
    unfold dict_mem. rewrite Hn, Hm. simpl.
    rewrite IH; [rewrite dict_set_fresh by exact Hn; rewrite <- app_assoc; reflexivity
                | exact ND' |].
    intros k Hk. destruct (H k) as [Hm' Hn']; [right; exact Hk|].
    split; [exact Hm'|]. rewrite dict_get_set_other; [exact Hn'|].
    intros <-. contradiction.
Qed.

Lemma NoDup_field_mappings : NoDup (keys field_mappings).
Proof.
  repeat (constructor; [simpl; intuition discriminate|]). constructor.
Qed.

(** The names the table knows are not themselves model-qualified, and
    [time] is neither. *)
Lemma canonical_not_model_specific g :
  In g ("time" :: keys field_mappings) -> is_model_specific g = false.
Proof.
  simpl. intros H.
  repeat (destruct H as [<-|H]; [reflexivity|]). contradiction.
Qed.

Lemma model_specific_iff k :
  is_model_specific k = true <->
  exists g names, In (g, names) field_mappings /\ In k names.
Proof.
  unfold is_model_specific. rewrite existsb_exists. split.
  - intros (names & Hin & Hex). apply in_map_iff in Hin. destruct Hin as ([g n] & <- & Hin).
    apply existsb_exists in Hex. destruct Hex as (a & Ha & E).
    apply String.eqb_eq in E; subst a. exists g, n. split; assumption.
  - intros (g & names & Hin & Hk). exists names. split.
    + change names with (snd (g, names)). apply in_map. exact Hin.
    + apply existsb_exists. exists k. split; [exact Hk | apply String.eqb_refl].
Qed.

Lemma time_unbound h : canonical_binding h "time" = None.
Proof. reflexivity. Qed.

(** What [_normalize_field_names] returns on a record whose hourly series
    is a mapping: the record with the series replaced, and the value of the
    new series at every key. *)
Lemma normalize_dict (d h : dict json) :
  dict_get d "hourly" = Some (JDict h) ->
  exists nh,
    _normalize_field_names (JDict d) = Ok (JDict (dict_set d "hourly" (JDict nh))) /\
    NoDup (keys nh) /\
    (forall k,
       dict_get nh k =
       match canonical_binding h k with
       | Some v => Some v
       | None => if is_model_specific k then None else dict_get h k
       end) /\
    (NoDup (keys h) ->
     (forall k, In k (keys h) -> is_model_specific k = false) ->
     (forall t, dict_get h "time" = Some t -> exists r, h = ("time", t) :: r) ->
     nh = h).
Proof.
  intros Hd.
  assert (Ht : py_truthy (JDict d) = true) by (destruct d; [discriminate|reflexivity]).
  assert (E0 : exists n0,
             (if dict_mem h "time"
              then t <- match dict_get h "time" with
                        | Some v => Ok v
                        | None => Raise KeyError
                        end ;; Ok (dict_set [] "time" t)
              else Ok []) = Ok n0 /\ NoDup (keys n0) /\
             (forall k, dict_get n0 k =
                        if String.eqb "time" k then dict_get h "time" else None) /\
             n0 = match dict_get h "time" with
                  | Some t => [("time", t)]
                  | None => []
                  end).
  { unfold dict_mem. destruct (dict_get h "time") as [t|] eqn:Et; cbn [bind dict_set].
    - exists [("time", t)]. split; [reflexivity|]. split; [|split; [|reflexivity]].
      + constructor; [simpl; tauto | constructor].
      + intros k. cbn [dict_get]. destruct (String.eqb "time" k); reflexivity.
    - exists []. split; [reflexivity|]. split; [constructor|split; [|reflexivity]].
      intros k. cbn [dict_get]. destruct (String.eqb "time" k); reflexivity. }
  destruct E0 as (n0 & E0 & N0 & L0 & S0).
  destruct (mappings_loop_dict h _ NoDup_field_mappings n0) as (n1 & E1 & N1 & L1 & U1).
  exists (copy_loop h n1). split; [|split; [|split]].
  - unfold _normalize_field_names.
    rewrite Ht. cbn [negb py_in py_getitem py_items py_setitem bind].
    unfold dict_mem at 1. rewrite Hd.
    cbn [negb py_in py_getitem py_items py_setitem bind].
    rewrite S0 in E1. clear E0. unfold dict_mem.
    destruct (dict_get h "time"); cbn [bind dict_set]; rewrite E1; reflexivity.
  - apply copy_loop_NoDup. auto.
  - intros k. rewrite copy_loop_get, L1, L0. fold (canonical_binding h k).
    destruct (canonical_binding h k) eqn:Ec; [reflexivity|].
    destruct (String.eqb "time" k) eqn:Etk; [|reflexivity].
    apply String.eqb_eq in Etk; subst k. simpl.
    destruct (dict_get h "time"); reflexivity.
  - intros NDh Hcanon Hfirst.
    assert (Hun : forall g names, In (g, names) field_mappings ->
                                  first_present h names = None).
    { intros g names Hin. apply first_present_None. intros a Ha.
      apply dict_get_None_keys. intros Hk. apply Hcanon in Hk.
      assert (is_model_specific a = true) by (apply model_specific_iff; eauto).
      congruence. }
    rewrite (U1 Hun). subst n0.
    destruct (dict_get h "time") as [t|] eqn:Et.
    + destruct (Hfirst t eq_refl) as (r & ->).
      cbn [copy_loop]. unfold dict_mem. cbn [dict_get].
      rewrite String.eqb_refl. cbn [negb andb].
      inversion NDh as [|? ? Hn ND']; subst.
      apply (copy_loop_append r [("time", t)]); [exact ND'|].
      intros k Hk. split; [apply Hcanon; right; exact Hk|].
      cbn [dict_get]. destruct (String.eqb "time" k) eqn:E; [|reflexivity].
      apply String.eqb_eq in E; subst k. contradiction.
    + rewrite copy_loop_append; [reflexivity | exact NDh |].
      intros k Hk. split; [apply Hcanon; exact Hk | reflexivity].
Qed.

End NormalizerFacts.

(** ** The Field Normalizer: what it binds and what it passes through *)

Section NormalizerProperties.
Import FieldNormalizer.

(** C3 as stated fails: the canonical field [temperature_2m] is in the
    output although the input has none of its model-qualified aliases,
    because the input has the canonical name itself and the last loop
    copies it. *)
Lemma normalizer_keeps_canonical_field_without_alias :
  (forall a names,
     dict_get field_mappings "temperature_2m" = Some names ->
     In a names -> dict_get sample_canonical_hourly a = None) /\
  exists nh,
    _normalize_field_names (JDict [("hourly", JDict sample_canonical_hourly)])
    = Ok (JDict [("hourly", JDict nh)]) /\
    dict_get nh "temperature_2m" <> None.
Proof.
  split.
  - intros a names [= <-] Ha. simpl in Ha.
    repeat (destruct Ha as [<-|Ha]; [reflexivity|]). contradiction.
  - eexists. split; [vm_compute; reflexivity|]. vm_compute. discriminate.
Qed.

(** C3, amended: on a record whose hourly series is the mapping [h], the
    normalizer returns the record with a new series [nh] in which [time] is
    as in [h]; every canonical field of the table is bound to the value of
    the first of its aliases, in the table's order, that [h] has; a canonical
    field none of whose aliases is in [h] is as in [h] (absent when [h] does
    not have it, never filled in); a field of [h] that is neither bound
    through an alias nor an alias itself is kept; and no alias is in [nh]. *)
Theorem normalizer_binds_first_alias (d h : dict json) :
  dict_get d "hourly" = Some (JDict h) ->
  exists nh,
    _normalize_field_names (JDict d) = Ok (JDict (dict_set d "hourly" (JDict nh))) /\
    dict_get nh "time" = dict_get h "time" /\
    (forall g names,
       In (g, names) field_mappings ->
       (forall pre a post v,
          names = pre ++ a :: post ->
          (forall b, In b pre -> dict_get h b = None) ->
          dict_get h a = Some v ->
          dict_get nh g = Some v) /\
       ((forall a, In a names -> dict_get h a = None) ->
        dict_get nh g = dict_get h g)) /\
    (forall k v,
       dict_get h k = Some v ->
       canonical_binding h k = None ->
       is_model_specific k = false ->
       dict_get nh k = Some v) /\
    (forall k, is_model_specific k = true -> dict_get nh k = None).
Proof.
  intros Hd. destruct (normalize_dict d h Hd) as (nh & E & _ & L & _).
  exists nh. split; [exact E|]. split; [|split; [|split]].
  - rewrite L, time_unbound. reflexivity.
  - intros g names Hin.
    assert (Hg : canonical_binding h g = first_present h names).
    { unfold canonical_binding.
      rewrite (In_dict_get _ _ _ NoDup_field_mappings Hin). reflexivity. }
    assert (Hm : is_model_specific g = false).
    { apply canonical_not_model_specific. right.
      change g with (fst (g, names)). apply in_map. exact Hin. }
    split.
    + intros pre a post v En Hpre Ha. rewrite L, Hg.
      assert (Hf : first_present h names = Some v)
        by (apply first_present_Some; exists pre, a, post; auto).
      rewrite Hf. reflexivity.
    + intros Hnone. rewrite L, Hg.
      assert (Hf : first_present h names = None)
        by (apply first_present_None; exact Hnone).
      rewrite Hf, Hm. reflexivity.
  - intros k v Hk Hc Hm. rewrite L, Hc, Hm. exact Hk.
  - intros k Hm. rewrite L, Hm.
    unfold canonical_binding.
    destruct (dict_get field_mappings k) as [names|] eqn:Ek; [|reflexivity].
    apply dict_get_Some_In in Ek.
    assert (is_model_specific k = false).
    { apply canonical_not_model_specific. right.
      change k with (fst (k, names)). apply in_map. exact Ek. }
    congruence.
Qed.

Lemma normalizer_binds_first_alias_witness :
  exists nh,
    _normalize_field_names (JDict [("hourly", JDict sample_model_hourly)])
    = Ok (JDict (dict_set [("hourly", JDict sample_model_hourly)] "hourly" (JDict nh))) /\
    dict_get nh "time" = dict_get sample_model_hourly "time" /\
    dict_get nh "temperature_2m" = Some (JList [JNum (19 # 1); JNum (20 # 1)]).
Proof.
  destruct (@normalizer_binds_first_alias
              [("hourly", JDict sample_model_hourly)] sample_model_hourly eq_refl)
    as (nh & E & Ht & Hb & _).
  exists nh. split; [exact E|]. split; [exact Ht|].
  refine (proj1 (Hb "temperature_2m" _ (or_introl eq_refl))
            ["temperature_2m_ecmwf_ifs025"] "temperature_2m_ncep_gfs025"
            ["temperature_2m_meteofrance_arpege_world025"] _ eq_refl _ eq_refl).
  intros b [<-|[]]. reflexivity.
Defined.

(** C8: on a record whose hourly series [h] has distinct keys none of which
    is a model-qualified alias, the normalizer returns the record with a
    series that is equal to [h] as a mapping (same value at every key, same
    items); when [time] is missing or is the first key of [h], the record
    comes back as it was given. *)
Theorem normalizer_idempotent_on_canonical (d h : dict json) :
  dict_get d "hourly" = Some (JDict h) ->
  NoDup (keys h) ->
  (forall k, In k (keys h) -> is_model_specific k = false) ->
  exists nh,
    _normalize_field_names (JDict d) = Ok (JDict (dict_set d "hourly" (JDict nh))) /\
    dict_equal nh h /\
    Permutation nh h /\
    ((forall t, dict_get h "time" = Some t -> exists r, h = ("time", t) :: r) ->
     _normalize_field_names (JDict d) = Ok (JDict d)).
Proof.
  intros Hd ND Hcanon. destruct (normalize_dict d h Hd) as (nh & E & N & L & I).
  assert (Eq : dict_equal nh h).
  { intros k. rewrite L.
    assert (Hc : canonical_binding h k = None).
    { unfold canonical_binding.
      destruct (dict_get field_mappings k) as [names|] eqn:Ek; [|reflexivity].
      apply first_present_None. intros a Ha. apply dict_get_None_keys. intros Hin.
      apply Hcanon in Hin.
      assert (is_model_specific a = true).
      { apply model_specific_iff. exists k, names.
        split; [apply dict_get_Some_In; exact Ek | exact Ha]. }
      congruence. }
    rewrite Hc. destruct (is_model_specific k) eqn:Em; [|reflexivity].
    symmetry. apply dict_get_None_keys. intros Hin. apply Hcanon in Hin. congruence. }
  exists nh. split; [exact E|]. split; [exact Eq|]. split.
  - apply dict_equal_Permutation; assumption.
  - intros Hfirst. rewrite E, (I ND Hcanon Hfirst), (dict_set_same_value _ _ _ Hd).
    reflexivity.
Qed.

Lemma normalizer_idempotent_on_canonical_witness :
  _normalize_field_names (JDict [("hourly", JDict sample_canonical_hourly)])
  = Ok (JDict [("hourly", JDict sample_canonical_hourly)]).
Proof.
  assert (ND : NoDup (keys sample_canonical_hourly)).
  { repeat (constructor; [simpl; intuition discriminate|]). constructor. }
  assert (Hc : forall k, In k (keys sample_canonical_hourly) ->
                         is_model_specific k = false).
  { simpl. intros k H. repeat (destruct H as [<-|H]; [reflexivity|]). contradiction. }
  destruct (@normalizer_idempotent_on_canonical
              [("hourly", JDict sample_canonical_hourly)] sample_canonical_hourly
              eq_refl ND Hc) as (nh & _ & _ & _ & I).
  apply I. intros t [= <-]. eexists. reflexivity.
Defined.

End NormalizerProperties.

(** ** The Quality Validator *)

Section ValidatorProperties.
Import WeatherDataManager.

Lemma enough_non_null_iff values :
  enough_non_null values = true <-> exceeds_quarter values.
Proof.
  unfold enough_non_null, exceeds_quarter, Qgt_bool, Qle_bool, Qlt, Qmult, inject_Z.
  cbn [Qnum Qden]. rewrite negb_true_iff, Z.leb_gt. lia.
Qed.

Lemma exceeds_quarter_nat values :
  exceeds_quarter values <->
  (List.length values < 4 * non_null_count values)%nat.
Proof.
  unfold exceeds_quarter, Qlt, Qmult, inject_Z. cbn [Qnum Qden]. lia.
Qed.

Lemma key_params_loop_true hourly ps :
  key_params_loop hourly ps = Ok true ->
  exists h param values,
    hourly = JDict h /\ In param ps /\
    dict_get h param = Some (JList values) /\ enough_non_null values = true.
Proof.
  induction ps as [|p rest IH]; cbn [key_params_loop]; [discriminate|].
  assert (IH' : key_params_loop hourly rest = Ok true ->
                exists h param values,
                  hourly = JDict h /\ In param (p :: rest) /\
                  dict_get h param = Some (JList values) /\
                  enough_non_null values = true).
  { intros H. destruct (IH H) as (h & q & vs & ? & ? & ? & ?).
    exists h, q, vs. repeat split; auto. right. assumption. }
  destruct hourly as [| | | | s | l | h]; cbn [py_in bind]; try discriminate.
  - destruct (is_substring p s); cbn [py_getitem bind]; [discriminate | exact IH'].
  - destruct (existsb (is_str p) l); cbn [py_getitem bind]; [discriminate | exact IH'].
  - unfold dict_mem. cbn [py_getitem].
    destruct (dict_get h p) as [v|] eqn:Ep; cbn [bind]; [|exact IH'].
    destruct v as [| | | | | values |]; try exact IH'.
    destruct (enough_non_null values) eqn:En; [|exact IH'].
    intros _. exists h, p, values. repeat split; auto. left. reflexivity.
Qed.

Lemma key_params_loop_dict h ps :
  key_params_loop (JDict h) ps =
  Ok (existsb (fun p => match dict_get h p with
                        | Some (JList values) => enough_non_null values
                        | _ => false
                        end) ps).
Proof.
  induction ps as [|p rest IH]; cbn [key_params_loop existsb]; [reflexivity|].
  cbn [py_in bind py_getitem]. unfold dict_mem.
  destruct (dict_get h p) as [v|]; cbn [bind orb]; [|exact IH].
  destruct v as [| | | | | values |]; cbn [orb]; try exact IH.
  destruct (enough_non_null values); cbn [orb]; [reflexivity | exact IH].
Qed.

Lemma validator_dict (d h : dict json) :
  dict_get d "hourly" = Some (JDict h) ->
  _has_valid_weather_data (JDict d) =
  Ok (existsb (fun p => match dict_get h p with
                        | Some (JList values) => enough_non_null values
                        | _ => false
                        end) key_params).
Proof.
  intros Hd. unfold _has_valid_weather_data.
  assert (Ht : py_truthy (JDict d) = true) by (destruct d; [discriminate|reflexivity]).
  rewrite Ht. cbn [negb py_in bind py_getitem]. unfold dict_mem. rewrite Hd.
  cbn [negb bind]. apply key_params_loop_dict.
Qed.

Lemma validator_true_inv data :
  _has_valid_weather_data data = Ok true ->
  exists d h param values,
    data = JDict d /\ dict_get d "hourly" = Some (JDict h) /\
    In param key_params /\ dict_get h param = Some (JList values) /\
    enough_non_null values = true.
Proof.
  unfold _has_valid_weather_data.
  destruct (py_truthy data); cbn [negb]; [|discriminate].
  destruct data as [| | | | s | l | d]; cbn [py_in bind]; try discriminate.
  - destruct (is_substring "hourly" s); cbn [negb py_getitem bind]; discriminate.
  - destruct (existsb (is_str "hourly") l); cbn [negb py_getitem bind]; discriminate.
  - unfold dict_mem. cbn [py_getitem].
    destruct (dict_get d "hourly") as [hourly|] eqn:Ed; cbn [negb bind]; [|discriminate].
    intros H. apply key_params_loop_true in H.
    destruct H as (h & p & vs & -> & Hp & Hv & He).
    exists d, h, p, vs. auto.
Qed.

Lemma non_null_count_samples values :
  non_null_count values = non_null_samples values.
Proof.
  unfold non_null_count.
  induction values as [|v rest IH]; [reflexivity|].
  destruct v; cbn [filter is_not_none List.length non_null_samples];
    rewrite IH; reflexivity.
Qed.

Lemma non_null_samples_all_null values :
  Forall (fun v => v = JNull) values -> non_null_samples values = 0%nat.
Proof.
  induction 1 as [|v rest Hv _ IH]; [reflexivity|]. subst v. exact IH.
Qed.

Lemma key_parameter_iff param : key_parameter param <-> In param key_params.
Proof.
  unfold key_parameter, key_params. cbn [In]. intuition congruence.
Qed.

(** C2: the validator returns [True] exactly for a record that is a mapping
    with an hourly series that is a mapping in which one of the four
    parameters temperature_2m, pressure_msl, relative_humidity_2m and
    wind_speed_10m is a list whose number of samples other than null
    strictly exceeds 0.25 times its length.  A record in which each of the
    four is a list of nulls is rejected; a record in which one of the four
    is a non-empty list with 30% of samples other than null is accepted,
    whatever the other three are. *)
Theorem validator_accepts_iff :
  (forall data,
     _has_valid_weather_data data = Ok true <->
     exists d h param values,
       data = JDict d /\ dict_get d "hourly" = Some (JDict h) /\
       key_parameter param /\ dict_get h param = Some (JList values) /\
       (inject_Z (Z.of_nat (List.length values)) * (1 # 4)
        < inject_Z (Z.of_nat (non_null_samples values)))%Q) /\
  (forall d h,
     dict_get d "hourly" = Some (JDict h) ->
     (forall param, key_parameter param ->
        exists values, dict_get h param = Some (JList values) /\
                       Forall (fun v => v = JNull) values) ->
     _has_valid_weather_data (JDict d) = Ok false) /\
  (forall d h param values,
     dict_get d "hourly" = Some (JDict h) ->
     key_parameter param ->
     dict_get h param = Some (JList values) ->
     values <> [] ->
     (10 * non_null_samples values = 3 * List.length values)%nat ->
     _has_valid_weather_data (JDict d) = Ok true).
Proof.
  assert (Hq : forall values,
             exceeds_quarter values <->
             (inject_Z (Z.of_nat (List.length values)) * (1 # 4)
              < inject_Z (Z.of_nat (non_null_samples values)))%Q).
  { intros values. unfold exceeds_quarter.
    rewrite non_null_count_samples. reflexivity. }
  assert (Hback : forall d h param values,
             dict_get d "hourly" = Some (JDict h) ->
             key_parameter param ->
             dict_get h param = Some (JList values) ->
             exceeds_quarter values ->
             _has_valid_weather_data (JDict d) = Ok true).
  { intros d h param values Hd Hp Hv He. rewrite (validator_dict d h Hd). f_equal.
    apply existsb_exists. exists param.
    split; [apply key_parameter_iff; exact Hp|].
    rewrite Hv. apply enough_non_null_iff. exact He. }
  split; [|split].
  - intros data. split.
    + intros H. destruct (validator_true_inv data H) as (d & h & p & vs & ? & ? & Hp & ? & He).
      exists d, h, p, vs. rewrite <- Hq, <- enough_non_null_iff.
      rewrite key_parameter_iff. auto.
    + intros (d & h & p & vs & -> & Hd & Hp & Hv & He).
      apply (Hback d h p vs Hd Hp Hv). apply Hq. exact He.
  - intros d h Hd Hall. rewrite (validator_dict d h Hd). f_equal.
    apply not_true_is_false. intros H. apply existsb_exists in H.
    destruct H as (p & Hp & H). apply key_parameter_iff in Hp.
    destruct (Hall p Hp) as (vs & Hv & Hz).
    rewrite Hv in H. apply enough_non_null_iff, exceeds_quarter_nat in H.
    rewrite non_null_count_samples, (non_null_samples_all_null vs Hz) in H. lia.
  - intros d h param values Hd Hp Hv Hne H30. apply (Hback d h param values Hd Hp Hv).
    apply exceeds_quarter_nat. rewrite non_null_count_samples.
    destruct values; [congruence|]. cbn [List.length] in *. lia.
Qed.

Lemma validator_accepts_iff_witness :
  _has_valid_weather_data (JDict sample_sparse_record) = Ok true /\
  _has_valid_weather_data (JDict sample_null_record) = Ok false.
Proof.
  split.
  - refine (proj2 (proj2 validator_accepts_iff) sample_sparse_record
              sample_sparse_hourly "pressure_msl" sample_thirty_percent
              eq_refl _ eq_refl _ eq_refl).
    + right. left. reflexivity.
    + discriminate.
  - refine (proj1 (proj2 validator_accepts_iff) sample_null_record
              sample_null_hourly eq_refl _).
    intros param [-> | [-> | [-> | ->]]]; exists sample_all_null;
      (split; [reflexivity | repeat constructor]).
Defined.

End ValidatorProperties.

(** ** Rounding to binary64 *)

Section FloatFacts.
Import Float.
Local Open Scope Q_scope.

Lemma round_half_even_floor (q : Q) :
  (Qfloor q <= round_half_even q <= Qfloor q + 1)%Z.
Proof.
  unfold round_half_even.
  destruct (Qcompare (q - inject_Z (Qfloor q)) (1 # 2)); [destruct (Z.even (Qfloor q))| |]; lia.
Qed.

Lemma round_half_even_ge (q : Q) (z : Z) :
  inject_Z z <= q -> (z <= round_half_even q)%Z.
Proof.
  intros H. apply Qfloor_resp_le in H. rewrite Qfloor_Z in H.
  pose proof (round_half_even_floor q). lia.
Qed.

Lemma round_half_even_le (q : Q) (z : Z) :
  q <= inject_Z z -> (round_half_even q <= z)%Z.
Proof.
  intros H. pose proof (round_half_even_floor q) as B.
  assert (F : (Qfloor q <= z)%Z).
  { pose proof (Qfloor_resp_le _ _ H) as F. rewrite Qfloor_Z in F. exact F. }
  destruct (Z.eq_dec (Qfloor q) z) as [E|N]; [|lia].
  assert (L : Qcompare (q - inject_Z (Qfloor q)) (1 # 2) = Lt).
  { apply Qlt_alt. rewrite E. apply Qle_lt_trans with (y := 0); [|reflexivity].
    apply (Qplus_le_l _ _ (inject_Z z)). ring_simplify. exact H. }
  unfold round_half_even. cbv zeta. rewrite L. lia.
Qed.

Lemma pow2_nonneg (e : Z) : (0 <= e)%Z -> pow2 e == inject_Z (2 ^ e).
Proof.
  intros H. unfold pow2. apply Z.leb_le in H. rewrite H. reflexivity.
Qed.

Lemma pow2_nonpos (e : Z) :
  (e <= 0)%Z -> pow2 e * inject_Z (2 ^ (- e)) == 1.
Proof.
  intros H. unfold pow2. destruct (Z.leb_spec 0 e) as [H0|H0].
  - assert (e = 0%Z) by lia. subst e. reflexivity.
  - assert (P : (0 < 2 ^ (- e))%Z) by (apply Z.pow_pos_nonneg; lia).
    unfold Qeq, Qmult, inject_Z. cbn [Qnum Qden].
    rewrite Pos.mul_1_r, Z2Pos.id by exact P. lia.
Qed.

Lemma pow2_pos (e : Z) : 0 < pow2 e.
Proof.
  unfold pow2. destruct (Z.leb_spec 0 e).
  - change 0 with (inject_Z 0). rewrite <- Zlt_Qlt. apply Z.pow_pos_nonneg; lia.
  - reflexivity.
Qed.

(** Above 1 the exponent [floor_log2] finds is not too large. *)
Lemma floor_log2_lower (a : Q) :
  (0 < floor_log2 a)%Z -> inject_Z (2 ^ floor_log2 a) <= a.
Proof.
  unfold floor_log2. destruct (Qle_bool 1 a) eqn:E.
  - intros H. apply Qle_bool_iff in E.
    assert (F : (1 <= Qfloor a)%Z).
    { apply Qfloor_resp_le in E. exact E. }
    apply Qle_trans with (y := inject_Z (Qfloor a)); [|apply Qfloor_le].
    rewrite <- Zle_Qle. apply Z.log2_spec. lia.
  - intros H. pose proof (Z.log2_up_nonneg (Qceiling (/ a))). lia.
Qed.

Lemma large_exponent (a : Q) :
  (0 < exponent a)%Z -> inject_Z (2 ^ 52) * pow2 (exponent a) <= a.
Proof.
  set (e := exponent a). intros He. assert (E : e = (floor_log2 a - 52)%Z) by (unfold e, exponent in *; lia).
  rewrite (pow2_nonneg e) by lia. rewrite <- inject_Z_mult, <- Z.pow_add_r by lia.
  replace (52 + e)%Z with (floor_log2 a) by lia.
  apply floor_log2_lower. lia.
Qed.

Lemma nearest_lower (a : Q) (c : Z) :
  (0 <= c < 2 ^ 53)%Z -> inject_Z c <= a -> inject_Z c <= nearest a.
Proof.
  intros c_range H. unfold nearest. cbv zeta. set (e := exponent a). pose proof (pow2_pos e) as Pp.
  destruct (Z_lt_le_dec 0 e) as [He|He].
  - pose proof (large_exponent a He) as L. fold e in L.
    assert (M : (2 ^ 52 <= round_half_even (a / pow2 e))%Z).
    { apply round_half_even_ge. apply Qle_shift_div_l; assumption. }
    apply Qle_trans with (y := inject_Z (2 ^ 52) * pow2 e).
    + rewrite (pow2_nonneg e) by lia. rewrite <- inject_Z_mult, <- Zle_Qle.
      assert ((2 <= 2 ^ e)%Z).
      { change 2%Z with (2 ^ 1)%Z at 1. apply Z.pow_le_mono_r; lia. }
      nia.
    + apply Qmult_le_compat_r; [|apply Qlt_le_weak; exact Pp].
      rewrite <- Zle_Qle. exact M.
  - pose proof (pow2_nonpos e He) as Ps.
    set (S := (2 ^ (- e))%Z) in *.
    assert (Sp : (0 < S)%Z) by (apply Z.pow_pos_nonneg; lia).
    assert (M : (c * S <= round_half_even (a / pow2 e))%Z).
    { apply round_half_even_ge. apply Qle_shift_div_l; [exact Pp|].
      rewrite inject_Z_mult.
      rewrite <- Qmult_assoc, (Qmult_comm (inject_Z S)), Ps, Qmult_1_r. exact H. }
    apply Qle_trans with (y := inject_Z (c * S) * pow2 e).
    + rewrite inject_Z_mult, <- Qmult_assoc, (Qmult_comm (inject_Z S)), Ps, Qmult_1_r.
      apply Qle_refl.
    + apply Qmult_le_compat_r; [|apply Qlt_le_weak; exact Pp].
      rewrite <- Zle_Qle. exact M.
Qed.

Lemma nearest_upper (a : Q) (c : Z) :
  (0 <= c < 2 ^ 53)%Z -> a <= inject_Z c -> nearest a <= inject_Z c.
Proof.
  intros c_range H. unfold nearest. cbv zeta. set (e := exponent a). pose proof (pow2_pos e) as Pp.
  destruct (Z_lt_le_dec 0 e) as [He|He].
  - exfalso. pose proof (large_exponent a He) as L. fold e in L.
    rewrite (pow2_nonneg e) in L by lia. rewrite <- inject_Z_mult in L.
    pose proof (Qle_trans _ _ _ L H) as T. rewrite <- Zle_Qle in T.
    assert ((2 <= 2 ^ e)%Z).
    { change 2%Z with (2 ^ 1)%Z at 1. apply Z.pow_le_mono_r; lia. }
    nia.
  - pose proof (pow2_nonpos e He) as Ps.
    set (S := (2 ^ (- e))%Z) in *.
    assert (M : (round_half_even (a / pow2 e) <= c * S)%Z).
    { apply round_half_even_le. apply Qle_shift_div_r; [exact Pp|].
      rewrite inject_Z_mult.
      rewrite <- Qmult_assoc, (Qmult_comm (inject_Z S)), Ps, Qmult_1_r. exact H. }
    apply Qle_trans with (y := inject_Z (c * S) * pow2 e).
    + apply Qmult_le_compat_r; [|apply Qlt_le_weak; exact Pp].
      rewrite <- Zle_Qle. exact M.
    + rewrite inject_Z_mult, <- Qmult_assoc, (Qmult_comm (inject_Z S)), Ps, Qmult_1_r.
      apply Qle_refl.
Qed.

Lemma Qabs_positive (x : Q) : Qeq_bool (Qabs x) 0 = false -> 0 < Qabs x.
Proof.
  intros H. apply Qeq_bool_neq in H.
  destruct (Qle_lt_or_eq _ _ (Qabs_nonneg x)) as [L|E]; [exact L|].
  exfalso. apply H. symmetry. exact E.
Qed.

(** A difference that is at least the integer [c] rounds to a float that is
    at least [c], and a difference that is at most [c - 1] to a float below
    [c], for [c] from 0 to [2 ** 53]. *)
Lemma round_ge_int (x : Q) (c : Z) :
  (0 <= c < 2 ^ 53)%Z -> inject_Z c <= x -> ge_int (round x) c = true.
Proof.
  intros Hc H.
  assert (X : 0 <= x).
  { apply Qle_trans with (y := inject_Z c); [|exact H].
    change 0 with (inject_Z 0). rewrite <- Zle_Qle. lia. }
  unfold round. cbv zeta.
  destruct (Qeq_bool (Qabs x) 0) eqn:Ez.
  - apply Qeq_bool_eq in Ez. rewrite (Qabs_pos x X) in Ez.
    cbn [ge_int]. apply Qle_bool_iff. rewrite <- Ez. exact H.
  - pose proof (Qabs_positive x Ez) as Ap.
    assert (L : inject_Z c <= nearest (Qabs x)).
    { apply nearest_lower; [exact Hc |]. rewrite (Qabs_pos x X). exact H. }
    destruct (Qle_bool (pow2 1024) (nearest (Qabs x))); cbn [ge_int].
    + apply Qle_bool_iff in X. rewrite X. reflexivity.
    + apply Qle_bool_iff in X. rewrite X. cbn [negb]. apply Qle_bool_iff. exact L.
Qed.

Lemma Qle_bool_false (a b : Q) : b < a -> Qle_bool a b = false.
Proof.
  intros H. apply not_true_is_false. intros L. apply Qle_bool_iff in L.
  exact (Qlt_not_le _ _ H L).
Qed.

Lemma round_lt_int (x : Q) (c : Z) :
  (0 <= c < 2 ^ 53)%Z -> x <= inject_Z (c - 1) -> ge_int (round x) c = false.
Proof.
  intros Hc H. unfold round. cbv zeta.
  destruct (Qeq_bool (Qabs x) 0) eqn:Ez.
  - apply Qeq_bool_eq in Ez. cbn [ge_int]. apply Qle_bool_false.
    assert (X : x == 0).
    { destruct (Qlt_le_dec x 0) as [N|P].
      - rewrite (Qabs_neg x) in Ez by (apply Qlt_le_weak; exact N).
        rewrite <- (Qopp_involutive x), Ez. reflexivity.
      - rewrite (Qabs_pos x P) in Ez. exact Ez. }
    rewrite X in H. change 0 with (inject_Z 0) in *. rewrite <- Zle_Qle in H.
    rewrite <- Zlt_Qlt. lia.
  - pose proof (Qabs_positive x Ez) as Ap.
    destruct (Qle_bool 0 x) eqn:Es; cbn [negb].
    + apply Qle_bool_iff in Es.
      assert (U : nearest (Qabs x) <= inject_Z (c - 1)).
      { rewrite (Qabs_pos x Es) in Ap.
        assert (0 < inject_Z (c - 1)) by (eapply Qlt_le_trans; eassumption).
        change 0 with (inject_Z 0) in H0. rewrite <- Zlt_Qlt in H0.
        apply nearest_upper; [lia |].
        rewrite (Qabs_pos x Es). exact H. }
      assert (B : Qle_bool (pow2 1024) (nearest (Qabs x)) = false).
      { apply Qle_bool_false. eapply Qle_lt_trans; [exact U|].
        rewrite (pow2_nonneg 1024) by lia. rewrite <- Zlt_Qlt.
        assert ((2 ^ 53 <= 2 ^ 1024)%Z) by (apply Z.pow_le_mono_r; lia). lia. }
      rewrite B. cbn [ge_int]. apply Qle_bool_false.
      eapply Qle_lt_trans; [exact U|]. rewrite <- Zlt_Qlt. lia.
    + destruct (Qle_bool (pow2 1024) (nearest (Qabs x))); cbn [ge_int negb];
        [reflexivity|].
      apply Qle_bool_false.
      assert (Xn : x < 0).
      { apply Qnot_le_lt. intros L. apply Qle_bool_iff in L. congruence. }
      destruct (Z.eq_dec c 0) as [->|Hn].
      * assert (L : inject_Z 1 <= nearest (Qabs x)).
        { apply nearest_lower; [lia |].
          rewrite (Qabs_neg x) by (apply Qlt_le_weak; exact Xn).
          apply Qopp_le_compat in H. exact H. }
        apply Qle_lt_trans with (y := - inject_Z 1); [|reflexivity].
        apply Qopp_le_compat. exact L.
      * assert (L : inject_Z 0 <= nearest (Qabs x)).
        { apply nearest_lower; [lia |]. apply Qabs_nonneg. }
        apply Qle_lt_trans with (y := inject_Z 0).
        -- apply Qopp_le_compat in L. exact L.
        -- rewrite <- Zlt_Qlt. lia.
Qed.

Lemma sub_ge_int (a b : Q) (c : Z) :
  (0 <= c < 2 ^ 53)%Z -> inject_Z c <= a - b -> ge_int (sub a b) c = true.
Proof.
  intros Hc H. apply round_ge_int; [exact Hc|]. rewrite Qred_correct. exact H.
Qed.

Lemma sub_lt_int (a b : Q) (c : Z) :
  (0 <= c < 2 ^ 53)%Z -> a - b <= inject_Z (c - 1) -> ge_int (sub a b) c = false.
Proof.
  intros Hc H. apply round_lt_int; [exact Hc|]. rewrite Qred_correct. exact H.
Qed.

End FloatFacts.

(** ** The staleness check *)

Section StalenessProperties.
Import WeatherDataManager.
Context {W : Type} {O : Outside W}.

Lemma should_update_data_examined (config : WeatherStationConfig)
    (s : state W) (f : file) :
  stat_fault (ext s) = None ->
  output_file s = Some f ->
  should_update_data config s
  = Float.ge_int (Float.sub (time_time (ext s)) (st_mtime f))
      (DATA_UPDATE_INTERVAL config).
Proof.
  intros Hs Hf. unfold should_update_data, path_exists, path_stat.
  rewrite Hs, Hf. reflexivity.
Qed.

(** C5, amended: [should_update_data] answers [True] when [os.stat] fails
    on the path of the snapshot file, when the file is absent, and
    otherwise exactly when the floating-point difference of the current
    time and the modification time is at least the configured interval,
    which is 604800 seconds, seven days, when the environment does not set
    it.  For an interval from 0 to [2 ** 53] and a file that can be
    examined, the answer is [True] whenever the exact age is at least the
    interval and [False] whenever it is at most the interval minus one
    second.  So, with the default interval, a file saved eight days ago is
    due and a file saved one hour ago is not. *)
Theorem should_update_data_due_iff :
  (forall (config : WeatherStationConfig) (s : state W),
     should_update_data config s = true <->
     stat_fault (ext s) <> None \/
     output_file s = None \/
     exists f, output_file s = Some f /\
               Float.ge_int (Float.sub (time_time (ext s)) (st_mtime f))
                 (DATA_UPDATE_INTERVAL config) = true) /\
  DATA_UPDATE_INTERVAL (Config.init empty_environ) = (7 * seconds_per_day)%Z /\
  (forall (config : WeatherStationConfig) (s : state W) f,
     stat_fault (ext s) = None ->
     output_file s = Some f ->
     (0 <= DATA_UPDATE_INTERVAL config < 2 ^ 53)%Z ->
     ((inject_Z (DATA_UPDATE_INTERVAL config)
       <= time_time (ext s) - st_mtime f)%Q ->
      should_update_data config s = true) /\
     ((time_time (ext s) - st_mtime f
       <= inject_Z (DATA_UPDATE_INTERVAL config - 1))%Q ->
      should_update_data config s = false)) /\
  (forall (s : state W) f,
     stat_fault (ext s) = None ->
     output_file s = Some f ->
     (st_mtime f == time_time (ext s) - inject_Z (8 * seconds_per_day))%Q ->
     should_update_data (Config.init empty_environ) s = true) /\
  (forall (s : state W) f,
     stat_fault (ext s) = None ->
     output_file s = Some f ->
     (st_mtime f == time_time (ext s) - inject_Z 3600)%Q ->
     should_update_data (Config.init empty_environ) s = false).
Proof.
  split; [|split; [reflexivity|split; [|split]]].
  - intros config s. unfold should_update_data, path_exists, path_stat.
    destruct (stat_fault (ext s)) as [e|]; cbn [bind try_except].
    + split; [intros _; left; discriminate | reflexivity].
    + destruct (output_file s) as [f|]; cbn [negb bind try_except]; cbv zeta.
      * split.
        -- intros H. right. right. exists f. split; [reflexivity | exact H].
        -- intros [H|[H|(f' & [= <-] & H)]]; [congruence | discriminate | exact H].
      * split; [intros _; right; left; reflexivity | reflexivity].
  - intros config s f Hs Hf Hr.
    rewrite (should_update_data_examined config s f Hs Hf). split.
    + apply sub_ge_int. exact Hr.
    + apply sub_lt_int. exact Hr.
  - intros s f Hs Hf Hm.
    rewrite (should_update_data_examined _ s f Hs Hf).
    apply sub_ge_int; [cbn; lia|]. rewrite Hm.
    cbn [DATA_UPDATE_INTERVAL Config.init getenv env_DATA_UPDATE_INTERVAL empty_environ].
    unfold Qle, Qminus, Qplus, Qopp, inject_Z, seconds_per_day.
    destruct (time_time (ext s)) as [n m]. cbn [Qnum Qden]. nia.
  - intros s f Hs Hf Hm.
    rewrite (should_update_data_examined _ s f Hs Hf).
    apply sub_lt_int; [cbn; lia|]. rewrite Hm.
    cbn [DATA_UPDATE_INTERVAL Config.init getenv env_DATA_UPDATE_INTERVAL empty_environ].
    unfold Qle, Qminus, Qplus, Qopp, inject_Z.
    destruct (time_time (ext s)) as [n m]. cbn [Qnum Qden]. nia.
Qed.

End StalenessProperties.

(** C5 as stated fails: the check does not answer [True] exactly when the
    file is absent or its age is at least the interval.  A file saved one
    hour ago that [os.stat] cannot reach is due; and a file whose age is
    less than the interval by a sixteen-millionth of a second is due,
    because the difference of the two times is rounded to the interval. *)
Lemma staleness_check_is_not_the_exact_comparison :
  (exists f,
     output_file sample_state_unreachable = Some f /\
     (time_time (ext sample_state_unreachable) - st_mtime f
      < inject_Z (DATA_UPDATE_INTERVAL sample_config))%Q /\
     WeatherDataManager.should_update_data sample_config
       sample_state_unreachable = true) /\
  (exists f,
     output_file sample_state_rounding = Some f /\
     stat_fault (ext sample_state_rounding) = None /\
     (time_time (ext sample_state_rounding) - st_mtime f
      < inject_Z (DATA_UPDATE_INTERVAL sample_config_long))%Q /\
     WeatherDataManager.should_update_data sample_config_long
       sample_state_rounding = true).
Proof.
  split.
  - eexists. split; [reflexivity|]. split; vm_compute; reflexivity.
  - eexists. split; [reflexivity|]. split; [reflexivity|].
    split; vm_compute; reflexivity.
Qed.

Lemma should_update_data_due_iff_witness :
  WeatherDataManager.should_update_data sample_config
    (sample_state_aged (8 * seconds_per_day)) = true /\
  WeatherDataManager.should_update_data sample_config
    (sample_state_aged 3600) = false.
Proof.
  split.
  - refine (proj1 (proj2 (proj2 (proj2 should_update_data_due_iff)))
              (sample_state_aged (8 * seconds_per_day)) _ eq_refl eq_refl _).
    vm_compute. reflexivity.
  - refine (proj2 (proj2 (proj2 (proj2 should_update_data_due_iff)))
              (sample_state_aged 3600) _ eq_refl eq_refl _).
    vm_compute. reflexivity.
Defined.

(** ** The Fetch Client: what the caller sees of a failure *)

Section FetchProperties.
Context {W : Type} {O : Outside W}.
Variable config : WeatherStationConfig.

Lemma raise_for_status_error (r : response) :
  (400 <= status_code r < 600)%Z ->
  raise_for_status r = Raise (HTTPError (status_code r)).
Proof.
  intros [H1 H2]. unfold raise_for_status.
  apply Z.leb_le in H1. apply Z.ltb_lt in H2. rewrite H1, H2. reflexivity.
Qed.

(** C7, amended: a timeout, a refused connection and an HTTP error status
    (400 to 599) all give the caller of either fetch client the same value,
    [None]; the cause is only in the warning the client logs.  The live
    client logs a line of its own for a timeout and for a connection
    failure and the generic line, with the exception, for an error status;
    the client of the data manager logs the generic line for every cause. *)
Theorem fetch_failure_is_none
    (city : string) (coordinates latitude longitude : json) (s : state W) :
  py_unpack2 coordinates = Ok (latitude, longitude) ->
  (forall r w,
     requests_get (LiveWeatherDataManager.build_request config latitude longitude)
       (ext s) = (r, w) ->
     (r = Raise Timeout ->
      LiveWeatherDataManager._fetch_live_weather_data config city coordinates s
      = (None, logger (with_ext s w) (WarnTimeout city))) /\
     (r = Raise ConnectionError ->
      LiveWeatherDataManager._fetch_live_weather_data config city coordinates s
      = (None, logger (with_ext s w) (WarnConnectionError city))) /\
     (forall resp,
        r = Ok resp -> (400 <= status_code resp < 600)%Z ->
        LiveWeatherDataManager._fetch_live_weather_data config city coordinates s
        = (None, logger (with_ext s w)
                   (WarnFailedToFetchLive city (HTTPError (status_code resp)))))) /\
  (forall r w,
     requests_get (WeatherDataManager.build_request config latitude longitude)
       (ext s) = (r, w) ->
     (forall e,
        r = Raise e ->
        WeatherDataManager._fetch_live_weather_data config city coordinates s
        = (None, logger (with_ext s w) (WarnFailedToFetchLive city e))) /\
     (forall resp,
        r = Ok resp -> (400 <= status_code resp < 600)%Z ->
        WeatherDataManager._fetch_live_weather_data config city coordinates s
        = (None, logger (with_ext s w)
                   (WarnFailedToFetchLive city (HTTPError (status_code resp)))))).
Proof.
  intros Hu. split; intros r w Hr.
  - unfold LiveWeatherDataManager._fetch_live_weather_data. rewrite Hu, Hr.
    split; [|split].
    + intros ->. reflexivity.
    + intros ->. reflexivity.
    + intros resp -> Hs. unfold LiveWeatherDataManager.process_response.
      cbn [bind]. rewrite (raise_for_status_error resp Hs). reflexivity.
  - unfold WeatherDataManager._fetch_live_weather_data. rewrite Hu, Hr. split.
    + intros e ->. reflexivity.
    + intros resp -> Hs. unfold WeatherDataManager.process_response.
      cbn [bind]. rewrite (raise_for_status_error resp Hs). reflexivity.
Qed.

End FetchProperties.

(** C7 as stated fails: a timeout, a refused connection and a status 500
    give the caller of the live client the same value, and likewise the
    caller of the data manager's client. *)
Lemma fetch_failures_return_the_same_value :
  let live answer :=
    fst (LiveWeatherDataManager._fetch_live_weather_data sample_config
           "Paris" sample_paris (sample_state_answering [answer])) in
  let bulk answer :=
    fst (WeatherDataManager._fetch_live_weather_data sample_config
           "Paris" sample_paris (sample_state_answering [answer])) in
  live (Raise Timeout) = None /\
  live (Raise ConnectionError) = None /\
  live sample_server_error = None /\
  bulk (Raise Timeout) = None /\
  bulk (Raise ConnectionError) = None /\
  bulk sample_server_error = None.
Proof. vm_compute. repeat split. Qed.

Lemma fetch_failure_is_none_witness :
  LiveWeatherDataManager._fetch_live_weather_data sample_config "Paris"
    sample_paris (sample_state_answering [Raise Timeout])
  = (None, logger (with_ext (sample_state_answering [Raise Timeout])
                     (ext (sample_state_answering [])))
             (WarnTimeout "Paris")) /\
  WeatherDataManager._fetch_live_weather_data sample_config "Paris"
    sample_paris (sample_state_answering [sample_server_error])
  = (None, logger (with_ext (sample_state_answering [sample_server_error])
                     (ext (sample_state_answering [])))
             (WarnFailedToFetchLive "Paris" (HTTPError 500))).
Proof.
  pose proof (@fetch_failure_is_none sim sim_outside sample_config "Paris"
                sample_paris (JNum (4885 # 100)) (JNum (235 # 100))) as H.
  split.
  - refine (proj1 (proj1 (H (sample_state_answering [Raise Timeout]) eq_refl)
                     (Raise Timeout) (ext (sample_state_answering [])) eq_refl)
              eq_refl).
  - refine (proj2 (proj2 (H (sample_state_answering [sample_server_error]) eq_refl)
                     sample_server_error (ext (sample_state_answering [])) eq_refl)
              {| status_code := 500; json_body := Raise JSONDecodeError |}
              eq_refl _).
    cbn [status_code]. lia.
Defined.

(** ** The Batch Orchestrator *)

Section BatchProperties.
Import WeatherDataManager.
Context {W : Type} {O : Outside W}.
Variable config : WeatherStationConfig.

Lemma fetch_live_output_file city coordinates (s : state W) :
  output_file (snd (_fetch_live_weather_data config city coordinates s))
  = output_file s.
Proof.
  unfold _fetch_live_weather_data.
  destruct (py_unpack2 coordinates) as [[latitude longitude]|e]; [|reflexivity].
  destruct (requests_get (build_request config latitude longitude) (ext s)) as [r w].
  destruct (process_response city coordinates latitude longitude r); reflexivity.
Qed.

Lemma outcome_output_file completed city coordinates (s : state W) :
  output_file (snd (outcome config completed city coordinates s)) = output_file s.
Proof.
  unfold outcome.
  set (s0 := if (0 <? completed)%nat
             then with_ext s (time_sleep (11 # 10) (ext s)) else s).
  assert (E0 : output_file s0 = output_file s)
    by (subst s0; destruct (0 <? completed)%nat; reflexivity).
  pose proof (fetch_live_output_file city coordinates s0) as E1.
  destruct (_fetch_live_weather_data config city coordinates s0) as [data s1].
  cbn [snd] in E1.
  destruct data as [d|]; [destruct (accepted (Some d)) as [[|]|]|]; cbn [snd]; congruence.
Qed.

(** One turn of the loop, through the outcome of its location. *)
Lemma visit_outcome city coordinates (t : tally) (s : state W) :
  visit config city coordinates t s =
  (match fst (outcome config (completed t) city coordinates s) with
   | Some d => {| live_data := dict_set (live_data t) city d;
                  completed := S (completed t);
                  failed := failed t |}
   | None => {| live_data := live_data t;
                completed := completed t;
                failed := S (failed t) |}
   end,
   snd (outcome config (completed t) city coordinates s)).
Proof.
  unfold visit, outcome.
  destruct (_fetch_live_weather_data config city coordinates
              (if (0 <? completed t)%nat
               then with_ext s (time_sleep (11 # 10) (ext s)) else s)) as [data s1].
  destruct data as [d|].
  - destruct (accepted (Some d)) as [[|]|]; reflexivity.
  - cbn [accepted]. reflexivity.
Qed.

Lemma map_fst_outcomes items : forall completed (s : state W),
  map fst (outcomes config items completed s) = keys items.
Proof.
  induction items as [|[city coordinates] rest IH]; intros completed s; [reflexivity|].
  cbn [outcomes]. destruct (outcome config completed city coordinates s) as [o s1].
  cbn [map fst keys]. f_equal. apply IH.
Qed.

Lemma keys_accepted_records tr c :
  In c (keys (accepted_records tr)) -> In c (map fst tr).
Proof.
  induction tr as [|[c0 [d|]] r IH]; cbn [accepted_records flat_map snd fst app keys map].
  - tauto.
  - fold (accepted_records r). fold (keys (accepted_records r)).
    intros [H|H]; [left; exact H | right; apply IH; exact H].
  - fold (accepted_records r). fold (keys (accepted_records r)).
    intros H. right. apply IH. exact H.
Qed.

Lemma length_accepted_failures tr :
  (List.length (accepted_records tr) + failures tr = List.length tr)%nat.
Proof.
  unfold failures.
  induction tr as [|[c0 [d|]] r IH];
    cbn [accepted_records flat_map snd fst app filter List.length].
  - reflexivity.
  - fold (accepted_records r). lia.
  - fold (accepted_records r). lia.
Qed.

(** The loop of the batch, through the outcomes of its locations. *)
Lemma fetch_loop_outcomes items : forall (t : tally) (s : state W),
  NoDup (keys items) ->
  (forall c, In c (keys items) -> dict_get (live_data t) c = None) ->
  let tr := outcomes config items (completed t) s in
  let t' := fst (fetch_loop config items t s) in
  live_data t' = live_data t ++ accepted_records tr /\
  completed t' = (completed t + List.length (accepted_records tr))%nat /\
  failed t' = (failed t + failures tr)%nat /\
  output_file (snd (fetch_loop config items t s)) = output_file s.
Proof.
  induction items as [|[city coordinates] rest IH]; intros t s ND Hfresh.
  - cbn. rewrite app_nil_r. repeat split; lia.
  - inversion ND as [|? ? Hc ND']; subst.
    cbn [fetch_loop outcomes]. rewrite visit_outcome.
    pose proof (outcome_output_file (completed t) city coordinates s) as Eo.
    destruct (outcome config (completed t) city coordinates s) as [o s1].
    cbn [fst snd] in *. destruct o as [d|].
    + match goal with
      | |- context [fetch_loop config rest ?t1 s1] =>
          specialize (IH t1 s1 ND'); cbn [live_data completed failed] in IH
      end.
      destruct IH as (E1 & E2 & E3 & E4).
      { intros c Hin. rewrite dict_get_set_other.
        - apply Hfresh. right. exact Hin.
        - intros <-. contradiction. }
      cbn zeta. unfold failures in *.
      cbn [accepted_records flat_map snd fst app filter List.length].
      fold (accepted_records (outcomes config rest (S (completed t)) s1)).
      rewrite E1, E2, E3, E4.
      rewrite (dict_set_fresh (live_data t) city d) by (apply Hfresh; left; reflexivity).
      rewrite <- app_assoc. repeat split; [lia | exact Eo].
    + match goal with
      | |- context [fetch_loop config rest ?t1 s1] =>
          specialize (IH t1 s1 ND'); cbn [live_data completed failed] in IH
      end.
      destruct IH as (E1 & E2 & E3 & E4).
      { intros c Hin. apply Hfresh. right. exact Hin. }
      cbn zeta. unfold failures in *.
      cbn [accepted_records flat_map snd fst app filter List.length].
      fold (accepted_records (outcomes config rest (completed t) s1)).
      rewrite E1, E2, E3, E4. repeat split; [lia | exact Eo].
Qed.

Lemma fetch_loop_output_file items : forall (t : tally) (s : state W),
  output_file (snd (fetch_loop config items t s)) = output_file s.
Proof.
  induction items as [|[city coordinates] rest IH]; intros t s; [reflexivity|].
  cbn [fetch_loop]. rewrite visit_outcome.
  rewrite IH. apply outcome_output_file.
Qed.

Lemma fetch_loop_none_accepted items : forall (t : tally) (s : state W),
  accepted_records (outcomes config items (completed t) s) = [] ->
  live_data (fst (fetch_loop config items t s)) = live_data t.
Proof.
  induction items as [|[city coordinates] rest IH]; intros t s H; [reflexivity|].
  cbn [fetch_loop outcomes] in *. rewrite visit_outcome.
  destruct (outcome config (completed t) city coordinates s) as [[d|] s1];
    cbn [fst snd accepted_records flat_map app] in *; [discriminate|].
  apply (IH {| live_data := live_data t; completed := completed t;
               failed := S (failed t) |} s1 H).
Qed.

Lemma batch_dict items (s : state W) :
  items <> [] ->
  _fetch_data_with_rate_limiting config (JDict items) s =
  (Ok (live_data (fst (fetch_loop config items empty_tally s))),
   logger (snd (fetch_loop config items empty_tally s))
     (InfoDataFetchCompleted
        (completed (fst (fetch_loop config items empty_tally s)))
        (failed (fst (fetch_loop config items empty_tally s))))).
Proof.
  intros Hne. unfold _fetch_data_with_rate_limiting. cbn [py_len py_items].
  fold empty_tally. destruct (fetch_loop config items empty_tally s) as [t s1].
  destruct items; [congruence|]. reflexivity.
Qed.

Lemma batch_ok_inv locations (s : state W) fresh :
  fst (_fetch_data_with_rate_limiting config locations s) = Ok fresh ->
  exists items, locations = JDict items /\ items <> [].
Proof.
  unfold _fetch_data_with_rate_limiting.
  destruct locations as [| | | | x | l | items]; cbn [py_len py_items fst]; try discriminate.
  fold empty_tally. destruct (fetch_loop config items empty_tally s) as [t s1].
  destruct items; cbn [List.length Nat.eqb fst]; [discriminate|].
  intros _. eexists. split; [reflexivity | discriminate].
Qed.

Lemma batch_output_file locations (s : state W) :
  output_file (snd (_fetch_data_with_rate_limiting config locations s))
  = output_file s.
Proof.
  unfold _fetch_data_with_rate_limiting.
  destruct (py_len locations) as [n|]; [|reflexivity].
  destruct (py_items locations) as [items|]; [|reflexivity].
  fold empty_tally. pose proof (fetch_loop_output_file items empty_tally s) as E.
  destruct (fetch_loop config items empty_tally s) as [t s1].
  destruct (n =? 0)%nat; exact E.
Qed.

(** C4: a batch visits every location of the catalog in its order, whatever
    the earlier ones gave; the snapshot mapping it builds holds exactly the
    locations whose record was fetched and accepted, the failure count is the
    number of the others, and the two counts add up to the number of
    locations; a location whose request fails counts as a failure.  For a
    catalog that is not empty the batch returns that mapping and logs the
    two counts. *)
Theorem batch_continues_after_failures (items : dict json) (s : state W) :
  NoDup (keys items) ->
  let tr := outcomes config items 0 s in
  let t := fst (fetch_loop config items empty_tally s) in
  map fst tr = keys items /\
  live_data t = accepted_records tr /\
  completed t = List.length (accepted_records tr) /\
  failed t = failures tr /\
  (completed t + failed t = List.length items)%nat /\
  (forall n city coordinates (s0 : state W),
     fst (_fetch_live_weather_data config city coordinates
            (if (0 <? n)%nat
             then with_ext s0 (time_sleep (11 # 10) (ext s0)) else s0)) = None ->
     fst (outcome config n city coordinates s0) = None) /\
  (items <> [] ->
   _fetch_data_with_rate_limiting config (JDict items) s =
   (Ok (accepted_records tr),
    logger (snd (fetch_loop config items empty_tally s))
      (InfoDataFetchCompleted (List.length (accepted_records tr)) (failures tr)))).
Proof.
  intros ND tr t.
  destruct (fetch_loop_outcomes items empty_tally s ND (fun _ _ => eq_refl))
    as (E1 & E2 & E3 & _).
  cbn [empty_tally live_data completed failed app Nat.add] in E1, E2, E3.
  fold tr t in E1, E2, E3.
  split; [apply map_fst_outcomes|]. split; [exact E1|]. split; [exact E2|].
  split; [exact E3|]. split; [|split].
  - rewrite E2, E3, length_accepted_failures. unfold tr.
    rewrite <- (length_map fst), map_fst_outcomes. unfold keys. apply length_map.
  - intros n city coordinates s0 H. unfold outcome.
    destruct (_fetch_live_weather_data config city coordinates
                (if (0 <? n)%nat
                 then with_ext s0 (time_sleep (11 # 10) (ext s0)) else s0))
      as [data s1].
    cbn [fst] in H. subst data. reflexivity.
  - intros Hne. rewrite (batch_dict items s Hne). fold t. rewrite E1, E2, E3.
    reflexivity.
Qed.

(** C1: when a batch accepts no location, [_perform_update] returns
    [False] and the snapshot file, and so what [load_weather_data] returns,
    is what it was before. *)
Theorem zero_yield_leaves_snapshot (s : state W) :
  (fst (_fetch_data_with_rate_limiting config (_load_locations s) s) = Ok []
   \/ exists items,
        _load_locations s = JDict items /\
        accepted_records (outcomes config items 0 s) = []) ->
  fst (_perform_update config s) = false /\
  output_file (snd (_perform_update config s)) = output_file s /\
  load_weather_data (snd (_perform_update config s)) = load_weather_data s.
Proof.
  intros H.
  assert (E : fst (_perform_update config s) = false /\
              output_file (snd (_perform_update config s)) = output_file s).
  { unfold _perform_update.
    destruct (py_truthy (_load_locations s)) eqn:Et; cbn [negb]; [|auto].
    destruct (py_len (_load_locations s)) as [n|] eqn:El; [|auto].
    pose proof (batch_output_file (_load_locations s) s) as Eo.
    assert (Hb : forall fresh,
               fst (_fetch_data_with_rate_limiting config (_load_locations s) s)
               = Ok fresh -> fresh = []).
    { intros fresh Hf. destruct H as [H|(items & Hl & Hnone)]; [congruence|].
      rewrite Hl in Hf, Et. assert (Hne : items <> []) by (destruct items; [discriminate|discriminate]).
      rewrite (batch_dict items s Hne) in Hf. cbn [fst] in Hf.
      rewrite (fetch_loop_none_accepted items empty_tally s Hnone) in Hf.
      cbn [empty_tally live_data] in Hf. congruence. }
    destruct (_fetch_data_with_rate_limiting config (_load_locations s) s)
      as [[fresh|e] s1]; cbn [fst snd] in *; [|auto].
    rewrite (Hb fresh eq_refl). auto. }
  destruct E as [E1 E2]. split; [exact E1|]. split; [exact E2|].
  unfold load_weather_data. rewrite E2. reflexivity.
Qed.

(** C6, amended: there is no in-memory copy of the snapshot; what
    [load_weather_data] returns is read from the file.  After a batch that
    accepted a location, an update whose write succeeds returns [True] and
    [load_weather_data] then returns the new snapshot; an update whose write
    fails returns [False], and [load_weather_data] then returns what it
    returned before when the file could not be opened, and [None] when the
    write broke off after the file was truncated. *)
Theorem update_then_load (s s1 : state W) (fresh : dict json) :
  _fetch_data_with_rate_limiting config (_load_locations s) s = (Ok fresh, s1) ->
  fresh <> [] ->
  let r := _perform_update config s in
  match output_write (ext s1) with
  | NoFault =>
      fst r = true /\ load_weather_data (snd r) = Some (JDict fresh)
  | MkdirFails | OpenFails =>
      fst r = false /\ load_weather_data (snd r) = load_weather_data s
  | DumpFails =>
      fst r = false /\ load_weather_data (snd r) = None
  end.
Proof.
  intros Hb Hne r.
  destruct (batch_ok_inv (_load_locations s) s fresh) as (items & El & Hi);
    [rewrite Hb; reflexivity|].
  pose proof (batch_output_file (_load_locations s) s) as Eo.
  rewrite Hb in Eo. cbn [snd] in Eo.
  subst r. unfold _perform_update. rewrite El in *.
  assert (Et : py_truthy (JDict items) = true) by (destruct items; [congruence|reflexivity]).
  rewrite Et. cbn [negb py_len]. rewrite Hb.
  destruct fresh as [|kv fresh']; [congruence|].
  unfold write_output.
  destruct (output_write (ext s1)); cbn [fst snd]; (split; [reflexivity|]).
  - reflexivity.
  - unfold load_weather_data. rewrite Eo. reflexivity.
  - unfold load_weather_data. rewrite Eo. reflexivity.
  - reflexivity.
Qed.

End BatchProperties.


Lemma NoDup_sample_catalog : NoDup (keys sample_catalog).
Proof.
  repeat (constructor; [simpl; intuition discriminate|]). constructor.
Qed.

Lemma batch_continues_after_failures_witness :
  let t := fst (WeatherDataManager.fetch_loop sample_config sample_catalog
                  empty_tally sample_state_second_fails) in
  keys (WeatherDataManager.live_data t) = ["Paris"; "Lima"] /\
  WeatherDataManager.failed t = 1%nat /\
  log (snd (WeatherDataManager._fetch_data_with_rate_limiting sample_config
              (JDict sample_catalog) sample_state_second_fails))
  = [WarnFailedToFetchLive "Tokyo" ConnectionError; InfoDataFetchCompleted 2 1].
Proof.
  destruct (batch_continues_after_failures sample_config sample_catalog
              sample_state_second_fails NoDup_sample_catalog)
    as (_ & E1 & _ & E3 & _ & _ & E5).
  cbv zeta. rewrite E1, E3, E5 by discriminate.
  vm_compute. repeat split.
Defined.

Lemma zero_yield_leaves_snapshot_witness :
  fst (WeatherDataManager._perform_update sample_config sample_state_all_fail)
  = false /\
  WeatherDataManager.load_weather_data
    (snd (WeatherDataManager._perform_update sample_config sample_state_all_fail))
  = Some sample_snapshot.
Proof.
  destruct (zero_yield_leaves_snapshot sample_config sample_state_all_fail)
    as (E1 & _ & E3).
  - left. vm_compute. reflexivity.
  - split; [exact E1|]. rewrite E3. reflexivity.
Defined.

(** C6 as stated fails: the batch accepted two locations, the file could not
    be opened for writing, the update returns [False], and
    [load_weather_data] still returns the old snapshot, not the new one. *)
Lemma failed_write_keeps_old_snapshot :
  let s := sample_state_failing_write in
  let r := WeatherDataManager._perform_update sample_config s in
  exists fresh,
    fst (WeatherDataManager._fetch_data_with_rate_limiting sample_config
           (WeatherDataManager._load_locations s) s) = Ok fresh /\
    fresh <> [] /\
    fst r = false /\
    WeatherDataManager.load_weather_data (snd r) = Some sample_snapshot /\
    Some sample_snapshot <> Some (JDict fresh).
Proof.
  cbv zeta. eexists. split; [vm_compute; reflexivity|].
  split; [discriminate|]. split; [vm_compute; reflexivity|].
  split; [vm_compute; reflexivity|]. vm_compute. discriminate.
Qed.

Lemma update_then_load_witness :
  let r := WeatherDataManager._perform_update sample_config
             sample_state_second_fails in
  fst r = true /\
  WeatherDataManager.load_weather_data (snd r) = Some (JDict sample_fresh).
Proof.
  assert (E : WeatherDataManager._fetch_data_with_rate_limiting sample_config
                (WeatherDataManager._load_locations sample_state_second_fails)
                sample_state_second_fails
              = (Ok sample_fresh,
                 snd (WeatherDataManager._fetch_data_with_rate_limiting
                        sample_config
                        (WeatherDataManager._load_locations
                           sample_state_second_fails)
                        sample_state_second_fails)))
    by (vm_compute; reflexivity).
  assert (Hne : sample_fresh <> []) by (vm_compute; discriminate).
  exact (update_then_load sample_config sample_state_second_fails _
           sample_fresh E Hne).
Defined.

(** ** The limit of the route [/api/data/weather] *)

Section LimitProperties.
Import Index.
Context {W : Type} {O : Outside W}.
Variable config : WeatherStationConfig.

Lemma length_dict_of_items {V : Type} (pairs : list (string * V)) :
  (List.length (dict_of_items pairs) <= List.length pairs)%nat.
Proof.
  unfold dict_of_items.
  assert (H : forall acc : dict V,
             (List.length (fold_left (fun d kv => dict_set d (fst kv) (snd kv))
                             pairs acc)
              <= List.length acc + List.length pairs)%nat).
  { induction pairs as [|kv rest IH]; intros acc; cbn [fold_left List.length]; [lia|].
    specialize (IH (dict_set acc (fst kv) (snd kv))).
    pose proof (length_dict_set_le acc (fst kv) (snd kv)). lia. }
  apply (H []).
Qed.

Lemma length_take limit (items : dict json) :
  (0 <= limit)%Z -> (Z.of_nat (List.length (take limit items)) <= limit)%Z.
Proof.
  intros Hl. unfold take.
  pose proof (length_dict_of_items (firstn (Z.to_nat limit) items)) as H1.
  pose proof (firstn_le_length (Z.to_nat limit) items) as H2.
  rewrite length_firstn in H1. lia.
Qed.

Lemma cities_loop_length len_locations limit start_time items :
  forall (b b' : LiveWeatherDataManager.batch) (s s' : state W),
    LiveWeatherDataManager.cities_loop config len_locations limit start_time
      items b s = (Ok b', s') ->
    (List.length (LiveWeatherDataManager.result_map b')
     <= List.length (LiveWeatherDataManager.result_map b) + List.length items)%nat.
Proof.
  induction items as [|[city coordinates] rest IH]; intros b b' s s';
    cbn [LiveWeatherDataManager.cities_loop]; cbv zeta.
  - intros [= <- _]. lia.
  - destruct (negb (limit =? 0)%Z
              && (limit <=? Z.of_nat (LiveWeatherDataManager.count b))%Z).
    + intros [= <- _]. lia.
    + destruct (LiveWeatherDataManager._fetch_live_weather_data config city
                  coordinates s) as [data s1].
      match goal with
      | |- context [LiveWeatherDataManager.cities_loop _ _ _ _ _ ?b1 ?s2] =>
          set (s3 := s2); set (b2 := b1) in *
      end.
      assert (Hb : (List.length (LiveWeatherDataManager.result_map b2)
                    <= S (List.length (LiveWeatherDataManager.result_map b)))%nat).
      { subst b2. destruct data as [d|]; [|cbn; lia].
        destruct (LiveWeatherDataManager.truthy (Some d)); cbn; [|lia].
        apply length_dict_set_le. }
      cbn [List.length].
      destruct ((0 <? LiveWeatherDataManager.count b2)%nat
                && (LiveWeatherDataManager.count b2 mod 10 =? 0)%nat).
      * destruct (Qeq_bool (Qminus (time_time (ext s3)) start_time) (0 # 1));
          [discriminate|].
        intros H. apply IH in H. lia.
      * intros H. apply IH in H. lia.
Qed.

Lemma fetch_multiple_length (items : dict json) limit (s : state W) data :
  fst (LiveWeatherDataManager._fetch_multiple_cities_data config (JDict items)
         limit s) = Ok data ->
  (List.length data <= List.length items)%nat.
Proof.
  unfold LiveWeatherDataManager._fetch_multiple_cities_data. cbn [py_len py_items].
  destruct (LiveWeatherDataManager.cities_loop config (List.length items) limit
              (time_time (ext s)) items
              {| LiveWeatherDataManager.result_map := [];
                 LiveWeatherDataManager.count := 0;
                 LiveWeatherDataManager.errors := 0 |} s) as [[b|e] s1] eqn:E;
    cbn [fst]; [|discriminate].
  intros [= <-]. apply cities_loop_length in E. cbn in E. exact E.
Qed.

Lemma live_branch_bound limit (s : state W) data :
  (0 <= limit)%Z ->
  resp_data (fst (live_branch config limit s)) = Some data ->
  (Z.of_nat (List.length data) <= limit)%Z.
Proof.
  intros Hl. unfold live_branch.
  destruct (LiveWeatherDataManager.load_locations s) as [locations s0].
  destruct (py_truthy locations); cbn [negb]; [|discriminate].
  destruct (py_items locations) as [items|]; [|discriminate].
  pose proof (fetch_multiple_length (take limit items) limit s0) as Hf.
  destruct (LiveWeatherDataManager._fetch_multiple_cities_data config
              (JDict (take limit items)) limit s0) as [[fetched|e] s1];
    cbn [fst] in *; [|discriminate].
  specialize (Hf fetched eq_refl). pose proof (length_take limit items Hl).
  destruct fetched as [|kv fetched'].
  - destruct (LiveWeatherDataManager.get_api_status config s1). discriminate.
  - unfold render. destruct (renderable (JDict (kv :: fetched')));
      cbn [bind try_except fst resp_data resp_content internal_server_error];
      [|discriminate].
    intros [= <-]. lia.
Qed.

Lemma file_branch_bound limit (s : state W) data :
  (0 <= limit)%Z ->
  resp_data (fst (file_branch config limit s)) = Some data ->
  (Z.of_nat (List.length data) <= limit)%Z.
Proof.
  intros Hl. unfold file_branch.
  destruct (WeatherDataManager.load_weather_data s) as [loaded|].
  - cbn [fst]. destruct loaded as [| | | | x | l | d]; cbn [py_len bind try_except];
      try discriminate.
    + destruct (limit <? Z.of_nat (String.length x))%Z; discriminate.
    + destruct (limit <? Z.of_nat (List.length l))%Z; discriminate.
    + unfold render.
      destruct (limit <? Z.of_nat (List.length d))%Z eqn:E; cbn [py_items bind].
      * destruct (renderable (JDict (take limit d)));
          cbn [bind try_except resp_data resp_content internal_server_error];
          [|discriminate].
        intros [= <-]. apply length_take. exact Hl.
      * destruct (renderable (JDict d));
          cbn [bind try_except resp_data resp_content internal_server_error];
          [|discriminate].
        intros [= <-]. apply Z.ltb_ge in E. exact E.
  - destruct (get_data_info config s). discriminate.
Qed.

(** C9: [get_weather_data] works with the limit clamped to the interval from
    1 to 300: a limit below 1 is taken as 1, one above 300 as 300, the
    answer to a limit is the answer to the clamped limit, and the data
    mapping of an answer never has more locations than the clamped limit. *)
Theorem weather_data_limit_is_clamped (limit : Z) (s : state W) :
  (1 <= sanitize_limit limit <= 300)%Z /\
  ((limit < 1)%Z -> sanitize_limit limit = 1%Z) /\
  ((300 < limit)%Z -> sanitize_limit limit = 300%Z) /\
  ((1 <= limit <= 300)%Z -> sanitize_limit limit = limit) /\
  get_weather_data config limit s
  = get_weather_data config (sanitize_limit limit) s /\
  (forall data,
     resp_data (fst (get_weather_data config limit s)) = Some data ->
     (Z.of_nat (List.length data) <= sanitize_limit limit)%Z).
Proof.
  unfold sanitize_limit at 1 2 3 4 5.
  split; [lia|]. split; [lia|]. split; [lia|]. split; [lia|]. split.
  - unfold get_weather_data.
    replace (sanitize_limit (sanitize_limit limit)) with (sanitize_limit limit)
      by (unfold sanitize_limit; lia).
    reflexivity.
  - intros data. unfold get_weather_data.
    assert (Hl : (0 <= sanitize_limit limit)%Z) by (unfold sanitize_limit; lia).
    destruct (LIVE_DATA_ENABLED config);
      [apply live_branch_bound | apply file_branch_bound]; exact Hl.
Qed.

End LimitProperties.

Lemma weather_data_limit_is_clamped_witness :
  Index.sanitize_limit (-5) = 1%Z /\
  Index.sanitize_limit 1000 = 300%Z /\
  exists data,
    Index.resp_data (fst (Index.get_weather_data sample_config (-5)
                            sample_state_live)) = Some data /\
    keys data = ["Paris"] /\
    (Z.of_nat (List.length data) <= 1)%Z.
Proof.
  destruct (weather_data_limit_is_clamped sample_config (-5) sample_state_live)
    as (_ & H1 & _ & _ & _ & H5).
  destruct (weather_data_limit_is_clamped sample_config 1000 sample_state_live)
    as (_ & _ & H3 & _).
  split; [apply H1; lia|]. split; [apply H3; lia|].
  eexists. split; [vm_compute; reflexivity|]. split; [reflexivity|].
  rewrite <- H1 by lia. apply H5. vm_compute. reflexivity.
Defined.

(** ** Current conditions *)

Section CurrentConditionsProperties.
Import LiveWeatherDataManager.
Context {W : Type} {O : Outside W}.
Variable config : WeatherStationConfig.

Lemma py_list_index_last (l : list json) :
  l <> [] -> py_list_index l (-1) = Ok (List.last l JNull).
Proof.
  intros Hne. destruct (exists_last Hne) as (pre & v & ->).
  rewrite last_last. unfold py_list_index. rewrite length_app. cbn [List.length].
  replace (-1 <? 0)%Z with true by reflexivity.
  replace (-1 + Z.of_nat (List.length pre + 1))%Z with (Z.of_nat (List.length pre))
    by lia.
  replace (Z.of_nat (List.length pre) <? 0)%Z with false by (symmetry; apply Z.ltb_ge; lia).
  replace (Z.of_nat (List.length pre + 1) <=? Z.of_nat (List.length pre))%Z
    with false by (symmetry; apply Z.leb_gt; lia).
  cbn [orb]. rewrite Nat2Z.id, nth_error_app2, Nat.sub_diag by lia. reflexivity.
Qed.

Lemma latest_Some values v :
  latest values = Some v <->
  exists pre, values = JList (pre ++ [v]) /\ (2 <= List.length (pre ++ [v]))%nat.
Proof.
  unfold latest. destruct values as [| | | | | l |];
    try (split; [discriminate | intros (pre & [=] & _)]).
  destruct (2 <=? List.length l)%nat eqn:E.
  - apply Nat.leb_le in E. split.
    + intros [= <-]. assert (Hne : l <> []) by (destruct l; [simpl in E; lia | discriminate]).
      destruct (exists_last Hne) as (pre & x & ->). rewrite last_last.
      exists pre. split; [reflexivity | exact E].
    + intros (pre & [= ->] & _). rewrite last_last. reflexivity.
  - apply Nat.leb_gt in E. split; [discriminate|].
    intros (pre & [= ->] & H). lia.
Qed.

(** The loop of [get_current_conditions] over a series with distinct
    keys. *)
Lemma current_loop_spec items :
  NoDup (keys items) ->
  forall cur, exists cur',
    current_loop items cur = Ok cur' /\
    forall p,
      dict_get cur' p =
      match match dict_get items p with
            | Some values => latest values
            | None => None
            end with
      | Some v => Some v
      | None => dict_get cur p
      end.
Proof.
  induction items as [|[param values] rest IH]; intros ND cur.
  - exists cur. split; [reflexivity|]. intros p. reflexivity.
  - inversion ND as [|? ? Hp ND']; subst. apply dict_get_None_keys in Hp.
    assert (Hstep : exists cur1,
               current_loop ((param, values) :: rest) cur = current_loop rest cur1 /\
               forall p, dict_get cur1 p =
                         if String.eqb param p
                         then match latest values with
                              | Some v => Some v
                              | None => dict_get cur p
                              end
                         else dict_get cur p).
    { cbn [current_loop]. unfold latest.
      assert (Hsame : forall p, dict_get cur p =
                                if String.eqb param p then dict_get cur p
                                else dict_get cur p)
        by (intros p; destruct (String.eqb param p); reflexivity).
      destruct values as [| | | | | l |]; try (exists cur; split; [reflexivity|exact Hsame]).
      replace (Z.abs current_hour_index <? Z.of_nat (List.length l))%Z
        with (2 <=? List.length l)%nat.
      - destruct (2 <=? List.length l)%nat eqn:E; [|exists cur; split; [reflexivity|exact Hsame]].
        apply Nat.leb_le in E.
        rewrite py_list_index_last by (destruct l; [simpl in E; lia | discriminate]).
        cbn [bind]. eexists. split; [reflexivity|].
        intros p. rewrite dict_get_set.
        destruct (String.eqb param p) eqn:Ep; [reflexivity|].
        apply String.eqb_neq in Ep. reflexivity.
      - unfold current_hour_index. cbn [Z.abs Z.opp].
        destruct (2 <=? List.length l)%nat eqn:E1; symmetry.
        + apply Nat.leb_le in E1. apply Z.ltb_lt. lia.
        + apply Nat.leb_gt in E1. apply Z.ltb_ge. lia. }
    destruct Hstep as (cur1 & -> & L1).
    destruct (IH ND' cur1) as (cur' & E & L). exists cur'. split; [exact E|].
    intros p. rewrite L, L1. cbn [dict_get].
    destruct (String.eqb param p) eqn:Ep.
    + apply String.eqb_eq in Ep; subst p. rewrite Hp. reflexivity.
    + reflexivity.
Qed.

(** The hourly series of a record the normalizer returns is a mapping with
    distinct keys. *)
Lemma normalize_ok_hourly (j : json) (d1 : dict json) (hv : json) :
  FieldNormalizer._normalize_field_names j = Ok (JDict d1) ->
  dict_get d1 "hourly" = Some hv ->
  exists h, hv = JDict h /\ NoDup (keys h).
Proof.
  destruct (py_truthy j) eqn:Et.
  - destruct j as [| | | | x | l | d];
      try (unfold FieldNormalizer._normalize_field_names; rewrite Et;
           cbn [negb py_in bind]; discriminate).
    + unfold FieldNormalizer._normalize_field_names. rewrite Et. cbn [negb py_in bind].
      destruct (is_substring "hourly" x); cbn [negb py_getitem bind]; discriminate.
    + unfold FieldNormalizer._normalize_field_names. rewrite Et. cbn [negb py_in bind].
      destruct (existsb (is_str "hourly") l); cbn [negb py_getitem bind]; discriminate.
    + destruct (dict_get d "hourly") as [hourly|] eqn:Ed.
      * destruct hourly as [| | | | x | l | h];
          try (unfold FieldNormalizer._normalize_field_names; rewrite Et;
               cbn [negb py_in bind]; unfold dict_mem; rewrite Ed;
               cbn [negb py_in py_getitem py_items bind]; rewrite ?Ed;
               cbn [negb py_in py_getitem py_items bind];
               repeat (match goal with
                       | |- context [bind ?c _] => destruct c; cbn [bind]
                       end);
               discriminate).
        destruct (normalize_dict d h Ed) as (nh & E & N & _).
        rewrite E. intros [= <-]. rewrite dict_get_set_same. intros [= <-].
        exists nh. split; [reflexivity | exact N].
      * unfold FieldNormalizer._normalize_field_names. rewrite Et.
        cbn [negb py_in bind]. unfold dict_mem. rewrite Ed. cbn [negb].
        intros [= <-]. congruence.
  - unfold FieldNormalizer._normalize_field_names. rewrite Et. cbn [negb].
    intros [= ->]. destruct d1; [discriminate|discriminate].
Qed.

Lemma process_response_shape city coordinates latitude longitude now r data :
  process_response city coordinates latitude longitude now r = Ok data ->
  exists d,
    data = JDict d /\
    forall hv, dict_get d "hourly" = Some hv ->
               exists h, hv = JDict h /\ NoDup (keys h).
Proof.
  unfold process_response.
  destruct r as [resp|]; cbn [bind]; [|discriminate].
  destruct (raise_for_status resp); cbn [bind]; [|discriminate].
  destruct (json_body resp) as [j|]; cbn [bind]; [|discriminate].
  unfold _normalize_field_names.
  destruct (FieldNormalizer._normalize_field_names j) as [j1|] eqn:En;
    cbn [bind]; [|discriminate].
  destruct j1 as [| | | | | | d1]; cbn [py_setitem bind]; try discriminate.
  intros [= <-]. eexists. split; [reflexivity|].
  intros hv. repeat rewrite dict_get_set_other by discriminate.
  apply (normalize_ok_hourly j d1 hv En).
Qed.

Lemma fetch_live_shape city coordinates (s : state W) data :
  fst (_fetch_live_weather_data config city coordinates s) = Some data ->
  exists d,
    data = JDict d /\
    forall hv, dict_get d "hourly" = Some hv ->
               exists h, hv = JDict h /\ NoDup (keys h).
Proof.
  unfold _fetch_live_weather_data, on_exception.
  destruct (py_unpack2 coordinates) as [[latitude longitude]|e].
  - destruct (requests_get (build_request config latitude longitude) (ext s)) as [r w].
    destruct (process_response city coordinates latitude longitude
                (datetime_now_isoformat w) r) as [data'|e] eqn:Ep.
    + cbn [fst]. intros [= <-]. eapply process_response_shape. exact Ep.
    + destruct e; discriminate.
  - destruct e; discriminate.
Qed.

Lemma get_weather_data_city_shape city (s : state W) data :
  city <> "" ->
  fst (get_weather_data config (Some city) s) = Ok (Some data) ->
  exists d,
    data = JDict d /\
    forall hv, dict_get d "hourly" = Some hv ->
               exists h, hv = JDict h /\ NoDup (keys h).
Proof.
  intros Hc. unfold get_weather_data.
  destruct (load_locations s) as [locations s0].
  destruct (py_truthy locations); cbn [negb]; [|discriminate].
  apply String.eqb_neq in Hc. rewrite Hc.
  destruct (py_in city locations) as [[|]|]; try discriminate.
  destruct (py_getitem locations city) as [coordinates|]; [|discriminate].
  pose proof (fetch_live_shape city coordinates s0) as Hs.
  destruct (_fetch_live_weather_data config city coordinates s0) as [fetched s1].
  cbn [fst] in *. intros [= ->]. apply Hs. reflexivity.
Qed.

(** C10: when [get_current_conditions] returns the conditions of a city,
    the record fetched for it has an hourly series that is a mapping, and
    [current] has a value at a parameter exactly when the series has a list
    of at least two samples there, the value being the last of them; a
    parameter with a single sample, or with a value that is not a list, is
    left out. *)
Theorem current_conditions_need_two_samples
    (city : string) (s : state W) (cc : current_conditions) :
  city <> "" ->
  fst (get_current_conditions config city s) = Ok (Some cc) ->
  exists data h,
    fst (get_weather_data config (Some city) s) = Ok (Some (JDict data)) /\
    dict_get data "hourly" = Some (JDict h) /\
    (forall param v,
       dict_get (current cc) param = Some v <->
       exists pre, dict_get h param = Some (JList (pre ++ [v])) /\
                   (2 <= List.length (pre ++ [v]))%nat) /\
    (forall param x,
       dict_get h param = Some (JList [x]) -> dict_get (current cc) param = None) /\
    (forall param values,
       dict_get h param = Some values -> is_list values = false ->
       dict_get (current cc) param = None).
Proof.
  intros Hc. unfold get_current_conditions.
  pose proof (get_weather_data_city_shape city s) as Hshape.
  destruct (get_weather_data config (Some city) s) as [r s1].
  cbn [fst] in Hshape. destruct r as [[data|]|]; cbn [fst]; try discriminate.
  destruct (Hshape data Hc eq_refl) as (d & -> & Hh).
  destruct (py_truthy (JDict d)); cbn [negb fst]; [|discriminate].
  cbn [py_in]. unfold dict_mem.
  destruct (dict_get d "hourly") as [hv|] eqn:Ed; cbn [fst]; [|discriminate].
  destruct (Hh hv eq_refl) as (h & -> & ND).
  cbn [py_getitem]. rewrite Ed. cbn [bind py_get py_items].
  destruct (current_loop_spec h ND []) as (cur & Ecur & L).
  rewrite Ecur.
  assert (Hiff : forall param v,
             dict_get cur param = Some v <->
             exists pre, dict_get h param = Some (JList (pre ++ [v])) /\
                         (2 <= List.length (pre ++ [v]))%nat).
  { intros param v. rewrite L. cbn [dict_get].
    destruct (dict_get h param) as [values|] eqn:Ep.
    - destruct (latest values) as [x|] eqn:El.
      + split.
        * intros [= <-]. apply latest_Some in El. destruct El as (pre & -> & Hlen).
          exists pre. auto.
        * intros (pre & [= ->] & Hlen).
          assert (latest (JList (pre ++ [v])) = Some v)
            by (apply latest_Some; eauto).
          congruence.
      + split; [discriminate|]. intros (pre & [= ->] & Hlen).
        assert (latest (JList (pre ++ [v])) = Some v)
          by (apply latest_Some; eauto).
        congruence.
    - split; [discriminate|]. intros (pre & [=] & _). }
  assert (Hone : forall param x,
             dict_get h param = Some (JList [x]) -> dict_get cur param = None).
  { intros param x Hx. rewrite L, Hx. reflexivity. }
  assert (Hnl : forall param values,
             dict_get h param = Some values -> is_list values = false ->
             dict_get cur param = None).
  { intros param values Hv Hl. rewrite L, Hv.
    destruct values; try reflexivity. discriminate. }
  destruct (dict_get d "coordinates"), (dict_get d "timezone"),
    (dict_get d "fetch_time"); cbn [bind try_except]; intros [= <-];
    cbn [current]; exists d, h; auto.
Qed.

End CurrentConditionsProperties.


Lemma current_conditions_need_two_samples_witness :
  exists cc,
    fst (LiveWeatherDataManager.get_current_conditions sample_config "Paris"
           sample_state_short) = Ok (Some cc) /\
    dict_get (LiveWeatherDataManager.current cc) "temperature_2m"
    = Some (JNum (20 # 1)) /\
    dict_get (LiveWeatherDataManager.current cc) "uv_index" = None /\
    dict_get (LiveWeatherDataManager.current cc) "interval" = None.
Proof.
  eexists. split; [vm_compute; reflexivity|].
  match goal with
  | |- dict_get (LiveWeatherDataManager.current ?c) _ = _ /\ _ =>
      destruct (@current_conditions_need_two_samples sim sim_outside
                  sample_config "Paris" sample_state_short c)
        as (data & h & Eg & Eh & Hiff & Hone & Hnl)
  end.
  - discriminate.
  - vm_compute. reflexivity.
  - vm_compute in Eg. injection Eg as <-.
    vm_compute in Eh. injection Eh as <-.
    split; [|split].
    + apply Hiff. exists [JNum (19 # 1)]. split; [reflexivity | simpl; lia].
    + apply (Hone "uv_index" (JNum (3 # 1))). reflexivity.
    + apply (Hnl "interval" (JNum (3600 # 1))); reflexivity.
Defined.

(** * Further properties of the pipeline *)

(** ** The Field Normalizer: a second pass, and where values come from *)

Section NormalizerMore.
Import FieldNormalizer.

(** A record the normalizer returns normally is either returned as it was
    given, or is a mapping whose hourly series is a mapping. *)
Lemma normalize_inv (j j' : json) :
  _normalize_field_names j = Ok j' ->
  (j' = j /\ (py_truthy j = false \/ py_in "hourly" j = Ok false)) \/
  exists d h, j = JDict d /\ dict_get d "hourly" = Some (JDict h).
Proof.
  destruct (py_truthy j) eqn:Et.
  - destruct j as [| | | | x | l | d];
      try (unfold _normalize_field_names; rewrite Et;
           cbn [negb py_in bind]; discriminate).
    + unfold _normalize_field_names. rewrite Et. cbn [negb py_in bind].
      destruct (is_substring "hourly" x) eqn:Ei; cbn [negb py_getitem bind];
        [discriminate | intros [= <-]; left; split; [reflexivity|right]].
      cbn [py_in]. rewrite ?Ei. reflexivity.
    + unfold _normalize_field_names. rewrite Et. cbn [negb py_in bind].
      destruct (existsb (is_str "hourly") l) eqn:Ei; cbn [negb py_getitem bind];
        [discriminate | intros [= <-]; left; split; [reflexivity|right]].
      cbn [py_in]. rewrite ?Ei. reflexivity.
    + destruct (dict_get d "hourly") as [hourly|] eqn:Ed.
      * destruct hourly as [| | | | x | l | h];
          try (unfold _normalize_field_names; rewrite Et;
               cbn [negb py_in bind]; unfold dict_mem; rewrite Ed;
               cbn [negb py_in py_getitem py_items bind]; rewrite ?Ed;
               cbn [negb py_in py_getitem py_items bind];
               repeat (match goal with
                       | |- context [bind ?c _] => destruct c; cbn [bind]
                       end);
               discriminate).
        intros _. right. exists d, h. split; [reflexivity | exact Ed].
      * unfold _normalize_field_names. rewrite Et.
        cbn [negb py_in bind]. unfold dict_mem. rewrite Ed. cbn [negb].
        intros [= <-]. left. split; [reflexivity|right].
        cbn [py_in]. unfold dict_mem. rewrite ?Ed. reflexivity.
  - unfold _normalize_field_names. rewrite Et. cbn [negb].
    intros [= <-]. left. split; [reflexivity|left; reflexivity].
Qed.

Lemma dict_set_keeps_head (k0 k : string) (v0 v : json) (r : dict json) :
  k0 <> k -> dict_set ((k0, v0) :: r) k v = (k0, v0) :: dict_set r k v.
Proof.
  intros H. cbn [dict_set]. apply String.eqb_neq in H. rewrite H. reflexivity.
Qed.

Lemma mappings_loop_keeps_head h (ms : dict (list string)) :
  forall (k0 : string) (v0 : json) (r : dict json),
    ~ In k0 (keys ms) ->
    exists r',
      mappings_loop (JDict h) ms ((k0, v0) :: r) = Ok ((k0, v0) :: r').
Proof.
  induction ms as [|[g names] rest IH]; intros k0 v0 r Hk.
  - exists r. reflexivity.
  - cbn [mappings_loop]. rewrite first_model_loop_dict. cbn [bind].
    assert (Hg : k0 <> g) by (intros ->; apply Hk; left; reflexivity).
    assert (Hr : ~ In k0 (keys rest)) by (intros H; apply Hk; right; exact H).
    destruct (first_present h names) as [v|].
    + rewrite (dict_set_keeps_head k0 g v0 v r Hg). apply IH. exact Hr.
    + apply IH. exact Hr.
Qed.

Lemma copy_loop_keeps_head items :
  forall (k0 : string) (v0 : json) (r : dict json),
    exists r', copy_loop items ((k0, v0) :: r) = (k0, v0) :: r'.
Proof.
  induction items as [|[f v] rest IH]; intros k0 v0 r.
  - exists r. reflexivity.
  - cbn [copy_loop].
    destruct (negb (dict_mem ((k0, v0) :: r) f) && negb (is_model_specific f)) eqn:E.
    + assert (Hf : k0 <> f).
      { intros ->. unfold dict_mem in E. cbn [dict_get] in E.
        rewrite String.eqb_refl in E. discriminate. }
      rewrite (dict_set_keeps_head k0 f v0 v r Hf). apply IH.
    + apply IH.
Qed.

(** In the series the normalizer builds, [time] comes first when it is
    there. *)
Lemma normalize_time_first (d h : dict json) :
  dict_get d "hourly" = Some (JDict h) ->
  exists nh,
    _normalize_field_names (JDict d) = Ok (JDict (dict_set d "hourly" (JDict nh))) /\
    forall t, dict_get nh "time" = Some t -> exists r, nh = ("time", t) :: r.
Proof.
  intros Hd.
  assert (Ht : py_truthy (JDict d) = true) by (destruct d; [discriminate|reflexivity]).
  destruct (dict_get h "time") as [t|] eqn:Et.
  - destruct (mappings_loop_keeps_head h field_mappings "time" t [])
      as (r1 & E1).
    { simpl. intuition discriminate. }
    destruct (copy_loop_keeps_head h "time" t r1) as (r2 & E2).
    exists (("time", t) :: r2). split.
    + unfold _normalize_field_names.
      rewrite Ht. cbn [negb py_in py_getitem py_items py_setitem bind].
      unfold dict_mem at 1. rewrite Hd.
      cbn [negb py_in py_getitem py_items py_setitem bind].
      unfold dict_mem. rewrite Et. cbn [bind dict_set]. rewrite E1.
      cbn [bind]. rewrite E2. reflexivity.
    + intros t'. cbn [dict_get]. rewrite String.eqb_refl.
      intros [= <-]. exists r2. reflexivity.
  - destruct (normalize_dict d h Hd) as (nh & E & _ & L & _).
    exists nh. split; [exact E|]. intros t. rewrite L, time_unbound, Et.
    replace (is_model_specific "time") with false by reflexivity. discriminate.
Qed.

(** X1: normalizing what the normalizer returned gives the same record
    again. *)
Theorem normalizer_second_pass_is_identity (j j' : json) :
  _normalize_field_names j = Ok j' ->
  _normalize_field_names j' = Ok j'.
Proof.
  intros H. destruct (normalize_inv j j' H) as [[-> _]|(d & h & -> & Hd)]; [exact H|].
  destruct (normalize_dict d h Hd) as (nh & E & N & L & _).
  destruct (normalize_time_first d h Hd) as (nh' & E' & Hfirst).
  assert (nh' = nh).
  { rewrite E in E'. injection E' as E'.
    assert (Some (JDict nh) = Some (JDict nh')) as Hs.
    { rewrite <- (dict_get_set_same d "hourly" (JDict nh)).
      rewrite <- (dict_get_set_same d "hourly" (JDict nh')). rewrite E'. reflexivity. }
    congruence. }
  subst nh'. rewrite E in H. injection H as <-.
  set (d' := dict_set d "hourly" (JDict nh)).
  assert (Hd' : dict_get d' "hourly" = Some (JDict nh))
    by apply dict_get_set_same.
  destruct (normalize_dict d' nh Hd') as (nh2 & E2 & _ & _ & I2).
  assert (Hno : forall k, In k (keys nh) -> is_model_specific k = false).
  { intros k Hk. destruct (is_model_specific k) eqn:Em; [|reflexivity].
    exfalso. apply (proj1 (dict_get_None_keys nh k)); [|exact Hk].
    rewrite L, Em. unfold canonical_binding.
    destruct (dict_get field_mappings k) as [names|] eqn:Ek; [|reflexivity].
    apply dict_get_Some_In in Ek.
    assert (is_model_specific k = false).
    { apply canonical_not_model_specific. right.
      change k with (fst (k, names)). apply in_map. exact Ek. }
    congruence. }
  rewrite E2, (I2 N Hno Hfirst).
  rewrite (dict_set_same_value d' "hourly" (JDict nh) Hd'). reflexivity.
Qed.

Lemma first_present_In h names v :
  first_present h names = Some v ->
  exists a, In a names /\ dict_get h a = Some v.
Proof.
  intros H. apply first_present_Some in H.
  destruct H as (pre & a & post & -> & _ & Ha).
  exists a. split; [apply in_or_app; right; left; reflexivity | exact Ha].
Qed.

(** X2: every value of the normalized series is a value of the raw series:
    the value of the field of the same name, or of one of the aliases the
    table lists for it.  The normalizer makes no value up. *)
Theorem normalizer_values_come_from_input (d h : dict json) :
  dict_get d "hourly" = Some (JDict h) ->
  exists nh,
    _normalize_field_names (JDict d) = Ok (JDict (dict_set d "hourly" (JDict nh))) /\
    forall k v,
      dict_get nh k = Some v ->
      dict_get h k = Some v \/
      exists names a,
        In (k, names) field_mappings /\ In a names /\ dict_get h a = Some v.
Proof.
  intros Hd. destruct (normalize_dict d h Hd) as (nh & E & _ & L & _).
  exists nh. split; [exact E|]. intros k v. rewrite L.
  unfold canonical_binding.
  destruct (dict_get field_mappings k) as [names|] eqn:Ek.
  - destruct (first_present h names) as [x|] eqn:Ef.
    + intros [= ->]. right. destruct (first_present_In h names v Ef) as (a & Ha & Hv).
      exists names, a. split; [apply dict_get_Some_In; exact Ek|]. auto.
    + destruct (is_model_specific k); [discriminate|]. auto.
  - destruct (is_model_specific k); [discriminate|]. auto.
Qed.

End NormalizerMore.

Lemma normalizer_second_pass_is_identity_witness :
  exists j',
    FieldNormalizer._normalize_field_names
      (JDict [("hourly", JDict sample_model_hourly)]) = Ok j' /\
    FieldNormalizer._normalize_field_names j' = Ok j'.
Proof.
  eexists. split; [vm_compute; reflexivity|].
  apply (normalizer_second_pass_is_identity
           (JDict [("hourly", JDict sample_model_hourly)])).
  vm_compute. reflexivity.
Defined.

Lemma normalizer_values_come_from_input_witness :
  exists nh,
    FieldNormalizer._normalize_field_names
      (JDict [("hourly", JDict sample_model_hourly)])
    = Ok (JDict (dict_set [("hourly", JDict sample_model_hourly)] "hourly"
                   (JDict nh))) /\
    dict_get nh "temperature_2m" <> None.
Proof.
  destruct (normalizer_values_come_from_input
              [("hourly", JDict sample_model_hourly)] sample_model_hourly eq_refl)
    as (nh & E & _).
  exists nh. split; [exact E|].
  vm_compute in E. injection E as <-. discriminate.
Defined.

(** ** The Fetch Client: the records it returns *)

Section FetchMore.
Context {W : Type} {O : Outside W}.
Variable config : WeatherStationConfig.

Lemma clean_values_id (values : list json) :
  WeatherDataManager.clean_values values = values.
Proof.
  unfold WeatherDataManager.clean_values.
  induction values as [|v r IH]; cbn [map]; [reflexivity|].
  rewrite IH. destruct v; reflexivity.
Qed.

Lemma clean_loop_append items : forall acc : dict json,
  NoDup (keys items) ->
  (forall k, In k (keys items) -> dict_get acc k = None) ->
  WeatherDataManager.clean_loop items acc = acc ++ items.
Proof.
  induction items as [|[param values] rest IH]; intros acc ND H.
  - symmetry. apply app_nil_r.
  - inversion ND as [|? ? Hp ND']; subst. cbn [WeatherDataManager.clean_loop].
    assert (Ev : match values with
                 | JList l => JList (WeatherDataManager.clean_values l)
                 | _ => values
                 end = values)
      by (destruct values; try reflexivity; rewrite clean_values_id; reflexivity).
    rewrite Ev, IH; [|exact ND'|].
    + rewrite dict_set_fresh by (apply H; left; reflexivity).
      rewrite <- app_assoc. reflexivity.
    + intros k Hk. rewrite dict_get_set_other; [apply H; right; exact Hk|].
      intros <-. contradiction.
Qed.

Lemma clean_nulls_dict (d h : dict json) :
  dict_get d "hourly" = Some (JDict h) ->
  NoDup (keys h) ->
  WeatherDataManager.clean_nulls (JDict d) = Ok (JDict d).
Proof.
  intros Hd ND. unfold WeatherDataManager.clean_nulls.
  cbn [py_in bind]. unfold dict_mem. rewrite Hd.
  cbn [py_getitem bind]. rewrite Hd. cbn [bind py_items py_setitem].
  rewrite (clean_loop_append h [] ND (fun _ _ => eq_refl)). cbn [app].
  rewrite (dict_set_same_value d "hourly" (JDict h) Hd). reflexivity.
Qed.

Lemma normalized_no_alias (h nh : dict json) :
  (forall k,
     dict_get nh k =
     match canonical_binding h k with
     | Some v => Some v
     | None => if FieldNormalizer.is_model_specific k then None else dict_get h k
     end) ->
  forall k, In k (keys nh) -> FieldNormalizer.is_model_specific k = false.
Proof.
  intros L k Hk. destruct (FieldNormalizer.is_model_specific k) eqn:Em; [|reflexivity].
  exfalso. apply (proj1 (dict_get_None_keys nh k)); [|exact Hk].
  rewrite L, Em. unfold canonical_binding.
  destruct (dict_get FieldNormalizer.field_mappings k) as [names|] eqn:Ek; [|reflexivity].
  apply dict_get_Some_In in Ek.
  assert (FieldNormalizer.is_model_specific k = false).
  { apply canonical_not_model_specific. right.
    change k with (fst (k, names)). apply in_map. exact Ek. }
  congruence.
Qed.

Lemma normalize_ok_canonical (j : json) (d1 : dict json) :
  FieldNormalizer._normalize_field_names j = Ok (JDict d1) ->
  canonical_series d1.
Proof.
  intros H hv Hhv.
  destruct (normalize_inv j (JDict d1) H) as [[<- [Hf|Hin]]|(d & h & -> & Hd)].
  - destruct d1; [discriminate|discriminate].
  - cbn [py_in] in Hin. unfold dict_mem in Hin. rewrite Hhv in Hin. discriminate.
  - destruct (normalize_dict d h Hd) as (nh & E & N & L & _).
    rewrite E in H. injection H as <-.
    rewrite dict_get_set_same in Hhv. injection Hhv as <-.
    exists nh. split; [reflexivity|]. split; [exact N|].
    apply (normalized_no_alias h nh L).
Qed.

(** X3: the block of the data manager's fetch client that "cleans" null
    values changes nothing: on a record the normalizer returned it gives the
    same record back, nulls included, whenever it does not raise. *)
Theorem clean_nulls_changes_nothing (j j' r : json) :
  FieldNormalizer._normalize_field_names j = Ok j' ->
  WeatherDataManager.clean_nulls j' = Ok r ->
  r = j'.
Proof.
  intros H Hc.
  destruct (normalize_inv j j' H) as [[-> [Hf|Hin]]|(d & h & -> & Hd)].
  - unfold WeatherDataManager.clean_nulls in Hc.
    destruct j as [| [|] | q | nf | x | l | d]; cbn [py_in bind] in Hc;
      try discriminate.
    + cbn [py_truthy] in Hf. apply negb_false_iff, String.eqb_eq in Hf. subst x.
      replace (is_substring "hourly" "") with false in Hc by reflexivity.
      congruence.
    + destruct l; [|discriminate]. cbn [existsb] in Hc. congruence.
    + destruct d; [|discriminate]. unfold dict_mem in Hc. cbn [dict_get] in Hc.
      congruence.
  - unfold WeatherDataManager.clean_nulls in Hc. rewrite Hin in Hc.
    cbn [bind] in Hc. congruence.
  - destruct (normalize_dict d h Hd) as (nh & E & N & _).
    rewrite E in H. injection H as <-.
    rewrite (clean_nulls_dict (dict_set d "hourly" (JDict nh)) nh) in Hc;
      [congruence | apply dict_get_set_same | exact N].
Qed.

(** What the data manager's fetch client returns when it returns a
    record. *)
Lemma bulk_fetch_shape city coordinates (s : state W) data :
  fst (WeatherDataManager._fetch_live_weather_data config city coordinates s)
  = Some data ->
  exists d latitude longitude,
    data = JDict d /\
    py_unpack2 coordinates = Ok (latitude, longitude) /\
    dict_get d "city" = Some (JStr city) /\
    dict_get d "coordinates" = Some coordinates /\
    dict_get d "latitude" = Some latitude /\
    dict_get d "longitude" = Some longitude /\
    canonical_series d.
Proof.
  unfold WeatherDataManager._fetch_live_weather_data.
  destruct (py_unpack2 coordinates) as [[latitude longitude]|e]; [|discriminate].
  destruct (requests_get (WeatherDataManager.build_request config latitude longitude)
              (ext s)) as [r w].
  destruct (WeatherDataManager.process_response city coordinates latitude
              longitude r) as [data'|e] eqn:Ep; [|discriminate].
  cbn [fst]. intros [= <-].
  unfold WeatherDataManager.process_response in Ep.
  destruct r as [resp|]; cbn [bind] in Ep; [|discriminate].
  destruct (raise_for_status resp); cbn [bind] in Ep; [|discriminate].
  destruct (json_body resp) as [j|]; cbn [bind] in Ep; [|discriminate].
  unfold WeatherDataManager._normalize_field_names in Ep.
  destruct (FieldNormalizer._normalize_field_names j) as [j1|] eqn:En;
    cbn [bind] in Ep; [|discriminate].
  destruct (WeatherDataManager.clean_nulls j1) as [j2|] eqn:Ec;
    cbn [bind] in Ep; [|discriminate].
  pose proof (clean_nulls_changes_nothing j j1 j2 En Ec) as ->.
  destruct j1 as [| | | | | | d1]; cbn [py_setitem bind] in Ep; try discriminate.
  injection Ep as <-. eexists _, latitude, longitude.
  split; [reflexivity|]. split; [reflexivity|].
  repeat split.
  - repeat rewrite dict_get_set_other by discriminate. apply dict_get_set_same.
  - repeat rewrite dict_get_set_other by discriminate. apply dict_get_set_same.
  - repeat rewrite dict_get_set_other by discriminate. apply dict_get_set_same.
  - apply dict_get_set_same.
  - intros hv. repeat rewrite dict_get_set_other by discriminate.
    apply (normalize_ok_canonical j d1 En).
Qed.

(** What the live fetch client returns when it returns a record. *)
Lemma live_fetch_shape city coordinates (s : state W) data :
  fst (LiveWeatherDataManager._fetch_live_weather_data config city coordinates s)
  = Some data ->
  exists d latitude longitude fetch_time,
    data = JDict d /\
    py_unpack2 coordinates = Ok (latitude, longitude) /\
    dict_get d "city" = Some (JStr city) /\
    dict_get d "coordinates" = Some coordinates /\
    dict_get d "latitude" = Some latitude /\
    dict_get d "longitude" = Some longitude /\
    dict_get d "fetch_time" = Some (JStr fetch_time) /\
    canonical_series d.
Proof.
  unfold LiveWeatherDataManager._fetch_live_weather_data,
    LiveWeatherDataManager.on_exception.
  destruct (py_unpack2 coordinates) as [[latitude longitude]|e];
    [|destruct e; discriminate].
  destruct (requests_get (LiveWeatherDataManager.build_request config latitude
                            longitude) (ext s)) as [r w].
  destruct (LiveWeatherDataManager.process_response city coordinates latitude
              longitude (datetime_now_isoformat w) r) as [data'|e] eqn:Ep;
    [|destruct e; discriminate].
  cbn [fst]. intros [= <-].
  unfold LiveWeatherDataManager.process_response in Ep.
  destruct r as [resp|]; cbn [bind] in Ep; [|discriminate].
  destruct (raise_for_status resp); cbn [bind] in Ep; [|discriminate].
  destruct (json_body resp) as [j|]; cbn [bind] in Ep; [|discriminate].
  unfold LiveWeatherDataManager._normalize_field_names in Ep.
  destruct (FieldNormalizer._normalize_field_names j) as [j1|] eqn:En;
    cbn [bind] in Ep; [|discriminate].
  destruct j1 as [| | | | | | d1]; cbn [py_setitem bind] in Ep; try discriminate.
  injection Ep as <-. eexists _, latitude, longitude, (datetime_now_isoformat w).
  split; [reflexivity|]. split; [reflexivity|].
  repeat split.
  - repeat rewrite dict_get_set_other by discriminate. apply dict_get_set_same.
  - repeat rewrite dict_get_set_other by discriminate. apply dict_get_set_same.
  - repeat rewrite dict_get_set_other by discriminate. apply dict_get_set_same.
  - repeat rewrite dict_get_set_other by discriminate. apply dict_get_set_same.
  - apply dict_get_set_same.
  - intros hv. repeat rewrite dict_get_set_other by discriminate.
    apply (normalize_ok_canonical j d1 En).
Qed.

(** X4: a record either fetch client returns is a mapping that carries the
    city it was asked for, the coordinates as given and the latitude and
    longitude unpacked from them (the live client adds the fetch time), and
    its hourly series, when it has one, is a mapping with distinct keys and
    no model-qualified name. *)
Theorem fetched_record_carries_its_location
    (city : string) (coordinates : json) (s : state W) (data : json) :
  (fst (WeatherDataManager._fetch_live_weather_data config city coordinates s)
   = Some data ->
   exists d latitude longitude,
     data = JDict d /\
     py_unpack2 coordinates = Ok (latitude, longitude) /\
     dict_get d "city" = Some (JStr city) /\
     dict_get d "coordinates" = Some coordinates /\
     dict_get d "latitude" = Some latitude /\
     dict_get d "longitude" = Some longitude /\
     canonical_series d) /\
  (fst (LiveWeatherDataManager._fetch_live_weather_data config city coordinates s)
   = Some data ->
   exists d latitude longitude fetch_time,
     data = JDict d /\
     py_unpack2 coordinates = Ok (latitude, longitude) /\
     dict_get d "city" = Some (JStr city) /\
     dict_get d "coordinates" = Some coordinates /\
     dict_get d "latitude" = Some latitude /\
     dict_get d "longitude" = Some longitude /\
     dict_get d "fetch_time" = Some (JStr fetch_time) /\
     canonical_series d).
Proof.
  split; [apply bulk_fetch_shape | apply live_fetch_shape].
Qed.

(** X5: on a record the data manager's fetch client returned the Quality
    Validator answers [True] or [False]; it never raises, so the batch
    counts such a record as a failure only when the validator says
    [False]. *)
Theorem validator_total_on_fetched_records
    (city : string) (coordinates : json) (s : state W) (data : json) :
  fst (WeatherDataManager._fetch_live_weather_data config city coordinates s)
  = Some data ->
  exists b,
    WeatherDataManager._has_valid_weather_data data = Ok b /\
    WeatherDataManager.accepted (Some data) = Ok b.
Proof.
  intros H.
  destruct (bulk_fetch_shape city coordinates s data H)
    as (d & lat & lon & -> & _ & Hc & _ & _ & _ & Hs).
  assert (Ht : py_truthy (JDict d) = true) by (destruct d; [discriminate|reflexivity]).
  assert (Hv : exists b, WeatherDataManager._has_valid_weather_data (JDict d) = Ok b).
  { destruct (dict_get d "hourly") as [hv|] eqn:Eh.
    - destruct (Hs hv Eh) as (h & -> & _).
      rewrite (validator_dict d h Eh). eexists. reflexivity.
    - exists false. unfold WeatherDataManager._has_valid_weather_data.
      rewrite Ht. cbn [negb py_in bind]. unfold dict_mem. rewrite Eh. reflexivity. }
  destruct Hv as (b & Hb). exists b. split; [exact Hb|].
  cbn [WeatherDataManager.accepted]. rewrite Ht. exact Hb.
Qed.

End FetchMore.

Lemma clean_nulls_changes_nothing_witness :
  WeatherDataManager.clean_nulls
    (JDict [("hourly", JDict [("time", sample_times);
                             ("temperature_2m", JList [JNum (19 # 1); JNull])])])
  = Ok (JDict [("hourly", JDict [("time", sample_times);
                                 ("temperature_2m", JList [JNum (19 # 1); JNull])])]).
Proof.
  assert (E : exists r,
             WeatherDataManager.clean_nulls
               (JDict [("hourly", JDict [("time", sample_times);
                                        ("temperature_2m",
                                          JList [JNum (19 # 1); JNull])])])
             = Ok r) by (eexists; vm_compute; reflexivity).
  destruct E as (r & E). rewrite E. f_equal.
  apply (clean_nulls_changes_nothing
           (JDict [("hourly", JDict [("time", sample_times);
                                    ("temperature_2m_ecmwf_ifs025",
                                      JList [JNum (19 # 1); JNull])])])
           _ r); [vm_compute; reflexivity | exact E].
Defined.

Lemma fetched_record_carries_its_location_witness :
  exists d,
    fst (WeatherDataManager._fetch_live_weather_data sample_config "Paris"
           sample_paris sample_state_live) = Some (JDict d) /\
    dict_get d "city" = Some (JStr "Paris") /\
    dict_get d "latitude" = Some (JNum (4885 # 100)).
Proof.
  destruct (proj1 (@fetched_record_carries_its_location sim sim_outside
                     sample_config "Paris" sample_paris sample_state_live
                     (match fst (WeatherDataManager._fetch_live_weather_data
                                   sample_config "Paris" sample_paris
                                   sample_state_live) with
                      | Some x => x
                      | None => JNull
                      end)))
    as (d & lat & lon & Ed & Eu & Ec & _ & El & _).
  - vm_compute. reflexivity.
  - exists d. split; [rewrite <- Ed; vm_compute; reflexivity|].
    split; [exact Ec|]. rewrite El. f_equal. vm_compute in Eu. congruence.
Defined.

Lemma validator_total_on_fetched_records_witness :
  exists data,
    fst (WeatherDataManager._fetch_live_weather_data sample_config "Paris"
           sample_paris sample_state_live) = Some data /\
    WeatherDataManager.accepted (Some data) = Ok true.
Proof.
  eexists. split; [vm_compute; reflexivity|].
  match goal with
  | |- WeatherDataManager.accepted (Some ?x) = _ =>
      destruct (@validator_total_on_fetched_records sim sim_outside
                  sample_config "Paris" sample_paris sample_state_live x)
        as (b & _ & Hb)
  end.
  - vm_compute. reflexivity.
  - rewrite Hb. f_equal. vm_compute in Hb. congruence.
Defined.

(** ** The update of the snapshot file *)

Section UpdateMore.
Import WeatherDataManager.
Context {W : Type} {O : Outside W}.
Variable config : WeatherStationConfig.

(** X7: unless the catalog file holds a JSON object that is not empty,
    [_perform_update] returns [False] and does nothing at all: no request,
    no log line of the batch, no write. *)
Theorem update_without_catalog_does_nothing (s : state W) :
  (forall items, locations_file (ext s) = Ok (JDict items) -> items = []) ->
  _perform_update config s = (false, s).
Proof.
  intros H. unfold _perform_update, _load_locations.
  destruct (locations_file (ext s)) as [j|e]; cbn [bind try_except]; [|reflexivity].
  destruct j as [| b | q | nf | x | l | items]; cbn [py_len bind try_except py_truthy negb];
    try reflexivity.
  - destruct (negb (String.eqb x "")); cbn [negb]; reflexivity.
  - destruct l; cbn [negb]; reflexivity.
  - rewrite (H items eq_refl). reflexivity.
Qed.

(** X8: [_fetch_data_with_rate_limiting] returns normally exactly on a
    catalog that is a JSON object with at least one location; on the empty
    object it raises [ZeroDivisionError], after a loop that did nothing. *)
Theorem batch_needs_a_location (locations : json) (s : state W) :
  ((exists data,
      fst (_fetch_data_with_rate_limiting config locations s) = Ok data) <->
   exists items, locations = JDict items /\ items <> []) /\
  _fetch_data_with_rate_limiting config (JDict []) s
  = (Raise ZeroDivisionError, s).
Proof.
  split; [|reflexivity]. split.
  - intros (data & H). exact (batch_ok_inv config locations s data H).
  - intros (items & -> & Hne). rewrite (batch_dict config items s Hne).
    eexists. reflexivity.
Qed.

End UpdateMore.

Lemma update_without_catalog_does_nothing_witness :
  WeatherDataManager._perform_update sample_config (sample_state_aged 3600)
  = (false, sample_state_aged 3600).
Proof.
  apply update_without_catalog_does_nothing.
  intros items H. vm_compute in H. discriminate.
Defined.

Lemma batch_needs_a_location_witness :
  exists data,
    fst (WeatherDataManager._fetch_data_with_rate_limiting sample_config
           (JDict sample_catalog) sample_state_second_fails) = Ok data.
Proof.
  apply (proj2 (proj1 (batch_needs_a_location sample_config
                         (JDict sample_catalog) sample_state_second_fails))).
  exists sample_catalog. split; [reflexivity | discriminate].
Defined.

(** ** The Location Catalog of the live manager *)

Section CatalogMore.
Import LiveWeatherDataManager.
Context {W : Type} {O : Outside W}.

Lemma Qgt_bool_true (a b : Q) : Qgt_bool a b = true <-> (b < a)%Q.
Proof.
  unfold Qgt_bool. rewrite negb_true_iff. split.
  - intros H. apply Qnot_le_lt. intros Hle. apply Qle_bool_iff in Hle. congruence.
  - intros H. apply not_true_is_false. intros Hle. apply Qle_bool_iff in Hle.
    exact (Qlt_not_le _ _ H Hle).
Qed.

Lemma Qgt_bool_false (a b : Q) : Qgt_bool a b = false <-> (a <= b)%Q.
Proof.
  unfold Qgt_bool. rewrite negb_false_iff. apply Qle_bool_iff.
Qed.

(** X9: the catalog is cached for 300 seconds.  A call that reads the file
    returns its content; after it, every call made while the clock is at
    most 300 seconds past that read returns the same catalog and leaves the
    state as it is, whatever the file holds by then. *)
Theorem catalog_cache_serves_for_five_minutes
    (s s2 : state W) (c : json) (n : nat) :
  (_locations_cache s = None \/
   (300 # 1 < time_time (ext s) - _locations_cache_time s)%Q) ->
  locations_file (ext s) = Ok c ->
  py_len c = Ok n ->
  py_truthy c = true ->
  fst (load_locations s) = c /\
  (_locations_cache s2 = _locations_cache (snd (load_locations s)) ->
   _locations_cache_time s2 = _locations_cache_time (snd (load_locations s)) ->
   (time_time (ext s2) - time_time (ext s) <= 300 # 1)%Q ->
   load_locations s2 = (c, s2)).
Proof.
  intros Hexp Hfile Hlen Htruthy.
  assert (E1 : load_locations s
               = (c, with_locations_cache_time
                       (with_locations_cache s (Some c)) (time_time (ext s)))).
  { unfold load_locations.
    assert (Hx : match _locations_cache s with
                 | None => true
                 | Some _ =>
                     Qgt_bool (time_time (ext s) - _locations_cache_time s) (300 # 1)
                 end = true).
    { destruct Hexp as [->|Hlt]; [reflexivity|].
      destruct (_locations_cache s); [apply Qgt_bool_true; exact Hlt | reflexivity]. }
    rewrite Hx, Hfile. cbn [with_locations_cache ext]. rewrite Hlen.
    cbn [with_locations_cache_time with_locations_cache _locations_cache].
    rewrite Htruthy. reflexivity. }
  rewrite E1. cbn [fst snd]. split; [reflexivity|].
  cbn [with_locations_cache_time with_locations_cache _locations_cache
         _locations_cache_time].
  intros Hc Ht Hage. unfold load_locations. rewrite Hc, Ht.
  assert (Hx : Qgt_bool (time_time (ext s2) - time_time (ext s)) (300 # 1) = false)
    by (apply Qgt_bool_false; exact Hage).
  rewrite Hx, Hc, Htruthy. reflexivity.
Qed.

(** X10: a catalog file that cannot be read gives the empty catalog, not an
    exception, and the failure is not cached: when the cache had expired by
    the clock, the next call reads the file again and returns its content as
    soon as it can be read. *)
Theorem catalog_read_failure_is_not_cached
    (s s2 : state W) (e : exn) (c : json) (n : nat) :
  (300 # 1 < time_time (ext s) - _locations_cache_time s)%Q ->
  locations_file (ext s) = Raise e ->
  fst (load_locations s) = JDict [] /\
  (_locations_cache s2 = _locations_cache (snd (load_locations s)) ->
   _locations_cache_time s2 = _locations_cache_time (snd (load_locations s)) ->
   (time_time (ext s) <= time_time (ext s2))%Q ->
   locations_file (ext s2) = Ok c ->
   py_len c = Ok n ->
   py_truthy c = true ->
   fst (load_locations s2) = c).
Proof.
  intros Hexp Hfile.
  assert (E1 : load_locations s
               = (JDict [], with_locations_cache s (Some (JDict [])))).
  { unfold load_locations.
    assert (Hx : match _locations_cache s with
                 | None => true
                 | Some _ =>
                     Qgt_bool (time_time (ext s) - _locations_cache_time s) (300 # 1)
                 end = true)
      by (destruct (_locations_cache s); [apply Qgt_bool_true; exact Hexp | reflexivity]).
    rewrite Hx, Hfile. reflexivity. }
  rewrite E1. cbn [fst snd with_locations_cache _locations_cache
                     _locations_cache_time].
  split; [reflexivity|].
  intros Hc Ht Hmono Hfile2 Hlen Htruthy. unfold load_locations. rewrite Hc, Ht.
  assert (Hx : Qgt_bool (time_time (ext s2) - _locations_cache_time s) (300 # 1)
               = true).
  { apply Qgt_bool_true. eapply Qlt_le_trans; [exact Hexp|].
    unfold Qminus. apply Qplus_le_l. exact Hmono. }
  rewrite Hx, Hfile2. cbn [with_locations_cache ext]. rewrite Hlen.
  cbn [with_locations_cache_time with_locations_cache _locations_cache].
  rewrite Htruthy. reflexivity.
Qed.

End CatalogMore.

Lemma catalog_cache_serves_for_five_minutes_witness :
  fst (LiveWeatherDataManager.load_locations sample_state_live)
  = JDict sample_catalog /\
  LiveWeatherDataManager.load_locations sample_state_cached
  = (JDict sample_catalog, sample_state_cached).
Proof.
  destruct (@catalog_cache_serves_for_five_minutes sim sim_outside
              sample_state_live sample_state_cached (JDict sample_catalog) 3)
    as (E1 & E2).
  - left. reflexivity.
  - reflexivity.
  - reflexivity.
  - reflexivity.
  - split; [exact E1|]. apply E2.
    + reflexivity.
    + reflexivity.
    + vm_compute. discriminate.
Defined.

Lemma catalog_read_failure_is_not_cached_witness :
  fst (LiveWeatherDataManager.load_locations (sample_state_aged 3600))
  = JDict [] /\
  fst (LiveWeatherDataManager.load_locations sample_state_recovered)
  = JDict sample_catalog.
Proof.
  destruct (@catalog_read_failure_is_not_cached sim sim_outside
              (sample_state_aged 3600) sample_state_recovered OSError
              (JDict sample_catalog) 3)
    as (E1 & E2).
  - vm_compute. reflexivity.
  - reflexivity.
  - split; [exact E1|]. apply E2.
    + reflexivity.
    + reflexivity.
    + vm_compute. discriminate.
    + reflexivity.
    + reflexivity.
    + reflexivity.
Defined.

(** ** The limit of the multi-city fetch *)

Section MultiCityMore.
Import LiveWeatherDataManager.
Context {W : Type} {O : Outside W}.
Variable config : WeatherStationConfig.

Lemma cities_loop_count len_locations limit start_time items :
  (0 < limit)%Z ->
  forall (b b' : batch) (s s' : state W),
    (List.length (result_map b) <= count b)%nat ->
    (Z.of_nat (count b) <= limit)%Z ->
    cities_loop config len_locations limit start_time items b s = (Ok b', s') ->
    (List.length (result_map b') <= count b')%nat /\
    (Z.of_nat (count b') <= limit)%Z.
Proof.
  intros Hpos.
  induction items as [|[city coordinates] rest IH]; intros b b' s s' Hlen Hcount;
    cbn [cities_loop]; cbv zeta.
  - intros [= <- _]. auto.
  - destruct (negb (limit =? 0)%Z && (limit <=? Z.of_nat (count b))%Z) eqn:Eb.
    + intros [= <- _]. auto.
    + assert (Hlt : (Z.of_nat (count b) < limit)%Z).
      { apply andb_false_iff in Eb. destruct Eb as [Eb|Eb].
        - apply negb_false_iff, Z.eqb_eq in Eb. lia.
        - apply Z.leb_gt in Eb. exact Eb. }
      destruct (_fetch_live_weather_data config city coordinates s) as [data s1].
      match goal with
      | |- context [cities_loop _ _ _ _ _ ?b1 ?s2] =>
          set (s3 := s2); set (b2 := b1) in *
      end.
      assert (Hb : (List.length (result_map b2) <= count b2)%nat
                   /\ (Z.of_nat (count b2) <= limit)%Z).
      { subst b2. destruct data as [d|]; [|cbn; split; [exact Hlen | lia]].
        destruct (truthy (Some d)); cbn; [|split; [exact Hlen | lia]].
        pose proof (length_dict_set_le (result_map b) city d). split; lia. }
      destruct Hb as [Hb1 Hb2].
      destruct ((0 <? count b2)%nat && (count b2 mod 10 =? 0)%nat).
      * destruct (Qeq_bool (Qminus (time_time (ext s3)) start_time) (0 # 1));
          [discriminate|].
        apply IH; assumption.
      * apply IH; assumption.
Qed.

(** X11: with a positive limit the multi-city fetch never returns more
    locations than the limit, however long the catalog is. *)
Theorem multi_city_fetch_respects_limit
    (locations : json) (limit : Z) (s : state W) (data : dict json) :
  (0 < limit)%Z ->
  fst (_fetch_multiple_cities_data config locations limit s) = Ok data ->
  (Z.of_nat (List.length data) <= limit)%Z.
Proof.
  intros Hpos. unfold _fetch_multiple_cities_data.
  destruct (py_len locations) as [n|]; [|discriminate].
  destruct (py_items locations) as [items|]; [|discriminate].
  destruct (cities_loop config n limit (time_time (ext s)) items
              {| result_map := []; count := 0; errors := 0 |} s)
    as [[b|e] s1] eqn:E; cbn [fst]; [|discriminate].
  intros [= <-].
  apply (cities_loop_count n limit (time_time (ext s)) items Hpos) in E;
    cbn [result_map count List.length]; [lia | lia | lia].
Qed.

Lemma cities_loop_zero_limit len_locations start_time items :
  forall (b : batch) (s : state W) (L : Z),
    (Z.of_nat (count b + List.length items) < L)%Z ->
    cities_loop config len_locations 0 start_time items b s
    = cities_loop config len_locations L start_time items b s.
Proof.
  induction items as [|[city coordinates] rest IH]; intros b s L HL;
    cbn [cities_loop]; cbv zeta; [reflexivity|].
  cbn [List.length] in HL.
  replace (negb (0 =? 0)%Z && (0 <=? Z.of_nat (count b))%Z) with false
    by reflexivity.
  replace (negb (L =? 0)%Z && (L <=? Z.of_nat (count b))%Z) with false.
  2:{ symmetry. apply andb_false_iff. right. apply Z.leb_gt. lia. }
  destruct (_fetch_live_weather_data config city coordinates s) as [data s1].
  match goal with
  | |- context [cities_loop _ _ 0%Z _ _ ?b1 ?s2] =>
      set (s3 := s2); set (b2 := b1) in *
  end.
  assert (Hb : (count b2 <= S (count b))%nat).
  { subst b2. destruct data as [d|]; [|cbn; lia].
    destruct (truthy (Some d)); cbn; lia. }
  destruct ((0 <? count b2)%nat && (count b2 mod 10 =? 0)%nat).
  - destruct (Qeq_bool (Qminus (time_time (ext s3)) start_time) (0 # 1));
      [reflexivity|].
    apply IH. lia.
  - apply IH. lia.
Qed.

(** X12: the edge values of the limit.  The limit 0 switches the limit off:
    the fetch does what it does under any limit larger than the catalog.  A
    negative limit stops the loop before the first location: the result is
    empty and the backend is not contacted. *)
Theorem multi_city_fetch_limit_edges (items : dict json) (s : state W) :
  (forall L,
     (Z.of_nat (List.length items) < L)%Z ->
     _fetch_multiple_cities_data config (JDict items) 0 s
     = _fetch_multiple_cities_data config (JDict items) L s) /\
  (forall limit,
     (limit < 0)%Z ->
     _fetch_multiple_cities_data config (JDict items) limit s
     = (Ok [], logger s (InfoBatchFetchCompleted 0 0))).
Proof.
  split.
  - intros L HL. unfold _fetch_multiple_cities_data. cbn [py_len py_items].
    rewrite (cities_loop_zero_limit (List.length items) (time_time (ext s)) items
               {| result_map := []; count := 0; errors := 0 |} s L);
      [reflexivity | cbn [count Nat.add]; exact HL].
  - intros limit Hneg. unfold _fetch_multiple_cities_data. cbn [py_len py_items].
    destruct items as [|[city coordinates] rest]; cbn [cities_loop]; [reflexivity|].
    cbn [count].
    replace (negb (limit =? 0)%Z && (limit <=? Z.of_nat 0)%Z) with true;
      [reflexivity|].
    symmetry. apply andb_true_iff. split.
    + apply negb_true_iff, Z.eqb_neq. lia.
    + apply Z.leb_le. lia.
Qed.

End MultiCityMore.

Lemma multi_city_fetch_respects_limit_witness :
  exists data,
    fst (LiveWeatherDataManager._fetch_multiple_cities_data sample_config
           (JDict sample_catalog) 2 sample_state_live) = Ok data /\
    keys data = ["Paris"; "Tokyo"] /\
    (Z.of_nat (List.length data) <= 2)%Z.
Proof.
  eexists. split; [vm_compute; reflexivity|]. split; [reflexivity|].
  apply (@multi_city_fetch_respects_limit sim sim_outside sample_config
           (JDict sample_catalog) 2 sample_state_live); [lia|].
  vm_compute. reflexivity.
Defined.

Lemma multi_city_fetch_limit_edges_witness :
  LiveWeatherDataManager._fetch_multiple_cities_data sample_config
    (JDict sample_catalog) 0 sample_state_live
  = LiveWeatherDataManager._fetch_multiple_cities_data sample_config
      (JDict sample_catalog) 300 sample_state_live /\
  LiveWeatherDataManager._fetch_multiple_cities_data sample_config
    (JDict sample_catalog) (-1) sample_state_live
  = (Ok [], logger sample_state_live (InfoBatchFetchCompleted 0 0)).
Proof.
  destruct (@multi_city_fetch_limit_edges sim sim_outside sample_config
              sample_catalog sample_state_live) as (H0 & Hneg).
  split; [apply H0; simpl; lia | apply Hneg; lia].
Defined.

(** ** What a response can render *)




(** ** The answers of the route [/api/data/weather] *)

Section WeatherRouteMore.
Import Index.
Context {W : Type} {O : Outside W}.
Variable config : WeatherStationConfig.

Lemma length_take_le (limit : Z) (items : dict json) :
  (List.length (take limit items) <= List.length items)%nat.
Proof.
  unfold take.
  pose proof (length_dict_of_items (firstn (Z.to_nat limit) items)) as H1.
  rewrite length_firstn in H1. lia.
Qed.

(** X13: an answer with live data has status 200 and at least one location;
    its list of locations is the keys of its data, [fetched] is their number,
    and [fetched <= requested <= total_available] with [requested] at most
    the clamped limit. *)
Theorem live_answer_is_consistent
    (limit : Z) (s : state W) (data : dict json) (locations : list string)
    (total_available requested fetched : nat) :
  resp_content (fst (get_weather_data config limit s))
  = LiveContent data locations total_available requested fetched ->
  resp_status (fst (get_weather_data config limit s)) = 200%Z /\
  data <> [] /\
  locations = keys data /\
  fetched = List.length data /\
  (fetched <= requested)%nat /\
  (requested <= total_available)%nat /\
  (Z.of_nat requested <= sanitize_limit limit)%Z.
Proof.
  unfold get_weather_data.
  assert (Hl : (0 <= sanitize_limit limit)%Z) by (unfold sanitize_limit; lia).
  destruct (LIVE_DATA_ENABLED config).
  - unfold live_branch.
    destruct (LiveWeatherDataManager.load_locations s) as [locs s0].
    destruct (py_truthy locs); cbn [negb]; [|discriminate].
    destruct (py_items locs) as [items|]; [|discriminate].
    pose proof (fetch_multiple_length config (take (sanitize_limit limit) items)
                  (sanitize_limit limit) s0) as Hf.
    destruct (LiveWeatherDataManager._fetch_multiple_cities_data config
                (JDict (take (sanitize_limit limit) items))
                (sanitize_limit limit) s0) as [[got|e] s1];
      cbn [fst] in *; [|discriminate].
    specialize (Hf got eq_refl).
    pose proof (length_take (sanitize_limit limit) items Hl).
    pose proof (length_take_le (sanitize_limit limit) items).
    destruct got as [|kv got'].
    + destruct (LiveWeatherDataManager.get_api_status config s1). discriminate.
    + unfold render. destruct (renderable (JDict (kv :: got')));
        cbn [bind try_except fst resp_content resp_status internal_server_error];
        [|discriminate].
      intros [= <- <- <- <- <-].
      repeat split; [discriminate | exact Hf | assumption | assumption].
  - unfold file_branch.
    destruct (WeatherDataManager.load_weather_data s) as [loaded|].
    + cbn [fst]. destruct loaded as [| | | | x | l | d]; cbn [py_len bind try_except];
        try discriminate.
      * destruct (sanitize_limit limit <? Z.of_nat (String.length x))%Z; discriminate.
      * destruct (sanitize_limit limit <? Z.of_nat (List.length l))%Z; discriminate.
      * unfold render.
        destruct (sanitize_limit limit <? Z.of_nat (List.length d))%Z;
          cbn [py_items bind];
          match goal with
          | |- context [renderable ?j] => destruct (renderable j)
          end; discriminate.
    + destruct (get_data_info config s). discriminate.
Qed.





End WeatherRouteMore.

Lemma live_answer_is_consistent_witness :
  Index.resp_status
    (fst (Index.get_weather_data sample_config 2 sample_state_live)) = 200%Z.
Proof.
  pose (c := Index.resp_content
               (fst (Index.get_weather_data sample_config 2 sample_state_live))).
  refine (proj1 (@live_answer_is_consistent sim sim_outside sample_config 2
                   sample_state_live
                   match c with Index.LiveContent d _ _ _ _ => d | _ => [] end
                   match c with Index.LiveContent _ l _ _ _ => l | _ => [] end
                   match c with Index.LiveContent _ _ t _ _ => t | _ => 0%nat end
                   match c with Index.LiveContent _ _ _ r _ => r | _ => 0%nat end
                   match c with Index.LiveContent _ _ _ _ f => f | _ => 0%nat end
                   _)).
  vm_compute. reflexivity.
Defined.


(** ** config.py: the list settings *)

Section ParseListProperties.
Import ConfigLists.

Lemma lstrip_head (s : string) (c : ascii) (r : string) :
  lstrip s = String c r -> is_space c = false.
Proof.
  induction s as [|a s IH]; cbn [lstrip]; [discriminate|].
  destruct (is_space a) eqn:Ea; [exact IH|].
  intros [= <- _]. exact Ea.
Qed.

Lemma lstrip_fixed (c : ascii) (r : string) :
  is_space c = false -> lstrip (String c r) = String c r.
Proof. intros H. cbn [lstrip]. rewrite H. reflexivity. Qed.

Lemma rstrip_head (c : ascii) (r : string) :
  is_space c = false -> exists r', rstrip (String c r) = String c r'.
Proof.
  intros H. cbn [rstrip]. destruct (rstrip r) as [|a r'].
  - rewrite H. eexists. reflexivity.
  - eexists. reflexivity.
Qed.

Lemma rstrip_idempotent (s : string) : rstrip (rstrip s) = rstrip s.
Proof.
  induction s as [|c r IH]; [reflexivity|]. cbn [rstrip].
  destruct (rstrip r) as [|a r'] eqn:Er.
  - destruct (is_space c) eqn:Ec; [reflexivity|].
    cbn [rstrip]. rewrite Ec. reflexivity.
  - change (rstrip (String c (String a r'))) with
      (match rstrip (String a r') with
       | EmptyString => if is_space c then EmptyString else String c EmptyString
       | x => String c x
       end).
    rewrite IH. reflexivity.
Qed.

Lemma strip_idempotent (s : string) : strip (strip s) = strip s.
Proof.
  unfold strip. destruct (lstrip s) as [|c r] eqn:El; [reflexivity|].
  pose proof (lstrip_head s c r El) as Hc.
  destruct (rstrip_head c r Hc) as (r' & Er). rewrite Er.
  rewrite (lstrip_fixed c r' Hc), <- Er. apply rstrip_idempotent.
Qed.

Lemma lstrip_chars (s : string) (c : ascii) :
  In c (list_ascii_of_string (lstrip s)) -> In c (list_ascii_of_string s).
Proof.
  induction s as [|a s IH]; cbn [lstrip]; [tauto|].
  destruct (is_space a); [|tauto].
  intros H. right. apply IH. exact H.
Qed.

Lemma rstrip_chars (s : string) (c : ascii) :
  In c (list_ascii_of_string (rstrip s)) -> In c (list_ascii_of_string s).
Proof.
  induction s as [|a s IH]; cbn [rstrip]; [tauto|].
  destruct (rstrip s) as [|b r'].
  - destruct (is_space a); cbn [list_ascii_of_string In]; tauto.
  - cbn [list_ascii_of_string In] in *. tauto.
Qed.

Lemma split_items_lack_separator (sep : ascii) (s item : string) :
  In item (split sep s) -> ~ In sep (list_ascii_of_string item).
Proof.
  revert item. induction s as [|c r IH]; intros item; cbn [split].
  - intros [<-|[]]. cbn. tauto.
  - destruct (Ascii.eqb c sep) eqn:Ec.
    + intros [<-|H]; [cbn; tauto | apply IH; exact H].
    + apply Ascii.eqb_neq in Ec. destruct (split sep r) as [|x xs].
      * intros [<-|[]]. cbn. intros [H|[]]. congruence.
      * intros [<-|H].
        -- cbn [list_ascii_of_string In]. intros [H|H]; [congruence|].
           apply (IH x); [left; reflexivity | exact H].
        -- apply IH. right. exact H.
Qed.

(** X15: every item [_parse_list] returns is a non-empty string without
    surrounding whitespace and without a comma. *)
Theorem parse_list_items_are_clean (value item : string) :
  In item (_parse_list value) ->
  item <> "" /\
  strip item = item /\
  ~ In ","%char (list_ascii_of_string item).
Proof.
  unfold _parse_list.
  destruct (String.eqb value "" || String.eqb value "*").
  - intros [<-|[]]. split; [discriminate|]. split; [reflexivity|].
    cbn. intros [H|[]]. discriminate.
  - intros H. apply in_map_iff in H. destruct H as (x & <- & Hx).
    apply filter_In in Hx. destruct Hx as [Hx Hne].
    apply negb_true_iff, String.eqb_neq in Hne.
    split; [exact Hne|]. split; [apply strip_idempotent|].
    intros Hc. apply (split_items_lack_separator ","%char value x Hx).
    apply lstrip_chars, rstrip_chars. exact Hc.
Qed.

Lemma split_without_separator (sep : ascii) (x : string) :
  ~ In sep (list_ascii_of_string x) -> split sep x = [x].
Proof.
  induction x as [|c r IH]; intros H; cbn [split]; [reflexivity|].
  cbn [list_ascii_of_string In] in H.
  destruct (Ascii.eqb c sep) eqn:Ec.
  - apply Ascii.eqb_eq in Ec. tauto.
  - rewrite IH by tauto. reflexivity.
Qed.

Lemma split_append (sep : ascii) (x t : string) :
  ~ In sep (list_ascii_of_string x) ->
  split sep (x ++ String sep t) = x :: split sep t.
Proof.
  induction x as [|c r IH]; intros H; cbn [append split].
  - rewrite Ascii.eqb_refl. reflexivity.
  - cbn [list_ascii_of_string In] in H.
    destruct (Ascii.eqb c sep) eqn:Ec.
    + apply Ascii.eqb_eq in Ec. tauto.
    + rewrite IH by tauto. reflexivity.
Qed.

Lemma split_concat (items : list string) :
  items <> [] ->
  (forall x, In x items -> ~ In ","%char (list_ascii_of_string x)) ->
  split ","%char (String.concat "," items) = items.
Proof.
  induction items as [|x rest IH]; intros Hne H; [congruence|].
  destruct rest as [|y rest'].
  - cbn [String.concat]. apply split_without_separator. apply H. left. reflexivity.
  - change (String.concat "," (x :: y :: rest'))
      with (String.append x (String ","%char (String.concat "," (y :: rest')))).
    rewrite split_append by (apply H; left; reflexivity).
    rewrite IH; [reflexivity | discriminate |].
    intros z Hz. apply H. right. exact Hz.
Qed.

(** X16: a list of clean items (non-empty, no surrounding whitespace, no
    comma) that is joined with commas is parsed back into the same list. *)
Theorem parse_list_round_trip (items : list string) :
  items <> [] ->
  (forall x, In x items ->
             x <> "" /\ strip x = x /\ ~ In ","%char (list_ascii_of_string x)) ->
  _parse_list (String.concat "," items) = items.
Proof.
  intros Hne H.
  assert (Hs : split ","%char (String.concat "," items) = items)
    by (apply split_concat; [exact Hne | intros x Hx; apply (H x Hx)]).
  unfold _parse_list.
  destruct (String.eqb (String.concat "," items) "") eqn:E1.
  - apply String.eqb_eq in E1. rewrite E1 in Hs. cbn [split] in Hs.
    destruct (H "") as [Hx _]; [rewrite <- Hs; left; reflexivity | congruence].
  - destruct (String.eqb (String.concat "," items) "*") eqn:E2; cbn [orb].
    + apply String.eqb_eq in E2. rewrite E2 in Hs. rewrite <- Hs. reflexivity.
    + rewrite Hs. clear Hs E1 E2 Hne.
      induction items as [|x rest IH]; [reflexivity|]. cbn [filter].
      destruct (H x (or_introl eq_refl)) as (Hx1 & Hx2 & _).
      rewrite Hx2. apply String.eqb_neq in Hx1. rewrite Hx1. cbn [negb map].
      rewrite Hx2. f_equal. apply IH. intros y Hy. apply H. right. exact Hy.
Qed.

End ParseListProperties.

Lemma parse_list_items_are_clean_witness :
  ConfigLists._parse_list " http://a.org , ,http://b.org,"
  = ["http://a.org"; "http://b.org"] /\
  ConfigLists.strip "http://a.org" = "http://a.org".
Proof.
  split; [reflexivity|].
  apply (parse_list_items_are_clean " http://a.org , ,http://b.org,").
  left. reflexivity.
Defined.

Lemma parse_list_round_trip_witness :
  ConfigLists._parse_list "localhost,example.org"
  = ["localhost"; "example.org"].
Proof.
  apply (parse_list_round_trip ["localhost"; "example.org"]); [discriminate|].
  intros x [<-|[<-|[]]]; (split; [discriminate|]); (split; [reflexivity|]);
    cbn; intuition discriminate.
Defined.

(** ** config.py: the validation *)

Section ValidationProperties.
Import ConfigValidation.

(** X17: [validate] answers [True] exactly when both ports are between 1 and
    65535, [PAST_DAYS] is between 1 and 365, the retry settings are not
    negative and the directories could be created; it prints errors exactly
    when it answers [False]; and the settings an empty environment gives pass
    it. *)
Theorem validate_accepts_exactly_the_ranges
    (c : WeatherStationConfig) (srv : ServerSettings) (makedirs : result unit) :
  (fst (validate c srv makedirs) = true <->
   (1 <= PORT srv <= 65535)%Z /\
   (1 <= SELF_HOSTED_PORT srv <= 65535)%Z /\
   (1 <= PAST_DAYS c <= 365)%Z /\
   (0 <= MAX_RETRIES srv)%Z /\
   (0 <= RETRY_DELAY srv)%Z /\
   makedirs = Ok tt) /\
  (fst (validate c srv makedirs) = false <-> snd (validate c srv makedirs) <> []) /\
  validate (Config.init empty_environ) (init_server empty_server_environ) (Ok tt)
  = (true, []).
Proof.
  split; [|split; [|reflexivity]].
  - unfold validate, append_if.
    destruct (Z.leb_spec 1 (PORT srv)), (Z.leb_spec (PORT srv) 65535),
      (Z.leb_spec 1 (SELF_HOSTED_PORT srv)),
      (Z.leb_spec (SELF_HOSTED_PORT srv) 65535),
      (Z.ltb_spec (PAST_DAYS c) 1), (Z.ltb_spec 365 (PAST_DAYS c)),
      (Z.ltb_spec (MAX_RETRIES srv) 0), (Z.ltb_spec (RETRY_DELAY srv) 0),
      makedirs as [[]|e];
      cbn [negb andb orb app fst];
      (split; [intros Hv; try discriminate Hv; repeat split; (lia || reflexivity)
              | intros (V1 & V2 & V3 & V4 & V5 & V6);
                try reflexivity; try discriminate V6; exfalso; lia]).
  - unfold validate.
    match goal with
    | |- context [match ?e with [] => _ | _ :: _ => _ end] => destruct e
    end; cbn [fst snd]; split; intros Hv; congruence.
Qed.

End ValidationProperties.

Lemma validate_accepts_exactly_the_ranges_witness :
  fst (ConfigValidation.validate sample_config
         (ConfigValidation.init_server
            {| ConfigValidation.env_WEATHER_STATION_PORT := Some 8443%Z;
               ConfigValidation.env_SELF_HOSTED_PORT := None;
               ConfigValidation.env_MAX_RETRIES := Some 0%Z;
               ConfigValidation.env_RETRY_DELAY := None |})
         (Ok tt)) = true.
Proof.
  apply (proj1 (validate_accepts_exactly_the_ranges _ _ _)).
  cbn. repeat split; try lia.
Defined.

(** ** index.py: the key of the update route, the logs, the city routes *)

Section RouteProperties.
Import Routes.
Context {W : Type} {O : Outside W}.
Variable config : WeatherStationConfig.
Variable API_KEY : string.

Lemma prefix_empty (s : string) : String.prefix "" s = true.
Proof. destruct s; reflexivity. Qed.

Lemma prefix_chars (p s : string) :
  String.prefix p s = true ->
  forall c, In c (list_ascii_of_string p) -> In c (list_ascii_of_string s).
Proof.
  revert p. induction s as [|b s IH]; intros p H c Hc.
  - destruct p; [destruct Hc | discriminate].
  - destruct p as [|a p]; [destruct Hc|]. cbn [String.prefix] in H.
    destruct (ascii_dec a b) as [->|]; [|discriminate].
    cbn [list_ascii_of_string In] in *. destruct Hc as [Hc|Hc]; [left; exact Hc|].
    right. apply (IH p H c Hc).
Qed.

Lemma replace_without_space (s : string) :
  ~ In " "%char (list_ascii_of_string s) ->
  forall fuel, replace_loop fuel "Bearer " "" s = s.
Proof.
  induction s as [|c r IH]; intros Hs fuel.
  - destruct fuel; reflexivity.
  - destruct fuel as [|fuel]; [reflexivity|]. cbn [replace_loop].
    destruct (String.prefix "Bearer " (String c r)) eqn:Ep.
    + exfalso. apply Hs. apply (prefix_chars "Bearer " (String c r) Ep).
      cbn. tauto.
    + rewrite IH; [reflexivity|]. intros H. apply Hs. right. exact H.
Qed.

Lemma replace_loop_step (fuel : nat) (old new : string) (c : ascii) (r : string) :
  replace_loop (S fuel) old new (String c r) =
  if String.prefix old (String c r)
  then String.append new
         (replace_loop fuel old new (drop (String.length old) (String c r)))
  else String c (replace_loop fuel old new r).
Proof. reflexivity. Qed.

Lemma bearer_token (k : string) :
  ~ In " "%char (list_ascii_of_string k) ->
  py_replace "Bearer " "" ("Bearer " ++ k) = k.
Proof.
  intros Hk. unfold py_replace.
  change (String.append "Bearer " k)
    with (String "B" (String "e" (String "a" (String "r" (String "e"
            (String "r" (String " " k))))))).
  rewrite replace_loop_step.
  assert (Ep : String.prefix "Bearer " (String "B" (String "e" (String "a"
                 (String "r" (String "e" (String "r" (String " " k))))))) = true).
  { cbn [String.prefix].
    repeat match goal with
           | |- context [ascii_dec ?a ?b] =>
               destruct (ascii_dec a b); [|congruence]
           end.
    apply prefix_empty. }
  rewrite Ep.
  change (drop (String.length "Bearer ")
            (String "B" (String "e" (String "a" (String "r" (String "e"
               (String "r" (String " " k)))))))) with k.
  cbn [append].
  apply replace_without_space. exact Hk.
Qed.

(** X18: the update route runs the update only for a request that presents
    the configured key.  A request whose key is empty or different is
    answered 401 and changes nothing; a request with the key is answered 200
    or 500 as [_perform_update] succeeds or fails.  The key is the
    [X-API-Key] header when that is not empty, and otherwise what is left of
    the [Authorization] header once ["Bearer "] is removed. *)
Theorem force_update_requires_the_key
    (headers : string -> option string) (s : state W) :
  ((presented_key headers = "" \/ presented_key headers <> API_KEY) ->
   force_data_update config API_KEY headers s
   = ({| upd_success := false; upd_error := Some "Unauthorized";
         upd_status := 401 |}, s)) /\
  (presented_key headers <> "" ->
   presented_key headers = API_KEY ->
   snd (force_data_update config API_KEY headers s)
   = snd (WeatherDataManager._perform_update config s) /\
   upd_success (fst (force_data_update config API_KEY headers s))
   = fst (WeatherDataManager._perform_update config s) /\
   upd_status (fst (force_data_update config API_KEY headers s))
   = if fst (WeatherDataManager._perform_update config s) then 200%Z else 500%Z) /\
  (forall k, headers "X-API-Key" = Some k -> k <> "" ->
             presented_key headers = k) /\
  (forall k,
     (headers "X-API-Key" = None \/ headers "X-API-Key" = Some "") ->
     headers "Authorization" = Some (String.append "Bearer " k) ->
     ~ In " "%char (list_ascii_of_string k) ->
     presented_key headers = k).
Proof.
  split; [|split; [|split]].
  - intros H. unfold force_data_update.
    destruct (String.eqb (presented_key headers) "") eqn:E1; cbn [orb];
      [reflexivity|].
    destruct (String.eqb (presented_key headers) API_KEY) eqn:E2; cbn [negb];
      [|reflexivity].
    apply String.eqb_neq in E1. apply String.eqb_eq in E2. tauto.
  - intros Hne Heq.
    assert (E2 : String.eqb (presented_key headers) API_KEY = true)
      by (apply String.eqb_eq; exact Heq).
    apply String.eqb_neq in Hne.
    unfold force_data_update, WeatherDataManager.force_update.
    rewrite Hne, E2. cbn [orb negb].
    destruct (WeatherDataManager._perform_update config s) as [[|] s1];
      cbn [fst snd upd_success upd_status]; auto.
  - intros k Hk Hne. unfold presented_key. rewrite Hk.
    apply String.eqb_neq in Hne. rewrite Hne. reflexivity.
  - intros k Hx Ha Hk. unfold presented_key. rewrite Ha, (bearer_token k Hk).
    destruct Hx as [->| ->]; [reflexivity|].
    rewrite String.eqb_refl. reflexivity.
Qed.

(** X19: the logs route is not found unless debug is on.  With debug on and
    a positive limit it returns the latest entries, as many as the limit or
    all when there are fewer; with limit 0 it returns every entry; with a
    negative limit it drops as many of the oldest entries as the limit
    says. *)
Theorem logs_route_returns_the_latest {A : Type} (logs : list A) (limit : Z) :
  get_logs false logs limit = LogsNotFound /\
  ((0 < limit)%Z ->
   exists older latest,
     logs = older ++ latest /\
     List.length latest = Nat.min (Z.to_nat limit) (List.length logs) /\
     get_logs true logs limit = LogsContent latest (List.length logs)) /\
  get_logs true logs 0 = LogsContent logs (List.length logs) /\
  ((limit < 0)%Z ->
   get_logs true logs limit
   = LogsContent (skipn (Z.to_nat (- limit)) logs) (List.length logs)).
Proof.
  split; [reflexivity|]. split; [|split].
  - intros Hpos. unfold get_logs, py_slice_from. cbn [negb].
    replace (- limit <? 0)%Z with true by (symmetry; apply Z.ltb_lt; lia).
    set (i := Z.to_nat (Z.max 0 (- limit + Z.of_nat (List.length logs)))).
    exists (firstn i logs), (skipn i logs).
    split; [symmetry; apply firstn_skipn|]. split; [|reflexivity].
    rewrite length_skipn. subst i. lia.
  - unfold get_logs, py_slice_from. cbn [negb Z.opp Z.ltb Z.compare].
    replace (Z.to_nat (Z.min 0 (Z.of_nat (List.length logs)))) with 0%nat by lia.
    reflexivity.
  - intros Hneg. unfold get_logs, py_slice_from. cbn [negb].
    replace (- limit <? 0)%Z with false by (symmetry; apply Z.ltb_ge; lia).
    f_equal.
    destruct (Z.min_spec (- limit) (Z.of_nat (List.length logs))) as [[_ ->]|[Hle ->]];
      [reflexivity|].
    rewrite Nat2Z.id. rewrite !skipn_all2 by lia. reflexivity.
Qed.

Lemma load_locations_ext (s : state W) :
  ext (snd (LiveWeatherDataManager.load_locations s)) = ext s /\
  output_file (snd (LiveWeatherDataManager.load_locations s)) = output_file s /\
  log (snd (LiveWeatherDataManager.load_locations s)) = log s.
Proof.
  unfold LiveWeatherDataManager.load_locations.
  destruct (match _locations_cache s with
            | Some _ =>
                Qgt_bool (time_time (ext s) - _locations_cache_time s) (300 # 1)
            | None => true
            end).
  - destruct (locations_file (ext s)) as [loaded|e].
    + destruct (py_len loaded);
        cbn [with_locations_cache with_locations_cache_time _locations_cache];
        [destruct (py_truthy loaded) | ]; cbn; auto.
    + cbn. auto.
  - destruct (_locations_cache s) as [c|]; [destruct (py_truthy c)|]; cbn; auto.
Qed.

(** X20: a city that is not in the catalog is answered 404 by both city
    routes without a request to the backend: only the catalog cache may
    change.  With live data off both routes answer 503 and change
    nothing. *)
Theorem unknown_city_is_not_fetched
    (city : string) (s : state W) (items : dict json) :
  (LIVE_DATA_ENABLED config = true ->
   city <> "" ->
   fst (LiveWeatherDataManager.load_locations s) = JDict items ->
   dict_get items city = None ->
   get_live_city_weather config city s
   = (city_not_found, snd (LiveWeatherDataManager.load_locations s)) /\
   get_current_conditions config city s
   = (city_not_found, snd (LiveWeatherDataManager.load_locations s)) /\
   ext (snd (LiveWeatherDataManager.load_locations s)) = ext s /\
   log (snd (LiveWeatherDataManager.load_locations s)) = log s) /\
  (LIVE_DATA_ENABLED config = false ->
   get_live_city_weather config city s = (live_data_not_enabled, s) /\
   get_current_conditions config city s = (live_data_not_enabled, s)).
Proof.
  split.
  - intros Hlive Hc Hl Hn.
    assert (Eg : LiveWeatherDataManager.get_weather_data config (Some city) s
                 = (Ok None, snd (LiveWeatherDataManager.load_locations s))).
    { unfold LiveWeatherDataManager.get_weather_data.
      destruct (LiveWeatherDataManager.load_locations s) as [locations s0].
      cbn [fst snd] in *. subst locations.
      destruct items as [|kv items']; [reflexivity|]. cbn [py_truthy negb].
      apply String.eqb_neq in Hc. rewrite Hc. cbn [py_in]. unfold dict_mem.
      rewrite Hn. reflexivity. }
    destruct (load_locations_ext s) as (E1 & _ & E3).
    split; [|split; [|split; [exact E1 | exact E3]]].
    + unfold get_live_city_weather. rewrite Hlive, Eg. reflexivity.
    + unfold get_current_conditions,
        LiveWeatherDataManager.get_current_conditions.
      rewrite Hlive, Eg. reflexivity.
  - intros Hlive. unfold get_live_city_weather, get_current_conditions.
    rewrite Hlive. split; reflexivity.
Qed.

End RouteProperties.

Lemma force_update_requires_the_key_witness :
  Routes.upd_status
    (fst (Routes.force_data_update sample_config "s3cr3tKey"
            sample_wrong_headers sample_state_second_fails)) = 401%Z /\
  Routes.upd_status
    (fst (Routes.force_data_update sample_config "s3cr3tKey"
            sample_bearer_headers sample_state_second_fails)) = 200%Z.
Proof.
  destruct (@force_update_requires_the_key sim sim_outside sample_config
              "s3cr3tKey" sample_wrong_headers sample_state_second_fails)
    as (H401 & _).
  destruct (@force_update_requires_the_key sim sim_outside sample_config
              "s3cr3tKey" sample_bearer_headers sample_state_second_fails)
    as (_ & Hrun & _ & Hbearer).
  assert (Hk : Routes.presented_key sample_bearer_headers = "s3cr3tKey").
  { apply Hbearer; [left; reflexivity | reflexivity |].
    cbn. intuition discriminate. }
  split.
  - rewrite H401; [reflexivity|]. right. vm_compute. discriminate.
  - destruct Hrun as (_ & _ & Hs); [rewrite Hk; discriminate | exact Hk |].
    rewrite Hs. vm_compute. reflexivity.
Defined.

Lemma logs_route_returns_the_latest_witness :
  Routes.get_logs true ["home"; "comparison"; "intmap"; "license"] 2
  = Routes.LogsContent ["intmap"; "license"] 4.
Proof.
  destruct (logs_route_returns_the_latest
              ["home"; "comparison"; "intmap"; "license"] 2)
    as (_ & H & _).
  destruct H as (older & latest & _ & _ & E); [lia|].
  rewrite E. vm_compute in E. injection E as <-. reflexivity.
Defined.

Lemma unknown_city_is_not_fetched_witness :
  fst (Routes.get_live_city_weather sample_config "Berlin" sample_state_live)
  = Routes.city_not_found /\
  backend (ext (snd (Routes.get_live_city_weather sample_config "Berlin"
                       sample_state_live)))
  = backend (ext sample_state_live).
Proof.
  destruct (@unknown_city_is_not_fetched sim sim_outside sample_config "Berlin"
              sample_state_live sample_catalog) as (H & _).
  destruct H as (E1 & _ & E3 & _); try reflexivity; [discriminate|].
  rewrite E1. cbn [fst snd]. rewrite E3. split; reflexivity.
Defined.

Section LocationsRouteProperties.
Import Routes.
Context {W : Type} {O : Outside W}.


End LocationsRouteProperties.

